(** * Inventory Management System: order totals, stock status and payment status

    A shallow embedding of the form logic of the inventory console
    (BillFormModal.tsx, Bills.tsx, ProductFormModal.tsx and
    SalesOrderFormModal.tsx) together with the properties the
    specification states about it.

    Modelling conventions.
    - A JavaScript [number] is an exact rational ([Q]).  NaN, the
      infinities and binary rounding are outside the model; every handler
      below guards its parsed input against NaN before using it, and the
      result of [parseFloat] is represented by [option number] with [None]
      standing for NaN.  Equality of computed amounts is [Qeq] ([==]).
      The statements about paying the remaining due and about returning
      deducted stock do not use the cancellation [x - y + y == x], which
      holds for rationals and not for rounded binary numbers.
    - React state is passed explicitly: a handler that calls
      [setFormData (prev => next)] is a function from the previous state to
      the next one.
    - Calls to [toast] and to the [onSave] property are recorded, in order,
      in the list of effects a handler returns.
    - Values produced by [Math.random] and [Date.now] are parameters. *)

From Stdlib Require Import ZArith QArith Qminmax Bool List String Ascii Lia.
From Stdlib Require Import DecimalString.
Import ListNotations.

Local Open Scope string_scope.
Local Open Scope Q_scope.

(** ** JavaScript primitives used by the handlers *)

Module JS.

Definition number := Q.

(** [Math.max] and [Math.min] on two arguments. *)
Definition Math_max (a b : number) : number := Qmax a b.
Definition Math_min (a b : number) : number := Qmin a b.

(** Relational operators; [a === 0] on numbers is [eqb a 0]. *)
Definition leb (a b : number) : bool := Qle_bool a b.
Definition geb (a b : number) : bool := Qle_bool b a.
Definition ltb (a b : number) : bool := negb (Qle_bool b a).
Definition gtb (a b : number) : bool := negb (Qle_bool a b).
Definition eqb (a b : number) : bool := Qeq_bool a b.

(** Truthiness of a number, of a string and of an optional field. *)
Definition truthy (a : number) : bool := negb (Qeq_bool a 0).

Definition truthyString (s : string) : bool :=
  match s with
  | EmptyString => false
  | String _ _ => true
  end.

Definition truthyOpt (o : option number) : bool :=
  match o with
  | Some a => truthy a
  | None => false
  end.

Definition truthyId (o : option string) : bool :=
  match o with
  | Some s => truthyString s
  | None => false
  end.

(** [x || 0] for an optional number and [x || d] for an optional string. *)
Definition orZero (o : option number) : number :=
  match o with
  | Some a => if truthy a then a else 0
  | None => 0
  end.

Definition orString (o : option string) (d : string) : string :=
  match o with
  | Some s => if truthyString s then s else d
  | None => d
  end.

(** [o === s] where [o] is an optional string field and [s] a string. *)
Definition optEqb (o : option string) (s : string) : bool :=
  match o with
  | Some t => String.eqb t s
  | None => false
  end.

(** [a === b] on two optional string fields. *)
Definition optOptEqb (a b : option string) : bool :=
  match a, b with
  | Some s, Some t => String.eqb s t
  | None, None => true
  | _, _ => false
  end.

(** [isNaN(val) ? 0 : Math.max(0, val)] applied to a [parseFloat] result. *)
Definition parsedOrZeroClamped (val : option number) : number :=
  match val with
  | None => 0
  | Some v => Math_max 0 v
  end.

(** [n.toString()] for a non-negative integer: its decimal digits. *)
Definition toString (n : nat) : string :=
  NilEmpty.string_of_uint (Nat.to_uint n).

Fixpoint zeros (k : nat) : string :=
  match k with
  | O => EmptyString
  | S k' => String "0"%char (zeros k')
  end.

(** [s.padStart(targetLength, "0")] *)
Definition padStart (targetLength : nat) (s : string) : string :=
  (zeros (targetLength - String.length s) ++ s)%string.

End JS.

(** ** Toasts raised by the pages *)

Module Toast.

Inductive Kind : Type := success | info | error.

Record t : Type := mk {
  kind : Kind;
  title : string;
  description : option string
}.

End Toast.

(** ** A handler monad: effects emitted so far, and early [return] *)

Module Handler.

Section WithEffect.
Variable E : Type.

(** The effects emitted in order, and [None] once the handler has
    returned early. *)
Definition t (A : Type) : Type := (list E * option A)%type.

Definition ret {A} (a : A) : t A := ([], Some a).

Definition bind {A B} (m : t A) (f : A -> t B) : t B :=
  match m with
  | (es, None) => (es, None)
  | (es, Some a) => let (es', r) := f a in ((es ++ es')%list, r)
  end.

Definition emit (e : E) : t unit := ([e], Some tt).

(** The statement [return;]. *)
Definition exit {A} : t A := ([], None).

(** [if (c) { m }] *)
Definition when (c : bool) (m : t unit) : t unit :=
  if c then m else ret tt.

Definition effects {A} (m : t A) : list E := fst m.

End WithEffect.

Arguments ret {E A} a.
Arguments bind {E A B} m f.
Arguments emit {E} e.
Arguments exit {E A}.
Arguments when {E} c m.
Arguments effects {E A} m.

End Handler.

Declare Scope handler_scope.
Delimit Scope handler_scope with handler.
Notation "x <- m ;; k" := (Handler.bind m (fun x => k))
  (at level 61, m at next level, right associativity) : handler_scope.
Notation "m ;; k" := (Handler.bind m (fun _ => k))
  (at level 61, right associativity) : handler_scope.

(** ** BillFormModal.tsx *)

Module BillFormModal.
Import JS.

Inductive BillStatus : Type := Unpaid | PartiallyPaid | Paid.

Definition BillStatus_eqb (a b : BillStatus) : bool :=
  match a, b with
  | Unpaid, Unpaid | PartiallyPaid, PartiallyPaid | Paid, Paid => true
  | _, _ => false
  end.

Record BillFormData : Type := mkBillFormData {
  id : option string;
  billNo : string;
  purchaseOrderId : string;
  poReference : string;
  supplierName : string;
  amount : number;
  paidAmount : number;
  date : Z;
  dueDate : Z;
  status : BillStatus;
  notes : string
}.

(** The purchase orders and suppliers handed to the modal are untyped in
    the source; these records hold the fields the modal reads. *)
Record PurchaseOrder : Type := mkPurchaseOrder {
  po_id : string;
  po_referenceNo : string;
  po_supplierId : string;
  po_grandTotal : option number;
  po_completed : bool  (* status === "Completed" *)
}.

Record Supplier : Type := mkSupplier {
  sup_id : string;
  sup_shopName : option string
}.

(** Object spread with one or more fields overridden. *)
Definition set_status (s : BillStatus) (b : BillFormData) : BillFormData :=
  mkBillFormData (id b) (billNo b) (purchaseOrderId b) (poReference b)
    (supplierName b) (amount b) (paidAmount b) (date b) (dueDate b) s (notes b).

Definition set_paidAmount (p : number) (b : BillFormData) : BillFormData :=
  mkBillFormData (id b) (billNo b) (purchaseOrderId b) (poReference b)
    (supplierName b) (amount b) p (date b) (dueDate b) (status b) (notes b).

Definition set_amount (a : number) (b : BillFormData) : BillFormData :=
  mkBillFormData (id b) (billNo b) (purchaseOrderId b) (poReference b)
    (supplierName b) a (paidAmount b) (date b) (dueDate b) (status b) (notes b).

Definition set_billNo (s : string) (b : BillFormData) : BillFormData :=
  mkBillFormData (id b) s (purchaseOrderId b) (poReference b)
    (supplierName b) (amount b) (paidAmount b) (date b) (dueDate b)
    (status b) (notes b).

Definition set_date (d : Z) (b : BillFormData) : BillFormData :=
  mkBillFormData (id b) (billNo b) (purchaseOrderId b) (poReference b)
    (supplierName b) (amount b) (paidAmount b) d (dueDate b) (status b)
    (notes b).

Definition set_dueDate (d : Z) (b : BillFormData) : BillFormData :=
  mkBillFormData (id b) (billNo b) (purchaseOrderId b) (poReference b)
    (supplierName b) (amount b) (paidAmount b) (date b) d (status b)
    (notes b).

Definition set_notes (s : string) (b : BillFormData) : BillFormData :=
  mkBillFormData (id b) (billNo b) (purchaseOrderId b) (poReference b)
    (supplierName b) (amount b) (paidAmount b) (date b) (dueDate b)
    (status b) s.

(** The text of a toast.  The message of the insufficient-payment toast
    interpolates the formatted total; the number is kept, its rendering by
    [Intl.NumberFormat] is not modelled. *)
Inductive Description : Type :=
| Text (s : string)
| TotalPaymentLess (totalPaid : number).

Inductive Effect : Type :=
| toast_error (title : string) (description : Description)
| toast_info (title : string) (description : Description)
| onSave (data : BillFormData).

(** The two pieces of component state. *)
Record FormState : Type := mkFormState {
  formData : BillFormData;
  newPaymentAmount : number
}.

(** [defaultFormData]; [now] is [Date.now()]. *)
Definition defaultFormData (now : Z) : BillFormData :=
  mkBillFormData None "" "" "" "" 0 0 now (now + 86400000 * 30)%Z Unpaid "".

(** The [useEffect] that loads the form when the modal opens; [generated]
    is the freshly generated bill number. *)
Definition openForm (now : Z) (generated : string)
    (bill : option BillFormData) : FormState :=
  match bill with
  | Some b => mkFormState b 0
  | None => mkFormState (set_billNo generated (defaultFormData now)) 0
  end.

Definition handlePurchaseOrderChange (purchaseOrders : list PurchaseOrder)
    (suppliers : list Supplier) (poId : string) (st : FormState) : FormState :=
  match find (fun p => String.eqb (po_id p) poId) purchaseOrders with
  | Some po =>
      let supplier :=
        find (fun s => String.eqb (sup_id s) (po_supplierId po)) suppliers in
      let prev := formData st in
      mkFormState
        (mkBillFormData (id prev) (billNo prev) (po_id po) (po_referenceNo po)
           (orString (match supplier with
                      | Some s => sup_shopName s
                      | None => None
                      end) "Unknown Supplier")
           (orZero (po_grandTotal po)) 0
           (date prev) (dueDate prev) (status prev) (notes prev))
        (newPaymentAmount st)
  | None => st
  end.

Definition handleStatusChange (s : BillStatus) (st : FormState) : FormState :=
  let fd := formData st in
  let prev := set_status s fd in
  match s with
  | Paid =>
      let due := Math_max 0 (amount fd - paidAmount fd) in
      mkFormState prev due
  | Unpaid => mkFormState (set_paidAmount 0 prev) 0
  | PartiallyPaid => mkFormState prev (newPaymentAmount st)
  end.

(** A call [handleChange(field, value)] with a value of the field's type. *)
Inductive FieldEdit : Type :=
| EditBillNo (v : string)
| EditAmount (v : number)
| EditPaidAmount (v : number)
| EditDate (v : Z)
| EditDueDate (v : Z)
| EditNotes (v : string).

Definition handleChange (e : FieldEdit) (prev : BillFormData) : BillFormData :=
  match e with
  | EditBillNo v => set_billNo v prev
  | EditAmount v => set_amount (Math_max 0 v) prev
  | EditPaidAmount v => set_paidAmount (Math_max 0 v) prev
  | EditDate v => set_date v prev
  | EditDueDate v => set_dueDate v prev
  | EditNotes v => set_notes v prev
  end.

(** The [onChange] of the "Pay Now" input; [val] is [parseFloat] of its
    text. *)
Definition payNowChange (val : option number) (st : FormState) : FormState :=
  mkFormState (formData st) (parsedOrZeroClamped val).

Local Open Scope handler_scope.

Definition handleSubmit (formData : BillFormData) (newPaymentAmount : number)
    : Handler.t Effect unit :=
  Handler.when (negb (truthyString (purchaseOrderId formData)))
    (Handler.emit (toast_error "Selection Required"
       (Text "Please select a related Purchase Order to record this bill.")) ;;
     Handler.exit) ;;
  let totalPaid :=
    Math_min (amount formData) (paidAmount formData + newPaymentAmount) in
  finalStatus <-
    (if BillStatus_eqb (status formData) PartiallyPaid then
       Handler.when (leb totalPaid 0)
         (Handler.emit (toast_error "Invalid Amount"
            (Text "Total paid amount must be greater than 0 for partial payments.")) ;;
          Handler.exit) ;;
       if geb totalPaid (amount formData) then
         Handler.emit (toast_info "Status Updated"
           (Text "Bill has been fully settled and status marked as Paid.")) ;;
         Handler.ret Paid
       else Handler.ret (status formData)
     else Handler.ret (status formData)) ;;
  Handler.when (BillStatus_eqb (status formData) Paid
                && ltb totalPaid (amount formData))
    (Handler.emit (toast_error "Insufficient Payment"
       (TotalPaymentLess totalPaid)) ;;
     Handler.exit) ;;
  Handler.emit (onSave (set_paidAmount totalPaid (set_status finalStatus formData))).

(** The events the rendered form can deliver.  A control that is disabled
    or not rendered delivers nothing: the purchase-order select is disabled
    while an existing bill is edited and lists completed orders only, the
    status select is disabled until a purchase order is chosen, and the
    "Pay Now" input is rendered only while the status is "Partially Paid". *)
Inductive Event : Type :=
| SelectPurchaseOrder (poId : string)
| SelectStatus (s : BillStatus)
| TypePayNow (val : option number)
| PickDate (d : Z)
| PickDueDate (d : Z)
| RegenerateBillNo (generated : string).

Section Form.
Variable bill : option BillFormData.
Variable purchaseOrders : list PurchaseOrder.
Variable suppliers : list Supplier.

Definition editingExisting : bool :=
  match bill with
  | Some b => truthyId (id b)
  | None => false
  end.

(** The select offers the completed purchase orders only. *)
Definition offered (poId : string) : bool :=
  existsb (fun po => po_completed po && String.eqb (po_id po) poId)
    purchaseOrders.

Definition step (st : FormState) (ev : Event) : FormState :=
  match ev with
  | SelectPurchaseOrder poId =>
      if editingExisting then st
      else if offered poId
      then handlePurchaseOrderChange purchaseOrders suppliers poId st
      else st
  | SelectStatus s =>
      if truthyString (purchaseOrderId (formData st))
      then handleStatusChange s st
      else st
  | TypePayNow val =>
      if BillStatus_eqb (status (formData st)) PartiallyPaid
      then payNowChange val st
      else st
  | PickDate d =>
      mkFormState (handleChange (EditDate d) (formData st)) (newPaymentAmount st)
  | PickDueDate d =>
      mkFormState (handleChange (EditDueDate d) (formData st))
        (newPaymentAmount st)
  | RegenerateBillNo g =>
      mkFormState (handleChange (EditBillNo g) (formData st))
        (newPaymentAmount st)
  end.

Definition run (now : Z) (generated : string) (evs : list Event) : FormState :=
  fold_left step evs (openForm now generated bill).

(** Pressing the submit button in the state reached by [evs]. *)
Definition submit (now : Z) (generated : string) (evs : list Event)
    : list Effect :=
  let st := run now generated evs in
  Handler.effects (handleSubmit (formData st) (newPaymentAmount st)).

End Form.

(** The bill handed to [onSave], if any. *)
Fixpoint saved (es : list Effect) : option BillFormData :=
  match es with
  | [] => None
  | onSave data :: _ => Some data
  | _ :: rest => saved rest
  end.

Definition isError (e : Effect) : bool :=
  match e with
  | toast_error _ _ => true
  | _ => false
  end.

End BillFormModal.

(** ** Bills.tsx: the page that owns the bill collection *)

Module Bills.
Import JS.
Import BillFormModal.

Record PageState : Type := mkPageState {
  bills : list BillFormData;
  isModalOpen : bool;
  selectedBill : option BillFormData
}.

Definition set_id (i : option string) (b : BillFormData) : BillFormData :=
  mkBillFormData i (billNo b) (purchaseOrderId b) (poReference b)
    (supplierName b) (amount b) (paidAmount b) (date b) (dueDate b)
    (status b) (notes b).

(** [handleSaveBill]; [freshId] is the identifier built from [Date.now()].
    The second component is the success toast. *)
Definition handleSaveBill (freshId : string) (data : BillFormData)
    (st : PageState) : PageState * string :=
  if truthyId (id data) then
    (mkPageState
       (map (fun b => if optOptEqb (id b) (id data) then data else b) (bills st))
       false (selectedBill st),
     "Bill updated successfully")
  else
    let newBill := set_id (Some freshId) data in
    (mkPageState (newBill :: bills st) false (selectedBill st),
     "Bill recorded successfully").

Definition handleDeleteBill (i : string) (st : PageState) : PageState :=
  mkPageState (filter (fun b => negb (optEqb (id b) i)) (bills st))
    (isModalOpen st) (selectedBill st).

(** The page passes [handleSaveBill] as the modal's [onSave]; toasts leave
    the page state alone. *)
Definition deliver (freshId : string) (st : PageState) (e : Effect)
    : PageState :=
  match e with
  | onSave data => fst (handleSaveBill freshId data st)
  | _ => st
  end.

(** The page state after the form is submitted with the given form state. *)
Definition formSubmitted (freshId : string) (st : PageState)
    (fd : BillFormData) (newPayment : number) : PageState :=
  fold_left (deliver freshId) (Handler.effects (handleSubmit fd newPayment)) st.

End Bills.

(** ** ProductFormModal.tsx *)

Module ProductFormData.
Import JS.

Record t : Type := mk {
  id : option string;
  name : string;
  category : string;
  sku : string;
  costPrice : number;
  sellingPrice : number;
  stock : number;
  image : option string;
  unitType : string;
  minStock : number;
  status : string;
  isActive : bool
}.

Definition set_status (s : string) (p : t) : t :=
  mk (id p) (name p) (category p) (sku p) (costPrice p) (sellingPrice p)
    (stock p) (image p) (unitType p) (minStock p) s (isActive p).

Definition set_id (v : option string) (p : t) : t :=
  mk v (name p) (category p) (sku p) (costPrice p) (sellingPrice p)
    (stock p) (image p) (unitType p) (minStock p) (status p) (isActive p).

Definition set_name (v : string) (p : t) : t :=
  mk (id p) v (category p) (sku p) (costPrice p) (sellingPrice p)
    (stock p) (image p) (unitType p) (minStock p) (status p) (isActive p).

Definition set_category (v : string) (p : t) : t :=
  mk (id p) (name p) v (sku p) (costPrice p) (sellingPrice p)
    (stock p) (image p) (unitType p) (minStock p) (status p) (isActive p).

Definition set_sku (v : string) (p : t) : t :=
  mk (id p) (name p) (category p) v (costPrice p) (sellingPrice p)
    (stock p) (image p) (unitType p) (minStock p) (status p) (isActive p).

Definition set_costPrice (v : number) (p : t) : t :=
  mk (id p) (name p) (category p) (sku p) v (sellingPrice p)
    (stock p) (image p) (unitType p) (minStock p) (status p) (isActive p).

Definition set_sellingPrice (v : number) (p : t) : t :=
  mk (id p) (name p) (category p) (sku p) (costPrice p) v
    (stock p) (image p) (unitType p) (minStock p) (status p) (isActive p).

Definition set_stock (v : number) (p : t) : t :=
  mk (id p) (name p) (category p) (sku p) (costPrice p) (sellingPrice p)
    v (image p) (unitType p) (minStock p) (status p) (isActive p).

Definition set_image (v : option string) (p : t) : t :=
  mk (id p) (name p) (category p) (sku p) (costPrice p) (sellingPrice p)
    (stock p) v (unitType p) (minStock p) (status p) (isActive p).

Definition set_unitType (v : string) (p : t) : t :=
  mk (id p) (name p) (category p) (sku p) (costPrice p) (sellingPrice p)
    (stock p) (image p) v (minStock p) (status p) (isActive p).

Definition set_minStock (v : number) (p : t) : t :=
  mk (id p) (name p) (category p) (sku p) (costPrice p) (sellingPrice p)
    (stock p) (image p) (unitType p) v (status p) (isActive p).

Definition set_isActive (v : bool) (p : t) : t :=
  mk (id p) (name p) (category p) (sku p) (costPrice p) (sellingPrice p)
    (stock p) (image p) (unitType p) (minStock p) (status p) v.

End ProductFormData.

Module ProductFormModal.
Import JS.
Import ProductFormData.

Definition defaultFormData : ProductFormData.t :=
  mk None "" "" "" 0 0 0 None "pcs" 10 "Active" true.

(** [handleSubmit]: the value is the product handed to [onSave], which is
    called on every submission. *)
Definition handleSubmit (formData : ProductFormData.t) : ProductFormData.t :=
  let calculatedStatus := if isActive formData then "Active" else "Inactive" in
  let calculatedStatus :=
    if isActive formData && eqb (stock formData) 0 then "Out of Stock"
    else if isActive formData && leb (stock formData) (minStock formData)
         then "Low Stock"
         else calculatedStatus in
  set_status calculatedStatus formData.

(** The [useEffect] that loads the form when the modal opens. *)
Definition openForm (product : option ProductFormData.t) : ProductFormData.t :=
  match product with
  | Some p => set_isActive (negb (String.eqb (status p) "Inactive")) p
  | None => defaultFormData
  end.

(** A call [handleChange(field, value)] with a value of the field's type. *)
Inductive FieldEdit : Type :=
| EditName (v : string)
| EditCategory (v : string)
| EditSku (v : string)
| EditCostPrice (v : number)
| EditSellingPrice (v : number)
| EditStock (v : number)
| EditImage (v : string)
| EditUnitType (v : string)
| EditMinStock (v : number)
| EditStatus (v : string)
| EditIsActive (v : bool).

Definition handleChange (e : FieldEdit) (prev : ProductFormData.t)
    : ProductFormData.t :=
  match e with
  | EditName v => set_name v prev
  | EditCategory v => set_category v prev
  | EditSku v => set_sku v prev
  | EditCostPrice v => set_costPrice (Math_max 0 v) prev
  | EditSellingPrice v => set_sellingPrice (Math_max 0 v) prev
  | EditStock v => set_stock (Math_max 0 v) prev
  | EditImage v => set_image (Some v) prev
  | EditUnitType v => set_unitType v prev
  | EditMinStock v => set_minStock (Math_max 0 v) prev
  | EditStatus v => set_status v prev
  | EditIsActive v => set_isActive v prev
  end.

(** The form state after a sequence of [handleChange] calls. *)
Definition edit (start : ProductFormData.t) (es : list FieldEdit)
    : ProductFormData.t :=
  fold_left (fun fd e => handleChange e fd) es start.

End ProductFormModal.

(** ** Products page *)

Module Products.
Import JS.
Import ProductFormData.

(** [handleSaveProduct]; [freshId] is the id built from [Math.random()]. *)
Definition handleSaveProduct (freshId : string) (data : ProductFormData.t)
    (products : list ProductFormData.t)
    : list ProductFormData.t * Toast.t :=
  if truthyId (id data) then
    (map (fun p => if optOptEqb (id p) (id data) then data else p) products,
     Toast.mk Toast.success "Product updated successfully"
       (Some (name data ++ " has been updated.")%string))
  else
    let newProduct := set_id (Some freshId) data in
    (newProduct :: products,
     Toast.mk Toast.success "Product added successfully"
       (Some (name data ++ " has been added to inventory.")%string)).

Definition handleDeleteProduct (i : string)
    (products : list ProductFormData.t)
    : list ProductFormData.t * Toast.t :=
  let product := find (fun p => optEqb (id p) i) products in
  (filter (fun p => negb (optEqb (id p) i)) products,
   Toast.mk Toast.success "Product deleted"
     (Some (orString (option_map name product) "Item"
            ++ " has been removed.")%string)).

(** The class of the stock cell in the products table. *)
Definition stockClass (product : ProductFormData.t) : string :=
  if eqb (stock product) 0 then "text-destructive font-bold"
  else if leb (stock product) (minStock product)
       then "text-amber-500 font-bold"
       else "".

End Products.

(** ** SupplierFormModal.tsx and Suppliers.tsx *)

Module SupplierFormData.

Record t : Type := mk {
  id : option string;
  shopName : string;
  contactName : string;
  email : string;
  phone : string;
  address : string;
  details : string;
  status : string
}.

Definition set_id (v : option string) (s : t) : t :=
  mk v (shopName s) (contactName s) (email s) (phone s) (address s)
    (details s) (status s).

End SupplierFormData.

Module SupplierFormModal.
Import JS.
Import SupplierFormData.

(** The candidate id built from one draw [n] of
    [Math.floor(Math.random() * 10000)]. *)
Definition candidateId (n : nat) : string :=
  ("SUP-" ++ padStart 4 (toString n))%string.

(** [generateUniqueId]: the loop draws until the candidate is unused.
    [draws] are the successive draws; [None] means the loop is still
    running when they are exhausted. *)
Fixpoint generateUniqueId (existingSuppliers : list SupplierFormData.t)
    (draws : list nat) : option string :=
  match draws with
  | [] => None
  | n :: rest =>
      let newId := candidateId n in
      let isUnique :=
        match find (fun s => optEqb (id s) newId) existingSuppliers with
        | Some _ => false
        | None => true
        end in
      if isUnique then Some newId
      else generateUniqueId existingSuppliers rest
  end.

Definition defaultFormData : SupplierFormData.t :=
  mk None "" "" "" "" "" "" "Active".

(** The [useEffect] that loads the form. *)
Definition openForm (supplier : option SupplierFormData.t)
    (existingSuppliers : list SupplierFormData.t) (draws : list nat)
    : option SupplierFormData.t :=
  match supplier with
  | Some s => Some s
  | None =>
      option_map (fun i => set_id (Some i) defaultFormData)
        (generateUniqueId existingSuppliers draws)
  end.

Definition handleRegenerateId (supplier : option SupplierFormData.t)
    (existingSuppliers : list SupplierFormData.t) (draws : list nat)
    (prev : SupplierFormData.t) : option SupplierFormData.t :=
  match supplier with
  | Some _ => Some prev
  | None =>
      option_map (fun i => set_id (Some i) prev)
        (generateUniqueId existingSuppliers draws)
  end.

(** A call [handleChange(field, value)] made by the form's inputs. *)
Inductive FieldEdit : Type :=
| EditShopName (v : string)
| EditContactName (v : string)
| EditEmail (v : string)
| EditPhone (v : string)
| EditAddress (v : string)
| EditDetails (v : string)
| EditStatus (v : string).

Definition handleChange (e : FieldEdit) (prev : SupplierFormData.t)
    : SupplierFormData.t :=
  match e with
  | EditShopName v =>
      mk (id prev) v (contactName prev) (email prev) (phone prev)
        (address prev) (details prev) (status prev)
  | EditContactName v =>
      mk (id prev) (shopName prev) v (email prev) (phone prev)
        (address prev) (details prev) (status prev)
  | EditEmail v =>
      mk (id prev) (shopName prev) (contactName prev) v (phone prev)
        (address prev) (details prev) (status prev)
  | EditPhone v =>
      mk (id prev) (shopName prev) (contactName prev) (email prev) v
        (address prev) (details prev) (status prev)
  | EditAddress v =>
      mk (id prev) (shopName prev) (contactName prev) (email prev)
        (phone prev) v (details prev) (status prev)
  | EditDetails v =>
      mk (id prev) (shopName prev) (contactName prev) (email prev)
        (phone prev) (address prev) v (status prev)
  | EditStatus v =>
      mk (id prev) (shopName prev) (contactName prev) (email prev)
        (phone prev) (address prev) (details prev) v
  end.

(** [handleSubmit] hands the form data to [onSave] as it is. *)
Definition handleSubmit (formData : SupplierFormData.t)
    : SupplierFormData.t := formData.

(** The events of the form: an input edit, or the "generate another id"
    button with the draws its loop consumes. *)
Inductive Event : Type :=
| Change (e : FieldEdit)
| RegenerateId (draws : list nat).

Definition step (supplier : option SupplierFormData.t)
    (existingSuppliers : list SupplierFormData.t)
    (st : option SupplierFormData.t) (ev : Event)
    : option SupplierFormData.t :=
  match st with
  | None => None
  | Some fd =>
      match ev with
      | Change e => Some (handleChange e fd)
      | RegenerateId draws =>
          handleRegenerateId supplier existingSuppliers draws fd
      end
  end.

(** The form data after the modal is opened and the events delivered;
    [None] while an id generation has not finished. *)
Definition run (supplier : option SupplierFormData.t)
    (existingSuppliers : list SupplierFormData.t) (draws : list nat)
    (evs : list Event) : option SupplierFormData.t :=
  fold_left (step supplier existingSuppliers) evs
    (openForm supplier existingSuppliers draws).

End SupplierFormModal.

Module Suppliers.
Import JS.
Import SupplierFormData.

Definition handleSaveSupplier (data : SupplierFormData.t)
    (suppliers : list SupplierFormData.t)
    : list SupplierFormData.t * Toast.t :=
  if truthyId (id data) then
    (map (fun s => if optOptEqb (id s) (id data) then data else s) suppliers,
     Toast.mk Toast.success "Supplier updated successfully"
       (Some (shopName data ++ " has been updated.")%string))
  else
    let newSupplier := data in
    (newSupplier :: suppliers,
     Toast.mk Toast.success "Supplier added successfully"
       (Some (shopName data ++ " is now a registered supplier.")%string)).

Definition handleDeleteSupplier (i : string)
    (suppliers : list SupplierFormData.t)
    : list SupplierFormData.t * Toast.t :=
  let supplier := find (fun s => optEqb (id s) i) suppliers in
  (filter (fun s => negb (optEqb (id s) i)) suppliers,
   Toast.mk Toast.success "Supplier removed"
     (Some (orString (option_map shopName supplier) "Vendor"
            ++ " has been deleted.")%string)).

(** The page hands its own list to the modal as [existingSuppliers] and
    [handleSaveSupplier] as [onSave]: the list after a new supplier is
    entered with the given events and submitted, when the form got that
    far. *)
Definition addSupplier (suppliers : list SupplierFormData.t)
    (draws : list nat) (evs : list SupplierFormModal.Event)
    : option (list SupplierFormData.t * Toast.t) :=
  option_map
    (fun fd => handleSaveSupplier (SupplierFormModal.handleSubmit fd) suppliers)
    (SupplierFormModal.run None suppliers draws evs).

End Suppliers.

(** ** SalesOrderFormModal.tsx *)

Module SalesOrderItem.
Import JS.

Record t : Type := mk {
  id : string;
  productId : string;
  quantity : number;
  sellingPrice : number;
  total : number
}.

Definition set_id (v : string) (i : t) : t :=
  mk v (productId i) (quantity i) (sellingPrice i) (total i).
Definition set_productId (v : string) (i : t) : t :=
  mk (id i) v (quantity i) (sellingPrice i) (total i).
Definition set_quantity (v : number) (i : t) : t :=
  mk (id i) (productId i) v (sellingPrice i) (total i).
Definition set_sellingPrice (v : number) (i : t) : t :=
  mk (id i) (productId i) (quantity i) v (total i).
Definition set_total (v : number) (i : t) : t :=
  mk (id i) (productId i) (quantity i) (sellingPrice i) v.

End SalesOrderItem.

Module SalesOrderFormData.
Import JS.

Inductive Status : Type := Pending | Shipped | Completed | Cancelled.

Record t : Type := mk {
  id : option string;
  referenceNo : string;
  date : Z;
  customerName : string;
  items : list SalesOrderItem.t;
  notes : string;
  status : Status;
  subTotal : number;
  gstPercentage : option number;
  gstAmount : number;
  grandTotal : number
}.

End SalesOrderFormData.

Module SalesOrderFormModal.
Import JS.
Import SalesOrderFormData.

(** [defaultFormData]; [now] is the current date. *)
Definition defaultFormData (now : Z) : SalesOrderFormData.t :=
  mk None "" now "" [] "" Pending 0 (Some 0) 0 0.

(** The [useEffect] that loads the form; [generated] is the reference
    number produced by [generateUniqueRef]. *)
Definition openForm (now : Z) (generated : string)
    (order : option SalesOrderFormData.t) : SalesOrderFormData.t :=
  match order with
  | Some o => o
  | None =>
      let d := defaultFormData now in
      mk (id d) generated (date d) (customerName d) (items d) (notes d)
        (status d) (subTotal d) (gstPercentage d) (gstAmount d) (grandTotal d)
  end.

(** A call [handleChange(field, value)] with a value of the field's type. *)
Inductive FormEdit : Type :=
| EditReferenceNo (v : string)
| EditDate (v : Z)
| EditCustomerName (v : string)
| EditItems (v : list SalesOrderItem.t)
| EditNotes (v : string)
| EditStatus (v : Status)
| EditSubTotal (v : number)
| EditGstPercentage (v : number)
| EditGstAmount (v : number)
| EditGrandTotal (v : number).

Definition handleChange (e : FormEdit) (prev : SalesOrderFormData.t)
    : SalesOrderFormData.t :=
  match e with
  | EditReferenceNo v =>
      mk (id prev) v (date prev) (customerName prev) (items prev) (notes prev)
        (status prev) (subTotal prev) (gstPercentage prev) (gstAmount prev)
        (grandTotal prev)
  | EditDate v =>
      mk (id prev) (referenceNo prev) v (customerName prev) (items prev)
        (notes prev) (status prev) (subTotal prev) (gstPercentage prev)
        (gstAmount prev) (grandTotal prev)
  | EditCustomerName v =>
      mk (id prev) (referenceNo prev) (date prev) v (items prev) (notes prev)
        (status prev) (subTotal prev) (gstPercentage prev) (gstAmount prev)
        (grandTotal prev)
  | EditItems v =>
      mk (id prev) (referenceNo prev) (date prev) (customerName prev) v
        (notes prev) (status prev) (subTotal prev) (gstPercentage prev)
        (gstAmount prev) (grandTotal prev)
  | EditNotes v =>
      mk (id prev) (referenceNo prev) (date prev) (customerName prev)
        (items prev) v (status prev) (subTotal prev) (gstPercentage prev)
        (gstAmount prev) (grandTotal prev)
  | EditStatus v =>
      mk (id prev) (referenceNo prev) (date prev) (customerName prev)
        (items prev) (notes prev) v (subTotal prev) (gstPercentage prev)
        (gstAmount prev) (grandTotal prev)
  | EditSubTotal v =>
      mk (id prev) (referenceNo prev) (date prev) (customerName prev)
        (items prev) (notes prev) (status prev) v (gstPercentage prev)
        (gstAmount prev) (grandTotal prev)
  | EditGstPercentage v =>
      mk (id prev) (referenceNo prev) (date prev) (customerName prev)
        (items prev) (notes prev) (status prev) (subTotal prev) (Some v)
        (gstAmount prev) (grandTotal prev)
  | EditGstAmount v =>
      mk (id prev) (referenceNo prev) (date prev) (customerName prev)
        (items prev) (notes prev) (status prev) (subTotal prev)
        (gstPercentage prev) v (grandTotal prev)
  | EditGrandTotal v =>
      mk (id prev) (referenceNo prev) (date prev) (customerName prev)
        (items prev) (notes prev) (status prev) (subTotal prev)
        (gstPercentage prev) (gstAmount prev) v
  end.

(** [{...prev, items, subTotal, gstAmount, grandTotal}] *)
Definition withTotals (prev : SalesOrderFormData.t)
    (newItems : list SalesOrderItem.t)
    (newSubTotal newGstAmount newGrandTotal : number) : SalesOrderFormData.t :=
  mk (id prev) (referenceNo prev) (date prev) (customerName prev) newItems
    (notes prev) (status prev) newSubTotal (gstPercentage prev) newGstAmount
    newGrandTotal.

(** [items.reduce((sum, item) => sum + item.total, 0)] *)
Definition reduceTotals (l : list SalesOrderItem.t) : number :=
  fold_left (fun sum item => sum + SalesOrderItem.total item) l 0.

(** [prev.gstPercentage ? (newSubTotal * prev.gstPercentage) / 100 : 0] *)
Definition gstOn (newSubTotal : number) (gstPercentage : option number)
    : number :=
  match gstPercentage with
  | Some g => if truthy g then (newSubTotal * g) / 100 else 0
  | None => 0
  end.

(** [handleAddItem]; [rowId] is the value of [generateRowId()]. *)
Definition handleAddItem (rowId : string) (prev : SalesOrderFormData.t)
    : SalesOrderFormData.t :=
  mk (id prev) (referenceNo prev) (date prev) (customerName prev)
    (items prev ++ [SalesOrderItem.mk rowId "" 1 0 0])%list
    (notes prev) (status prev) (subTotal prev) (gstPercentage prev)
    (gstAmount prev) (grandTotal prev).

Definition handleRemoveItem (rowId : string) (prev : SalesOrderFormData.t)
    : SalesOrderFormData.t :=
  let newItems :=
    filter (fun item => negb (String.eqb (SalesOrderItem.id item) rowId))
      (items prev) in
  let newSubTotal := reduceTotals newItems in
  let newGstAmount := gstOn newSubTotal (gstPercentage prev) in
  let newGrandTotal := newSubTotal + newGstAmount in
  withTotals prev newItems newSubTotal newGstAmount newGrandTotal.

(** The pair [(field, value)] passed to [handleItemChange], with a value of
    the field's type. *)
Inductive ItemEdit : Type :=
| ItemId (value : string)
| ItemProductId (value : string)
| ItemQuantity (value : number)
| ItemSellingPrice (value : number)
| ItemTotal (value : number).

(** [typeof value === "number"] *)
Definition isNumber (e : ItemEdit) : bool :=
  match e with
  | ItemQuantity _ | ItemSellingPrice _ | ItemTotal _ => true
  | ItemId _ | ItemProductId _ => false
  end.

(** [{...item, [field]: updatedValue}] where [updatedValue] is
    [Math.max(0, value)] for a number and [value] otherwise. *)
Definition assign (e : ItemEdit) (item : SalesOrderItem.t) : SalesOrderItem.t :=
  match e with
  | ItemId v => SalesOrderItem.set_id v item
  | ItemProductId v => SalesOrderItem.set_productId v item
  | ItemQuantity v => SalesOrderItem.set_quantity (Math_max 0 v) item
  | ItemSellingPrice v => SalesOrderItem.set_sellingPrice (Math_max 0 v) item
  | ItemTotal v => SalesOrderItem.set_total (Math_max 0 v) item
  end.

(** [field === "quantity" || field === "sellingPrice" || field === "productId"] *)
Definition recalculates (e : ItemEdit) : bool :=
  match e with
  | ItemQuantity _ | ItemSellingPrice _ | ItemProductId _ => true
  | ItemId _ | ItemTotal _ => false
  end.

(** [products.find((p) => p.id === value)] *)
Definition findProduct (products : list ProductFormData.t) (value : string)
    : option ProductFormData.t :=
  find (fun p => optEqb (ProductFormData.id p) value) products.

(** The body of the [map] callback for a row whose id is [rowId]. *)
Definition updateItem (products : list ProductFormData.t) (e : ItemEdit)
    (item : SalesOrderItem.t) : SalesOrderItem.t :=
  let updatedItem := assign e item in
  let updatedItem :=
    match e with
    | ItemProductId value =>
        match findProduct products value with
        | Some product =>
            SalesOrderItem.set_sellingPrice
              (ProductFormData.sellingPrice product) updatedItem
        | None => updatedItem
        end
    | _ => updatedItem
    end in
  if recalculates e then
    SalesOrderItem.set_total
      (SalesOrderItem.quantity updatedItem
       * SalesOrderItem.sellingPrice updatedItem) updatedItem
  else updatedItem.

Definition handleItemChange (products : list ProductFormData.t)
    (rowId : string) (e : ItemEdit) (prev : SalesOrderFormData.t)
    : SalesOrderFormData.t :=
  let newItems :=
    map (fun item =>
           if String.eqb (SalesOrderItem.id item) rowId
           then updateItem products e item
           else item)
      (items prev) in
  let newSubTotal := reduceTotals newItems in
  let newGstAmount := gstOn newSubTotal (gstPercentage prev) in
  let newGrandTotal := newSubTotal + newGstAmount in
  withTotals prev newItems newSubTotal newGstAmount newGrandTotal.

(** [handleGstChange]; [val] is [parseFloat(valStr)]. *)
Definition handleGstChange (val : option number) (prev : SalesOrderFormData.t)
    : SalesOrderFormData.t :=
  let gstPerc := parsedOrZeroClamped val in
  let gstAmount' := (subTotal prev * gstPerc) / 100 in
  mk (id prev) (referenceNo prev) (date prev) (customerName prev) (items prev)
    (notes prev) (status prev) (subTotal prev) (Some gstPerc) gstAmount'
    (subTotal prev + gstAmount').

(** [handleSubmit] hands the form data to [onSave] as it is. *)
Definition handleSubmit (formData : SalesOrderFormData.t)
    : SalesOrderFormData.t := formData.

(** The handler calls that change the item list or the totals. *)
Inductive Action : Type :=
| AddItem (rowId : string)
| RemoveItem (rowId : string)
| ItemChange (rowId : string) (e : ItemEdit)
| GstChange (val : option number).

Definition apply (products : list ProductFormData.t)
    (prev : SalesOrderFormData.t) (a : Action) : SalesOrderFormData.t :=
  match a with
  | AddItem rowId => handleAddItem rowId prev
  | RemoveItem rowId => handleRemoveItem rowId prev
  | ItemChange rowId e => handleItemChange products rowId e prev
  | GstChange val => handleGstChange val prev
  end.

Definition run (products : list ProductFormData.t)
    (start : SalesOrderFormData.t) (acts : list Action)
    : SalesOrderFormData.t :=
  fold_left (apply products) acts start.

(** An action other than a product selection: its line-item value, if any,
    is a number. *)
Definition numericAction (a : Action) : bool :=
  match a with
  | ItemChange _ e => isNumber e
  | AddItem _ | RemoveItem _ | GstChange _ => true
  end.

(** A line-item edit of the quantity, the selling price or the product, or
    a change of the GST rate. *)
Definition editOrGst (a : Action) : bool :=
  match a with
  | ItemChange _ e => recalculates e
  | GstChange _ => true
  | AddItem _ | RemoveItem _ => false
  end.

(** Pressing the remove button of every row in turn. *)
Definition removeEvery (fd : SalesOrderFormData.t) : SalesOrderFormData.t :=
  fold_left (fun st rowId => handleRemoveItem rowId st)
    (map SalesOrderItem.id (items fd)) fd.

(** The GST rate the form displays: [formData.gstPercentage || 0]. *)
Definition gstRate (fd : SalesOrderFormData.t) : number :=
  orZero (gstPercentage fd).

(** The sum of the line totals, written as a recursion over the rows. *)
Fixpoint sumOfLineTotals (l : list SalesOrderItem.t) : number :=
  match l with
  | [] => 0
  | item :: rest => SalesOrderItem.total item + sumOfLineTotals rest
  end.

(** The candidate reference built from one draw [n] of
    [Math.floor(Math.random() * 100000)]. *)
Definition candidateRef (n : nat) : string :=
  ("SO-" ++ padStart 5 (toString n))%string.

(** [generateUniqueRef]: the loop draws until the candidate is unused.
    [draws] are the successive draws; [None] means the loop is still
    running when they are exhausted. *)
Fixpoint generateUniqueRef (existingOrders : list SalesOrderFormData.t)
    (draws : list nat) : option string :=
  match draws with
  | [] => None
  | n :: rest =>
      let newRef := candidateRef n in
      let isUnique :=
        match find (fun o => String.eqb (referenceNo o) newRef)
                existingOrders with
        | Some _ => false
        | None => true
        end in
      if isUnique then Some newRef
      else generateUniqueRef existingOrders rest
  end.

(** [handleRegenerateRef] *)
Definition handleRegenerateRef (order : option SalesOrderFormData.t)
    (existingOrders : list SalesOrderFormData.t) (draws : list nat)
    (prev : SalesOrderFormData.t) : option SalesOrderFormData.t :=
  match order with
  | Some _ => Some prev
  | None =>
      option_map (fun r => handleChange (EditReferenceNo r) prev)
        (generateUniqueRef existingOrders draws)
  end.

End SalesOrderFormModal.

(** ** The shared product list the order pages update *)

Module MockProducts.
Import JS.
Import ProductFormData.

(** [const product = mockProducts.find((p) => p.id === productId);
     if (product) { product.stock = f(product.stock) }] *)
Fixpoint updateStock (productId : string) (f : number -> number)
    (products : list ProductFormData.t) : list ProductFormData.t :=
  match products with
  | [] => []
  | p :: rest =>
      if optEqb (id p) productId
      then set_stock (f (stock p)) p :: rest
      else p :: updateStock productId f rest
  end.

End MockProducts.

(** ** SalesOrders.tsx *)

Module SalesOrders.
Import JS.
Import SalesOrderFormData.

Record PageState : Type := mkPageState {
  orders : list SalesOrderFormData.t;
  mockProducts : list ProductFormData.t;
  isModalOpen : bool;
  orderToDelete : option string
}.

Definition set_id (v : option string) (o : SalesOrderFormData.t)
    : SalesOrderFormData.t :=
  mk v (referenceNo o) (date o) (customerName o) (items o) (notes o)
    (status o) (subTotal o) (gstPercentage o) (gstAmount o) (grandTotal o).

(** [status === "Shipped" || status === "Completed"] *)
Definition shippedOrCompleted (s : Status) : bool :=
  match s with
  | Shipped | Completed => true
  | Pending | Cancelled => false
  end.

Definition isCancelled (s : Status) : bool :=
  match s with
  | Cancelled => true
  | _ => false
  end.

(** [items.forEach(item => { ...; product.stock -= item.quantity })] *)
Definition deductStock (l : list SalesOrderItem.t)
    (products : list ProductFormData.t) : list ProductFormData.t :=
  fold_left
    (fun ps item =>
       MockProducts.updateStock (SalesOrderItem.productId item)
         (fun s => s - SalesOrderItem.quantity item) ps)
    l products.

(** [items.forEach(item => { ...; product.stock += item.quantity })] *)
Definition revertStock (l : list SalesOrderItem.t)
    (products : list ProductFormData.t) : list ProductFormData.t :=
  fold_left
    (fun ps item =>
       MockProducts.updateStock (SalesOrderItem.productId item)
         (fun s => s + SalesOrderItem.quantity item) ps)
    l products.

(** [handleSaveOrder]; [freshId] is the id built from [Date.now()]. *)
Definition handleSaveOrder (freshId : string) (data : SalesOrderFormData.t)
    (st : PageState) : PageState * list Toast.t :=
  if truthyId (id data) then
    let originalOrder :=
      find (fun o => optOptEqb (id o) (id data)) (orders st) in
    let orders' :=
      map (fun o => if optOptEqb (id o) (id data) then data else o)
        (orders st) in
    let wasDeducted :=
      match originalOrder with
      | Some o => shippedOrCompleted (status o)
      | None => false
      end in
    let nowDeducted := shippedOrCompleted (status data) in
    if negb wasDeducted && nowDeducted then
      (mkPageState orders' (deductStock (items data) (mockProducts st))
         false (orderToDelete st),
       [Toast.mk Toast.success "Inventory Updated"
          (Some ("Stock was deducted for " ++ referenceNo data ++ ".")%string);
        Toast.mk Toast.success "Sales Order updated" None])
    else if wasDeducted && isCancelled (status data) then
      (mkPageState orders' (revertStock (items data) (mockProducts st))
         false (orderToDelete st),
       [Toast.mk Toast.info "Stock Reverted"
          (Some "Quantity returned to inventory.");
        Toast.mk Toast.success "Sales Order updated" None])
    else
      (mkPageState orders' (mockProducts st) false (orderToDelete st),
       [Toast.mk Toast.success "Sales Order updated" None])
  else
    let newOrder := set_id (Some freshId) data in
    if shippedOrCompleted (status newOrder) then
      (mkPageState (newOrder :: orders st)
         (deductStock (items newOrder) (mockProducts st))
         false (orderToDelete st),
       [Toast.mk Toast.success "Inventory Updated"
          (Some "Stock deducted for new order.");
        Toast.mk Toast.success "Sales Order created" None])
    else
      (mkPageState (newOrder :: orders st) (mockProducts st) false
         (orderToDelete st),
       [Toast.mk Toast.success "Sales Order created" None]).

Definition handleDeleteOrder (i : string) (st : PageState)
    : PageState * list Toast.t :=
  (mkPageState (filter (fun o => negb (optEqb (id o) i)) (orders st))
     (mockProducts st) false None,
   [Toast.mk Toast.success "Sales Order deleted" None]).

(** The page after a sequence of saves of existing or new orders. *)
Definition saveAll (freshId : string) (l : list SalesOrderFormData.t)
    (st : PageState) : PageState :=
  fold_left (fun s data => fst (handleSaveOrder freshId data s)) l st.

End SalesOrders.

(** ** PurchaseOrders.tsx *)

Module PurchaseOrders.
Import JS.

(** The interfaces of a purchase order and of its items are declared in
    PurchaseOrderFormModal.tsx, which is not among the sources; these
    records hold the fields the page reads. *)
Record PurchaseOrderItem : Type := mkItem {
  productId : string;
  quantity : number
}.

Inductive Status : Type := Pending | Completed | Cancelled.

Record PurchaseOrderFormData : Type := mkOrder {
  id : option string;
  referenceNo : string;
  supplierId : string;
  items : list PurchaseOrderItem;
  notes : option string;
  status : Status;
  grandTotal : number
}.

Record PageState : Type := mkPageState {
  orders : list PurchaseOrderFormData;
  mockProducts : list ProductFormData.t;
  isModalOpen : bool;
  orderToDelete : option string
}.

Definition set_id (v : option string) (o : PurchaseOrderFormData)
    : PurchaseOrderFormData :=
  mkOrder v (referenceNo o) (supplierId o) (items o) (notes o) (status o)
    (grandTotal o).

Definition isCompleted (s : Status) : bool :=
  match s with
  | Completed => true
  | _ => false
  end.

(** [items.forEach(item => { ...; product.stock += item.quantity })] *)
Definition receiveStock (l : list PurchaseOrderItem)
    (products : list ProductFormData.t) : list ProductFormData.t :=
  fold_left
    (fun ps item =>
       MockProducts.updateStock (productId item)
         (fun s => s + quantity item) ps)
    l products.

Definition stockUpdated : Toast.t :=
  Toast.mk Toast.success "Stock Updated"
    (Some "Received quantities have been added to inventory.").

(** [handleSaveOrder]; [freshId] is the id built from [Date.now()]. *)
Definition handleSaveOrder (freshId : string) (data : PurchaseOrderFormData)
    (st : PageState) : PageState * list Toast.t :=
  if truthyId (id data) then
    let originalOrder :=
      find (fun o => optOptEqb (id o) (id data)) (orders st) in
    let orders' :=
      map (fun o => if optOptEqb (id o) (id data) then data else o)
        (orders st) in
    let wasCompleted :=
      match originalOrder with
      | Some o => isCompleted (status o)
      | None => false
      end in
    if negb wasCompleted && isCompleted (status data) then
      (mkPageState orders' (receiveStock (items data) (mockProducts st))
         false (orderToDelete st),
       [stockUpdated;
        Toast.mk Toast.success "Purchase Order updated"
          (Some (referenceNo data ++ " has been saved.")%string)])
    else
      (mkPageState orders' (mockProducts st) false (orderToDelete st),
       [Toast.mk Toast.success "Purchase Order updated"
          (Some (referenceNo data ++ " has been saved.")%string)])
  else
    let newOrder := set_id (Some freshId) data in
    if isCompleted (status newOrder) then
      (mkPageState (newOrder :: orders st)
         (receiveStock (items newOrder) (mockProducts st))
         false (orderToDelete st),
       [stockUpdated;
        Toast.mk Toast.success "Purchase Order created"
          (Some (referenceNo data ++ " has been created.")%string)])
    else
      (mkPageState (newOrder :: orders st) (mockProducts st) false
         (orderToDelete st),
       [Toast.mk Toast.success "Purchase Order created"
          (Some (referenceNo data ++ " has been created.")%string)]).

Definition handleDeleteOrder (i : string) (st : PageState)
    : PageState * list Toast.t :=
  (mkPageState (filter (fun o => negb (optEqb (id o) i)) (orders st))
     (mockProducts st) false None,
   [Toast.mk Toast.success "Purchase Order deleted" None]).

(** [handleGenerateBill] only raises a toast. *)
Definition handleGenerateBill (order : PurchaseOrderFormData) : Toast.t :=
  if negb (isCompleted (status order)) then
    Toast.mk Toast.error "Error"
      (Some "Bills can only be generated for completed orders.")
  else
    Toast.mk Toast.success "Bill Generated"
      (Some ("A new bill has been created for " ++ referenceNo order
             ++ ". You can view it in the Bills section.")%string).

(** What the page can do to the shared product list. *)
Inductive Action : Type :=
| Save (freshId : string) (data : PurchaseOrderFormData)
| Delete (i : string).

Definition apply (st : PageState) (a : Action) : PageState :=
  match a with
  | Save freshId data => fst (handleSaveOrder freshId data st)
  | Delete i => fst (handleDeleteOrder i st)
  end.

End PurchaseOrders.

(** * Vocabulary of the properties *)

(** ** Payment-status reconciliation *)

Module BillSpec.
Import JS.
Import BillFormModal.

(** The total the handler computes: [Math.min(amount, paidAmount + new)]. *)
Definition totalPaid (fd : BillFormData) (n : number) : number :=
  Qmin (amount fd) (paidAmount fd + n).

Definition poSelected (fd : BillFormData) : Prop :=
  truthyString (purchaseOrderId fd) = true.

(** A submission is accepted when [onSave] receives a bill. *)
Definition accepted (fd : BillFormData) (n : number) (b : BillFormData) : Prop :=
  saved (Handler.effects (handleSubmit fd n)) = Some b.

Definition onSaveCalled (es : list Effect) : Prop :=
  exists data, In (onSave data) es.

(** The invariant the data model states for a bill. *)
Definition billInvariant (b : BillFormData) : Prop :=
  (status b = Paid -> amount b <= paidAmount b) /\
  (status b = Unpaid -> paidAmount b == 0).

Definition selectionRequired : Effect :=
  toast_error "Selection Required"
    (Text "Please select a related Purchase Order to record this bill.").

Definition invalidAmount : Effect :=
  toast_error "Invalid Amount"
    (Text "Total paid amount must be greater than 0 for partial payments.").

Definition statusUpdated : Effect :=
  toast_info "Status Updated"
    (Text "Bill has been fully settled and status marked as Paid.").

Definition savedBill (fd : BillFormData) (n : number) (s : BillStatus)
    : BillFormData :=
  set_paidAmount (totalPaid fd n) (set_status s fd).

(** The outcomes of [handleSubmit], one per path through the handler. *)
Inductive Outcome (fd : BillFormData) (n : number) : list Effect -> Prop :=
| NoPurchaseOrder :
    truthyString (purchaseOrderId fd) = false ->
    Outcome fd n [selectionRequired]
| PartialNothingPaid :
    poSelected fd -> status fd = PartiallyPaid -> totalPaid fd n <= 0 ->
    Outcome fd n [invalidAmount]
| PartialSettled :
    poSelected fd -> status fd = PartiallyPaid -> 0 < totalPaid fd n ->
    amount fd <= totalPaid fd n ->
    Outcome fd n [statusUpdated; onSave (savedBill fd n Paid)]
| PartialKept :
    poSelected fd -> status fd = PartiallyPaid -> 0 < totalPaid fd n ->
    totalPaid fd n < amount fd ->
    Outcome fd n [onSave (savedBill fd n PartiallyPaid)]
| PaidShort :
    poSelected fd -> status fd = Paid -> totalPaid fd n < amount fd ->
    Outcome fd n
      [toast_error "Insufficient Payment" (TotalPaymentLess (totalPaid fd n))]
| PaidInFull :
    poSelected fd -> status fd = Paid -> amount fd <= totalPaid fd n ->
    Outcome fd n [onSave (savedBill fd n Paid)]
| UnpaidSaved :
    poSelected fd -> status fd = Unpaid ->
    Outcome fd n [onSave (savedBill fd n Unpaid)].

(** The form keeps the prior paid amount and the pending payment at zero
    while the status is "Unpaid". *)
Definition formInvariant (st : FormState) : Prop :=
  status (formData st) = Unpaid ->
  paidAmount (formData st) == 0 /\ newPaymentAmount st == 0.

(** Bills used to exercise the handler. *)
Definition sampleBill (po : string) (a p : number) (s : BillStatus)
    : BillFormData :=
  mkBillFormData (Some "bill-7") "BILL-20240101-4821" po "PO-00100"
    "ElectroTech Traders" a p 1700000000000 1702592000000 s "".

Definition samplePage : Bills.PageState :=
  Bills.mkPageState
    [sampleBill "po-init-1" 1425 1425 Paid;
     sampleBill "po-init-2" (45075 # 100) 0 Unpaid] true None.

End BillSpec.

(** ** Stock status *)

Module ProductSpec.
Import JS.
Import ProductFormData.

(** A product with the given switch position, stock and minimum stock. *)
Definition sampleProduct (active : bool) (stockLevel minLevel : number)
    : ProductFormData.t :=
  mk (Some "P-001") "Wireless Headphones" "Electronics" "WH-1000XM5"
    200 (34999 # 100) stockLevel None "pcs" minLevel "Active" active.

End ProductSpec.

(** ** Order totals *)

Module SalesOrderSpec.
Import JS.
Import SalesOrderFormData SalesOrderFormModal.

(** A row whose total is its quantity times its selling price. *)
Definition rowConsistent (item : SalesOrderItem.t) : Prop :=
  SalesOrderItem.total item
  == SalesOrderItem.quantity item * SalesOrderItem.sellingPrice item.

Definition rowsConsistent (fd : SalesOrderFormData.t) : Prop :=
  Forall rowConsistent (items fd).

Definition subTotalConsistent (fd : SalesOrderFormData.t) : Prop :=
  subTotal fd == sumOfLineTotals (items fd).

Definition gstConsistent (fd : SalesOrderFormData.t) : Prop :=
  gstAmount fd == subTotal fd * gstRate fd / 100.

Definition grandTotalConsistent (fd : SalesOrderFormData.t) : Prop :=
  grandTotal fd == subTotal fd + gstAmount fd.

(** The four equations of the order data model. *)
Definition consistent (fd : SalesOrderFormData.t) : Prop :=
  rowsConsistent fd /\ subTotalConsistent fd /\
  gstConsistent fd /\ grandTotalConsistent fd.

(** All quantities, prices and the tax rate of a form are non-negative. *)
Definition rowNonNegative (item : SalesOrderItem.t) : Prop :=
  0 <= SalesOrderItem.quantity item /\
  0 <= SalesOrderItem.sellingPrice item /\
  0 <= SalesOrderItem.total item.

Definition nonNegative (fd : SalesOrderFormData.t) : Prop :=
  Forall rowNonNegative (items fd) /\
  0 <= subTotal fd /\ 0 <= gstRate fd /\
  0 <= gstAmount fd /\ 0 <= grandTotal fd.

(** The value carried by a numeric edit is non-negative. *)
Definition editNonNegative (a : Action) : Prop :=
  match a with
  | ItemChange _ (ItemQuantity v) => 0 <= v
  | ItemChange _ (ItemSellingPrice v) => 0 <= v
  | ItemChange _ (ItemTotal v) => 0 <= v
  | GstChange (Some v) => 0 <= v
  | _ => True
  end.

(** Whether an action edits the given row: a line-item edit edits the
    rows that carry its row id, no other action edits a row. *)
Definition editedBy (a : Action) (item : SalesOrderItem.t) : bool :=
  match a with
  | ItemChange rowId _ => String.eqb (SalesOrderItem.id item) rowId
  | AddItem _ | RemoveItem _ | GstChange _ => false
  end.

(** Removing the rows whose id is [rowId]. *)
Definition remaining (rowId : string) (l : list SalesOrderItem.t)
    : list SalesOrderItem.t :=
  filter (fun item => negb (String.eqb (SalesOrderItem.id item) rowId)) l.

(** The actions the rendered form delivers: its inputs edit the product,
    the quantity and the selling price of a row. *)
Definition formAction (a : Action) : bool :=
  match a with
  | ItemChange _ e => recalculates e
  | AddItem _ | RemoveItem _ | GstChange _ => true
  end.

(** Sample data. *)
Definition row (rowId productId : string) (q p t : number)
    : SalesOrderItem.t :=
  SalesOrderItem.mk rowId productId q p t.

Definition sampleOrder (rows : list SalesOrderItem.t) (sub : number)
    (gst : option number) (gstAmt grand : number) : SalesOrderFormData.t :=
  mk (Some "so-init-2") "SO-10026" 1700000000000 "Bob Jones" rows
    "Courier requested" Pending sub gst gstAmt grand.

Definition catalog : list ProductFormData.t :=
  [ProductFormData.mk (Some "P-001") "Wireless Headphones" "Electronics"
     "WH-1000XM5" 200 (34999 # 100) 45 None "pcs" 10 "Active" true;
   ProductFormData.mk (Some "P-003") "Cotton T-Shirt" "Clothing"
     "TS-COT-M" 8 (1999 # 100) 120 None "pcs" 20 "Active" true].

(** An order whose first row carries a total that is not its quantity
    times its price. *)
Definition staleOrder : SalesOrderFormData.t :=
  sampleOrder [row "item-2" "P-001" 2 10 0; row "item-3" "P-003" 1 5 5]
    5 (Some 0) 0 5.

(** An order without rows whose stored totals are not zero. *)
Definition rowlessOrder : SalesOrderFormData.t :=
  sampleOrder [] 5 (Some 18) (9 # 10) (59 # 10).

Definition twoRowOrder : SalesOrderFormData.t :=
  sampleOrder
    [row "item-2" "P-003" 10 (1999 # 100) (1999 # 10);
     row "item-3" "P-005" 5 (125 # 10) (625 # 10)]
    (2624 # 10) (Some 18) (47232 # 1000) (309632 # 1000).

End SalesOrderSpec.

(** ** Vocabulary of the further properties *)

Module PageSpec.
Import JS.
Import BillFormModal BillSpec.

(** The number of [onSave] calls among the effects of a handler. *)
Fixpoint saveCount (es : list Effect) : nat :=
  match es with
  | [] => O
  | onSave _ :: rest => S (saveCount rest)
  | _ :: rest => saveCount rest
  end.

Definition noError (es : list Effect) : bool :=
  forallb (fun e => negb (isError e)) es.

(** A page that stores two bills with different ids. *)
Definition ledger : Bills.PageState :=
  Bills.mkPageState
    [Bills.set_id (Some "bill-1") (sampleBill "po-init-1" 1425 1425 Paid);
     Bills.set_id (Some "bill-2")
       (sampleBill "po-init-2" (45075 # 100) 0 Unpaid)] true None.

Definition samplePurchaseOrders : list PurchaseOrder :=
  [mkPurchaseOrder "po-init-1" "PO-00100" "SUP-0001" (Some 1425) true;
   mkPurchaseOrder "po-init-3" "PO-00102" "SUP-0009" None true].

Definition sampleSuppliers : list Supplier :=
  [mkSupplier "SUP-0001" (Some "ElectroTech Traders")].

End PageSpec.

Module SupplierSpec.
Import SupplierFormData.

Definition sampleSupplier (i shop : string) : SupplierFormData.t :=
  mk (Some i) shop "Jane Doe" "jane@example.com" "555-0100" "12 Market St"
    "" "Active".

Definition registered : list SupplierFormData.t :=
  [sampleSupplier "SUP-0007" "ElectroTech Traders";
   sampleSupplier "SUP-0042" "Global Garments Inc."].

End SupplierSpec.

Module StockSpec.
Import JS.

(** Whether the product at position [i] is the one [find] returns for
    [productId]: it carries that id and no earlier product does.  [ids] are
    the ids of the products, in order. *)
Definition hitIds (productId : string) (ids : list (option string))
    (i : nat) : bool :=
  match nth_error ids i with
  | Some k =>
      optEqb k productId
      && negb (existsb (fun k' => optEqb k' productId) (firstn i ids))
  | None => false
  end.

(** A sequence of stock updates, each addressed to a product id. *)
Definition applyUpdates (us : list (string * (number -> number)))
    (products : list ProductFormData.t) : list ProductFormData.t :=
  fold_left (fun ps u => MockProducts.updateStock (fst u) (snd u) ps)
    us products.

(** The stock of the product at position [i] after the updates. *)
Definition stockAt (ids : list (option string)) (i : nat)
    (us : list (string * (number -> number))) (s : number) : number :=
  fold_left (fun s u => if hitIds (fst u) ids i then snd u s else s) us s.

(** The total quantity the rows order of the product [productId]. *)
Fixpoint orderedQuantity (productId : string) (l : list SalesOrderItem.t)
    : number :=
  match l with
  | [] => 0
  | item :: rest =>
      (if String.eqb (SalesOrderItem.productId item) productId
       then SalesOrderItem.quantity item else 0)
      + orderedQuantity productId rest
  end.

(** Two product lists that differ in the stocks at most, no stock of the
    second being lower. *)
Definition stocksNotLower (ps ps' : list ProductFormData.t) : Prop :=
  List.length ps' = List.length ps /\
  forall i p, nth_error ps i = Some p ->
    exists p', nth_error ps' i = Some p' /\
      ProductFormData.stock p <= ProductFormData.stock p' /\
      ProductFormData.set_stock (ProductFormData.stock p) p' = p.

Definition salesUpdates (sign : number -> number -> number)
    (l : list SalesOrderItem.t) : list (string * (number -> number)) :=
  map (fun item =>
         (SalesOrderItem.productId item,
          fun s => sign s (SalesOrderItem.quantity item))) l.

Definition purchaseUpdates (l : list PurchaseOrders.PurchaseOrderItem)
    : list (string * (number -> number)) :=
  map (fun item =>
         (PurchaseOrders.productId item,
          fun s => s + PurchaseOrders.quantity item)) l.

(** A page with one pending order for two units of the first product of
    the catalog. *)
Definition pendingOrder : SalesOrderFormData.t :=
  SalesOrderFormData.mk (Some "so-init-2") "SO-10026" 1700000000000
    "Bob Jones" [SalesOrderItem.mk "item-2" "P-001" 2 10 20] ""
    SalesOrderFormData.Pending 20 (Some 0) 0 20.

Definition stockroom : list ProductFormData.t :=
  [ProductFormData.mk (Some "P-001") "Wireless Headphones" "Electronics"
     "WH-1000XM5" 200 (34999 # 100) 45 None "pcs" 10 "Active" true;
   ProductFormData.mk (Some "P-003") "Cotton T-Shirt" "Clothing"
     "TS-COT-M" 8 (1999 # 100) 120 None "pcs" 20 "Active" true].

(** The rows of every order an action saves have non-negative
    quantities. *)
Definition receivesNonNegative (a : PurchaseOrders.Action) : Prop :=
  match a with
  | PurchaseOrders.Save _ data =>
      Forall (fun item => 0 <= PurchaseOrders.quantity item)
        (PurchaseOrders.items data)
  | PurchaseOrders.Delete _ => True
  end.

Definition purchasePage : PurchaseOrders.PageState :=
  PurchaseOrders.mkPageState
    [PurchaseOrders.mkOrder (Some "po-init-1") "PO-00100" "SUP-0001"
       [PurchaseOrders.mkItem "P-001" 5] None PurchaseOrders.Pending 1000]
    stockroom true None.

Definition salesPage : SalesOrders.PageState :=
  SalesOrders.mkPageState [pendingOrder] stockroom true None.

End StockSpec.

(** * Properties *)

(** ** Facts about the JavaScript primitives *)

Module JSFacts.
Import JS.

Lemma leb_true (a b : number) : leb a b = true <-> a <= b.
Proof. unfold leb. apply Qle_bool_iff. Qed.

Lemma leb_false (a b : number) : leb a b = false <-> b < a.
Proof.
  unfold leb. split; intro H.
  - apply Qnot_le_lt. intro Hle. apply Qle_bool_iff in Hle. congruence.
  - destruct (Qle_bool a b) eqn:E; [|reflexivity].
    apply Qle_bool_iff in E. exfalso. exact (Qlt_not_le _ _ H E).
Qed.

Lemma geb_true (a b : number) : geb a b = true <-> b <= a.
Proof. unfold geb. apply Qle_bool_iff. Qed.

Lemma geb_false (a b : number) : geb a b = false <-> a < b.
Proof. unfold geb. apply (leb_false b a). Qed.

Lemma ltb_true (a b : number) : ltb a b = true <-> a < b.
Proof.
  unfold ltb. rewrite negb_true_iff. apply (leb_false b a).
Qed.

Lemma ltb_false (a b : number) : ltb a b = false <-> b <= a.
Proof.
  unfold ltb. rewrite negb_false_iff. apply Qle_bool_iff.
Qed.

Lemma eqb_true (a b : number) : eqb a b = true <-> a == b.
Proof. unfold eqb. apply Qeq_bool_iff. Qed.

Lemma eqb_false (a b : number) : eqb a b = false <-> ~ a == b.
Proof.
  unfold eqb. split; intro H.
  - now apply Qeq_bool_neq.
  - destruct (Qeq_bool a b) eqn:E; [|reflexivity].
    apply Qeq_bool_iff in E. contradiction.
Qed.

Lemma truthy_false (a : number) : truthy a = false <-> a == 0.
Proof.
  unfold truthy. rewrite negb_false_iff. apply Qeq_bool_iff.
Qed.

Lemma Math_max_0_nonneg (v : number) : 0 <= Math_max 0 v.
Proof. unfold Math_max. apply Q.le_max_l. Qed.

Lemma parsedOrZeroClamped_nonneg (val : option number) :
  0 <= parsedOrZeroClamped val.
Proof.
  destruct val as [v|]; simpl.
  - apply Math_max_0_nonneg.
  - apply Qle_refl.
Qed.

Lemma orZero_Some_eq (a : number) : orZero (Some a) == a.
Proof.
  unfold orZero. destruct (truthy a) eqn:E.
  - reflexivity.
  - apply truthy_false in E. symmetry. exact E.
Qed.

End JSFacts.


(** ** Payment-status reconciliation (BillFormModal.tsx, Bills.tsx) *)

Module BillProperties.
Import JS JSFacts.
Import BillFormModal BillSpec.

Lemma handleSubmit_outcome (fd : BillFormData) (n : number) :
  Outcome fd n (Handler.effects (handleSubmit fd n)).
Proof.
  unfold handleSubmit, Handler.effects.
  destruct (truthyString (purchaseOrderId fd)) eqn:Hpo.
  2:{ simpl. now apply NoPurchaseOrder. }
  unfold Math_min. fold (totalPaid fd n).
  destruct (status fd) eqn:Hst; simpl.
  - now apply UnpaidSaved.
  - destruct (leb (totalPaid fd n) 0) eqn:H0; simpl.
    + apply PartialNothingPaid; auto. now apply leb_true.
    + apply leb_false in H0.
      destruct (geb (totalPaid fd n) (amount fd)) eqn:H1; simpl.
      * apply PartialSettled; auto. now apply geb_true.
      * apply geb_false in H1. now apply PartialKept.
  - destruct (ltb (totalPaid fd n) (amount fd)) eqn:H1; simpl.
    + apply PaidShort; auto. now apply ltb_true.
    + apply ltb_false in H1. now apply PaidInFull.
Qed.

(** Inversion of an accepted submission: the bill saved is the form data
    with the capped total and the final status. *)
Lemma accepted_inv (fd : BillFormData) (n : number) (b : BillFormData) :
  accepted fd n b ->
  poSelected fd /\
  exists s, b = savedBill fd n s /\
    ((s = status fd /\ s <> PartiallyPaid /\
      (s = Paid -> amount fd <= totalPaid fd n)) \/
     (s = PartiallyPaid /\ status fd = PartiallyPaid /\
      0 < totalPaid fd n /\ totalPaid fd n < amount fd) \/
     (s = Paid /\ status fd = PartiallyPaid /\
      0 < totalPaid fd n /\ amount fd <= totalPaid fd n)).
Proof.
  unfold accepted. intro H.
  destruct (handleSubmit_outcome fd n) as [Hpo|Hpo Hst Ht|Hpo Hst H0 H1
    |Hpo Hst H0 H1|Hpo Hst H1|Hpo Hst H1|Hpo Hst];
    simpl in H; try discriminate; injection H as <-; split; auto.
  - exists Paid. split; [reflexivity|]. right. right. auto.
  - exists PartiallyPaid. split; [reflexivity|]. right. left. auto.
  - exists Paid. split; [reflexivity|]. left.
    repeat split; auto; congruence.
  - exists Unpaid. split; [reflexivity|]. left.
    repeat split; auto; congruence.
Qed.

Lemma not_poSelected_rejected (fd : BillFormData) (n : number) :
  truthyString (purchaseOrderId fd) = false ->
  Handler.effects (handleSubmit fd n) = [selectionRequired].
Proof.
  intro H. unfold handleSubmit, Handler.effects. rewrite H. reflexivity.
Qed.

(** Toasts do not reach the page: a submission that calls no [onSave]
    leaves the page state as it was. *)
Lemma deliver_toasts (freshId : string) (es : list Effect)
    (page : Bills.PageState) :
  (forall data, ~ In (onSave data) es) ->
  fold_left (Bills.deliver freshId) es page = page.
Proof.
  induction es as [|e es IH]; intro H; simpl; [reflexivity|].
  destruct e as [t d|t d|data].
  - simpl. apply IH. intros data Hin. apply (H data). now right.
  - simpl. apply IH. intros data Hin. apply (H data). now right.
  - exfalso. apply (H data). now left.
Qed.

(** C1. For every bill-form submission with a selected purchase order,
    bill amount A, prior paid amount P and new payment amount N: if the
    submission is accepted, the bill passed to [onSave] has [paidAmount]
    equal to min(A, P + N).  (An accepted submission always has a purchase
    order selected, so that condition is part of the conclusion; the bill
    amount itself is passed on unchanged.) *)
Theorem C1_saved_paidAmount_is_capped_total
    (fd : BillFormData) (n : number) (b : BillFormData) :
  accepted fd n b ->
  paidAmount b = Qmin (amount fd) (paidAmount fd + n) /\
  amount b = amount fd /\
  poSelected fd.
Proof.
  intro H. apply accepted_inv in H.
  destruct H as [Hpo [s [-> _]]].
  repeat split; auto.
Qed.

Lemma C1_witness :
  accepted (sampleBill "po-1" 100 40 PartiallyPaid) 60
    (savedBill (sampleBill "po-1" 100 40 PartiallyPaid) 60 Paid) /\
  (paidAmount (savedBill (sampleBill "po-1" 100 40 PartiallyPaid) 60 Paid)
     = Qmin 100 (40 + 60) /\
   amount (savedBill (sampleBill "po-1" 100 40 PartiallyPaid) 60 Paid) = 100 /\
   poSelected (sampleBill "po-1" 100 40 PartiallyPaid)).
Proof.
  split.
  - vm_compute. reflexivity.
  - apply (C1_saved_paidAmount_is_capped_total
             (sampleBill "po-1" 100 40 PartiallyPaid) 60).
    vm_compute. reflexivity.
Defined.

(** C2, as stated, fails when no purchase order is selected: the form
    declares "Partially Paid" with amount 100, prior paid 40 and new payment
    60, so the total is 100, yet the submission is rejected with "Selection
    Required" and nothing is saved. *)
Lemma C2_counterexample_no_purchase_order :
  status (sampleBill "" 100 40 PartiallyPaid) = PartiallyPaid /\
  0 < totalPaid (sampleBill "" 100 40 PartiallyPaid) 60 /\
  amount (sampleBill "" 100 40 PartiallyPaid)
    <= totalPaid (sampleBill "" 100 40 PartiallyPaid) 60 /\
  Handler.effects (handleSubmit (sampleBill "" 100 40 PartiallyPaid) 60)
    = [selectionRequired] /\
  forall b, ~ accepted (sampleBill "" 100 40 PartiallyPaid) 60 b.
Proof.
  split; [reflexivity|].
  split; [reflexivity|].
  split; [vm_compute; discriminate|].
  split; [reflexivity|].
  intros b H. vm_compute in H. discriminate.
Qed.

(** C2 (amended). For every bill-form submission with a selected purchase
    order and declared status "Partially Paid" whose total paid
    min(amount, prior paid + new payment) is greater than 0 and reaches or
    exceeds the bill amount, the submission is accepted: the handler shows
    the "Status Updated" notice and passes to [onSave] a bill whose status
    is "Paid", not "Partially Paid". *)
Theorem C2_settled_partial_payment_is_promoted
    (fd : BillFormData) (n : number) :
  poSelected fd ->
  status fd = PartiallyPaid ->
  0 < totalPaid fd n ->
  amount fd <= totalPaid fd n ->
  Handler.effects (handleSubmit fd n)
    = [statusUpdated; onSave (savedBill fd n Paid)] /\
  accepted fd n (savedBill fd n Paid) /\
  status (savedBill fd n Paid) = Paid /\
  status (savedBill fd n Paid) <> PartiallyPaid.
Proof.
  intros Hpo Hst H0 H1.
  assert (E : Handler.effects (handleSubmit fd n)
              = [statusUpdated; onSave (savedBill fd n Paid)]).
  { unfold handleSubmit, Handler.effects. rewrite Hpo, Hst.
    unfold Math_min. fold (totalPaid fd n).
    apply leb_false in H0. apply geb_true in H1.
    simpl. rewrite H0. simpl. rewrite H1. reflexivity. }
  split; [exact E|]. split.
  - unfold accepted. rewrite E. reflexivity.
  - split; [reflexivity|discriminate].
Qed.

Lemma C2_witness :
  poSelected (sampleBill "po-1" 100 40 PartiallyPaid) /\
  Handler.effects (handleSubmit (sampleBill "po-1" 100 40 PartiallyPaid) 60)
    = [statusUpdated;
       onSave (savedBill (sampleBill "po-1" 100 40 PartiallyPaid) 60 Paid)] /\
  paidAmount (savedBill (sampleBill "po-1" 100 40 PartiallyPaid) 60 Paid)
    == 100.
Proof.
  split; [reflexivity|]. split.
  - apply (C2_settled_partial_payment_is_promoted
             (sampleBill "po-1" 100 40 PartiallyPaid) 60).
    + reflexivity.
    + reflexivity.
    + reflexivity.
    + vm_compute. discriminate.
  - reflexivity.
Defined.

(** C3. For every bill-form submission with declared status "Paid" and a
    selected purchase order: if the total paid min(amount, prior paid + new
    payment) is less than the bill amount, the submission is rejected with
    the "Insufficient Payment" validation error and nothing else happens;
    [onSave] is not called, no bill (with a corrected status or otherwise) is
    saved, and the page's bill collection is unchanged. *)
Theorem C3_paid_with_insufficient_payment_is_rejected
    (fd : BillFormData) (n : number) :
  poSelected fd ->
  status fd = Paid ->
  totalPaid fd n < amount fd ->
  Handler.effects (handleSubmit fd n)
    = [toast_error "Insufficient Payment" (TotalPaymentLess (totalPaid fd n))] /\
  ~ onSaveCalled (Handler.effects (handleSubmit fd n)) /\
  (forall b, ~ accepted fd n b) /\
  (forall freshId page, Bills.formSubmitted freshId page fd n = page).
Proof.
  intros Hpo Hst H1.
  assert (E : Handler.effects (handleSubmit fd n)
              = [toast_error "Insufficient Payment"
                   (TotalPaymentLess (totalPaid fd n))]).
  { unfold handleSubmit, Handler.effects. rewrite Hpo, Hst.
    unfold Math_min. fold (totalPaid fd n).
    apply ltb_true in H1. simpl. rewrite H1. reflexivity. }
  assert (N : forall data, ~ In (onSave data) (Handler.effects (handleSubmit fd n))).
  { intros data Hin. rewrite E in Hin. simpl in Hin.
    destruct Hin as [Hin|[]]. discriminate. }
  split; [exact E|]. split; [|split].
  - intros [data Hin]. exact (N data Hin).
  - intros b Hb. unfold accepted in Hb. rewrite E in Hb. discriminate.
  - intros freshId page. unfold Bills.formSubmitted.
    now apply deliver_toasts.
Qed.

Lemma C3_witness :
  Handler.effects (handleSubmit (sampleBill "po-1" 100 0 Paid) 30)
    = [toast_error "Insufficient Payment" (TotalPaymentLess 30)] /\
  Bills.formSubmitted "bill-1700000000000" samplePage
    (sampleBill "po-1" 100 0 Paid) 30 = samplePage.
Proof.
  destruct (C3_paid_with_insufficient_payment_is_rejected
              (sampleBill "po-1" 100 0 Paid) 30) as [E [_ [_ P]]].
  - reflexivity.
  - reflexivity.
  - reflexivity.
  - split.
    + exact E.
    + apply P.
Defined.

(** C4. For every bill-form submission with declared status "Partially
    Paid" and a selected purchase order: if the total paid
    min(amount, prior paid + new payment) is less than or equal to 0, the
    submission is rejected with the "Invalid Amount" error and [onSave] is
    never called. *)
Theorem C4_partial_with_nothing_paid_is_rejected
    (fd : BillFormData) (n : number) :
  poSelected fd ->
  status fd = PartiallyPaid ->
  totalPaid fd n <= 0 ->
  Handler.effects (handleSubmit fd n) = [invalidAmount] /\
  ~ onSaveCalled (Handler.effects (handleSubmit fd n)) /\
  (forall b, ~ accepted fd n b).
Proof.
  intros Hpo Hst H0.
  assert (E : Handler.effects (handleSubmit fd n) = [invalidAmount]).
  { unfold handleSubmit, Handler.effects. rewrite Hpo, Hst.
    unfold Math_min. fold (totalPaid fd n).
    apply leb_true in H0. simpl. rewrite H0. reflexivity. }
  split; [exact E|]. split.
  - intros [data Hin]. rewrite E in Hin. simpl in Hin.
    destruct Hin as [Hin|[]]. discriminate.
  - intros b Hb. unfold accepted in Hb. rewrite E in Hb. discriminate.
Qed.

Lemma C4_witness :
  Handler.effects (handleSubmit (sampleBill "po-1" 100 0 PartiallyPaid) 0)
    = [invalidAmount].
Proof.
  apply (C4_partial_with_nothing_paid_is_rejected
           (sampleBill "po-1" 100 0 PartiallyPaid) 0).
  - reflexivity.
  - reflexivity.
  - vm_compute. discriminate.
Defined.

(** *** The form as a state machine *)

Lemma BillStatus_eqb_eq (a b : BillStatus) :
  BillStatus_eqb a b = true <-> a = b.
Proof.
  destruct a, b; simpl; split; intro H; try reflexivity; discriminate.
Qed.

Section FormInvariant.
Variable bill : option BillFormData.
Variable purchaseOrders : list PurchaseOrder.
Variable suppliers : list Supplier.
Hypothesis bill_ok : forall b0, bill = Some b0 -> billInvariant b0.

Lemma openForm_invariant (now : Z) (generated : string) :
  formInvariant (openForm now generated bill).
Proof.
  unfold formInvariant, openForm.
  destruct bill as [b0|]; simpl.
  - intro Hst. split; [|reflexivity].
    destruct (bill_ok b0 eq_refl) as [_ Hu]. now apply Hu.
  - intros _. split; reflexivity.
Qed.

Lemma handlePurchaseOrderChange_invariant (poId : string) (st : FormState) :
  formInvariant st ->
  formInvariant (handlePurchaseOrderChange purchaseOrders suppliers poId st).
Proof.
  unfold formInvariant, handlePurchaseOrderChange. intro IH.
  destruct (find _ purchaseOrders) as [po|]; [|exact IH].
  simpl. intro Hst. split; [reflexivity|]. now apply IH.
Qed.

Lemma handleStatusChange_invariant (s : BillStatus) (st : FormState) :
  formInvariant (handleStatusChange s st).
Proof.
  unfold formInvariant, handleStatusChange.
  destruct s; simpl; intro Hst; try discriminate.
  split; reflexivity.
Qed.

Lemma step_invariant (st : FormState) (ev : Event) :
  formInvariant st ->
  formInvariant (step bill purchaseOrders suppliers st ev).
Proof.
  intro IH. destruct ev as [poId|s|val|d|d|g]; simpl.
  - destruct (editingExisting bill); [exact IH|].
    destruct (offered purchaseOrders poId); [|exact IH].
    now apply handlePurchaseOrderChange_invariant.
  - destruct (truthyString _); [|exact IH].
    apply handleStatusChange_invariant.
  - destruct (BillStatus_eqb _ _) eqn:E; [|exact IH].
    apply BillStatus_eqb_eq in E.
    unfold formInvariant, payNowChange. simpl. congruence.
  - exact IH.
  - exact IH.
  - exact IH.
Qed.

Lemma run_invariant (now : Z) (generated : string) (evs : list Event) :
  formInvariant (run bill purchaseOrders suppliers now generated evs).
Proof.
  unfold run.
  generalize (openForm_invariant now generated).
  generalize (openForm now generated bill).
  induction evs as [|ev evs IH]; intros st Hst; simpl.
  - exact Hst.
  - apply IH. now apply step_invariant.
Qed.

End FormInvariant.

Lemma savedBill_fields (fd : BillFormData) (n : number) (s : BillStatus) :
  status (savedBill fd n s) = s /\
  paidAmount (savedBill fd n s) = totalPaid fd n /\
  amount (savedBill fd n s) = amount fd.
Proof. repeat split. Qed.

(** C9, as stated, fails for a bill whose amount is negative: the bill
    below is "Unpaid" with nothing paid, so it satisfies the invariant; the
    form is opened on it and submitted at once; the submission is accepted
    and the saved bill is "Unpaid" with [paidAmount] min(-5, 0) = -5. *)
Lemma C9_counterexample_negative_amount :
  billInvariant (sampleBill "po-1" (-5) 0 Unpaid) /\
  saved (submit (Some (sampleBill "po-1" (-5) 0 Unpaid)) [] [] 0 "" [])
    = Some (savedBill (sampleBill "po-1" (-5) 0 Unpaid) 0 Unpaid) /\
  status (savedBill (sampleBill "po-1" (-5) 0 Unpaid) 0 Unpaid) = Unpaid /\
  paidAmount (savedBill (sampleBill "po-1" (-5) 0 Unpaid) 0 Unpaid) == -5 /\
  ~ billInvariant (savedBill (sampleBill "po-1" (-5) 0 Unpaid) 0 Unpaid).
Proof.
  split.
  { split; simpl; intro H; [discriminate|reflexivity]. }
  split; [reflexivity|].
  split; [reflexivity|].
  split; [reflexivity|].
  intros [_ H]. specialize (H eq_refl). vm_compute in H. discriminate.
Qed.

(** C9 (amended). Open the form on a bill that satisfies the invariant (or
    on no bill), deliver any sequence of form events, and submit.  Every
    bill produced by an accepted submission satisfies: status = "Paid"
    implies paidAmount >= amount, and status = "Unpaid" implies
    paidAmount = min(amount, 0).  Hence, when the bill amount is not
    negative, status = "Unpaid" implies paidAmount = 0 and the saved bill
    satisfies the invariant. *)
Theorem C9_accepted_bill_satisfies_invariant
    (bill : option BillFormData) (purchaseOrders : list PurchaseOrder)
    (suppliers : list Supplier) (now : Z) (generated : string)
    (evs : list Event) (b : BillFormData) :
  (forall b0, bill = Some b0 -> billInvariant b0) ->
  saved (submit bill purchaseOrders suppliers now generated evs) = Some b ->
  (status b = Paid -> amount b <= paidAmount b) /\
  (status b = Unpaid -> paidAmount b == Qmin (amount b) 0) /\
  (0 <= amount b -> billInvariant b).
Proof.
  intros Hbill Hacc. unfold submit in Hacc.
  pose proof (run_invariant bill purchaseOrders suppliers Hbill now
                generated evs) as Hinv.
  set (st := run bill purchaseOrders suppliers now generated evs) in *.
  apply accepted_inv in Hacc.
  destruct Hacc as [_ [s [-> Hs]]].
  destruct (savedBill_fields (formData st) (newPaymentAmount st) s)
    as [Es [Ep Ea]].
  rewrite Es, Ep, Ea.
  assert (HP : s = Paid -> amount (formData st)
                 <= totalPaid (formData st) (newPaymentAmount st)).
  { intro HsP.
    destruct Hs as [[_ [_ H]]|[[H _]|[_ [_ [_ H]]]]]; auto; congruence. }
  assert (HU : s = Unpaid ->
               totalPaid (formData st) (newPaymentAmount st)
               == Qmin (amount (formData st)) 0).
  { intro HsU.
    assert (Hst : status (formData st) = Unpaid).
    { destruct Hs as [[H _]|[[H _]|[H _]]]; congruence. }
    destruct (Hinv Hst) as [H1 H2].
    unfold totalPaid. apply Q.min_compat; [reflexivity|].
    rewrite H1, H2. reflexivity. }
  split; [exact HP|]. split; [exact HU|].
  intro Hpos. split; rewrite ?Es, ?Ep, ?Ea; [exact HP|].
  intro HsU. rewrite (HU HsU). now apply Q.min_r.
Qed.

Lemma C9_witness :
  (status (savedBill (sampleBill "po-1" 100 0 Unpaid) 0 Unpaid) = Paid ->
   amount (savedBill (sampleBill "po-1" 100 0 Unpaid) 0 Unpaid)
   <= paidAmount (savedBill (sampleBill "po-1" 100 0 Unpaid) 0 Unpaid)) /\
  (status (savedBill (sampleBill "po-1" 100 0 Unpaid) 0 Unpaid) = Unpaid ->
   paidAmount (savedBill (sampleBill "po-1" 100 0 Unpaid) 0 Unpaid)
   == Qmin (amount (savedBill (sampleBill "po-1" 100 0 Unpaid) 0 Unpaid)) 0) /\
  (0 <= amount (savedBill (sampleBill "po-1" 100 0 Unpaid) 0 Unpaid) ->
   billInvariant (savedBill (sampleBill "po-1" 100 0 Unpaid) 0 Unpaid)).
Proof.
  apply (C9_accepted_bill_satisfies_invariant
           (Some (sampleBill "po-1" 100 30 PartiallyPaid)) [] [] 0 ""
           [TypePayNow (Some 20); SelectStatus Unpaid]).
  - intros b0 H. injection H as <-.
    split; simpl; intro H; discriminate.
  - vm_compute. reflexivity.
Defined.

End BillProperties.

(** ** Stock status (ProductFormModal.tsx) *)

Module ProductProperties.
Import JS JSFacts.
Import ProductFormData ProductFormModal ProductSpec.

Lemma handleSubmit_keeps_fields (fd : ProductFormData.t) :
  handleSubmit fd = set_status (status (handleSubmit fd)) fd.
Proof. reflexivity. Qed.

(** C8, as stated, fails for a product whose minimum stock is negative:
    the product is active, its stock is 0 and its minimum stock is -1, so
    stock > minStock, yet it is saved as "Out of Stock", not "Active". *)
Lemma C8_counterexample_negative_minStock :
  isActive (sampleProduct true 0 (-1)) = true /\
  minStock (sampleProduct true 0 (-1)) < stock (sampleProduct true 0 (-1)) /\
  status (handleSubmit (sampleProduct true 0 (-1))) = "Out of Stock" /\
  status (handleSubmit (sampleProduct true 0 (-1))) <> "Active".
Proof.
  split; [reflexivity|].
  split; [reflexivity|].
  split; [reflexivity|].
  vm_compute. discriminate.
Qed.

(** C8 (amended). For every product-form submission the saved product is
    the form data with its status derived as: "Out of Stock" if the product
    is marked active and stock = 0; "Low Stock" if it is marked active and
    0 < stock <= minStock; "Active" if it is marked active, stock is not 0
    and stock > minStock; and "Inactive", whatever the stock, if it is not
    marked active.  In particular "Active" is the status of every active
    product with stock > minStock >= 0. *)
Theorem C8_saved_status_derivation (fd : ProductFormData.t) :
  (isActive fd = true -> stock fd == 0 ->
   status (handleSubmit fd) = "Out of Stock") /\
  (isActive fd = true -> 0 < stock fd -> stock fd <= minStock fd ->
   status (handleSubmit fd) = "Low Stock") /\
  (isActive fd = true -> ~ stock fd == 0 -> minStock fd < stock fd ->
   status (handleSubmit fd) = "Active") /\
  (isActive fd = true -> 0 <= minStock fd -> minStock fd < stock fd ->
   status (handleSubmit fd) = "Active") /\
  (isActive fd = false -> status (handleSubmit fd) = "Inactive") /\
  handleSubmit fd = set_status (status (handleSubmit fd)) fd.
Proof.
  assert (A : isActive fd = true -> ~ stock fd == 0 ->
              minStock fd < stock fd ->
              status (handleSubmit fd) = "Active").
  { unfold handleSubmit. simpl.
    intros Ha H0 H1. rewrite Ha. simpl.
    apply eqb_false in H0. rewrite H0.
    apply leb_false in H1. now rewrite H1. }
  split; [|split; [|split; [exact A|split; [|split]]]];
    unfold handleSubmit; simpl.
  - intros Ha H0. rewrite Ha. simpl.
    apply eqb_true in H0. now rewrite H0.
  - intros Ha H0 H1. rewrite Ha. simpl.
    assert (E : eqb (stock fd) 0 = false).
    { apply eqb_false. intro E. rewrite E in H0.
      exact (Qlt_irrefl _ H0). }
    rewrite E. apply leb_true in H1. now rewrite H1.
  - intros Ha H0 H1. apply A; auto.
    intro E. rewrite E in H1. exact (Qlt_not_le _ _ H1 H0).
  - intros Ha. rewrite Ha. reflexivity.
  - reflexivity.
Qed.

Lemma C8_witness :
  status (handleSubmit (sampleProduct true 0 10)) = "Out of Stock" /\
  status (handleSubmit (sampleProduct true 4 10)) = "Low Stock" /\
  status (handleSubmit (sampleProduct true 25 10)) = "Active" /\
  status (handleSubmit (sampleProduct false 0 10)) = "Inactive".
Proof.
  split; [|split; [|split]].
  - apply (proj1 (C8_saved_status_derivation (sampleProduct true 0 10))).
    + reflexivity.
    + reflexivity.
  - apply (proj1 (proj2
             (C8_saved_status_derivation (sampleProduct true 4 10)))).
    + reflexivity.
    + reflexivity.
    + vm_compute. discriminate.
  - apply (proj1 (proj2 (proj2
             (C8_saved_status_derivation (sampleProduct true 25 10))))).
    + reflexivity.
    + intro H. vm_compute in H. discriminate H.
    + reflexivity.
  - apply (proj1 (proj2 (proj2 (proj2 (proj2
             (C8_saved_status_derivation (sampleProduct false 0 10))))))).
    reflexivity.
Defined.

End ProductProperties.

(** ** Order totals (SalesOrderFormModal.tsx) *)

Module SalesOrderProperties.
Import JS JSFacts.
Import SalesOrderFormData SalesOrderFormModal SalesOrderSpec.

(** *** Sums and tax *)

Lemma fold_totals_from (l : list SalesOrderItem.t) (a : number) :
  fold_left (fun sum item => sum + SalesOrderItem.total item) l a
  == a + sumOfLineTotals l.
Proof.
  revert a. induction l as [|item l IH]; intro a; simpl.
  - now rewrite Qplus_0_r.
  - rewrite IH. now rewrite Qplus_assoc.
Qed.

Lemma reduceTotals_sum (l : list SalesOrderItem.t) :
  reduceTotals l == sumOfLineTotals l.
Proof.
  unfold reduceTotals. rewrite fold_totals_from. apply Qplus_0_l.
Qed.

Lemma sumOfLineTotals_app (l1 l2 : list SalesOrderItem.t) :
  sumOfLineTotals (l1 ++ l2) == sumOfLineTotals l1 + sumOfLineTotals l2.
Proof.
  induction l1 as [|item l1 IH]; simpl.
  - now rewrite Qplus_0_l.
  - rewrite IH. now rewrite Qplus_assoc.
Qed.

Lemma sumOfLineTotals_nonneg (l : list SalesOrderItem.t) :
  Forall rowNonNegative l -> 0 <= sumOfLineTotals l.
Proof.
  induction 1 as [|item l [_ [_ Ht]] _ IH]; simpl.
  - apply Qle_refl.
  - replace 0 with (0 + 0) by reflexivity. now apply Qplus_le_compat.
Qed.

Lemma gstOn_rate (s : number) (g : option number) :
  gstOn s g == s * orZero g / 100.
Proof.
  unfold gstOn, orZero. destruct g as [g|].
  - destruct (truthy g); [reflexivity|].
    unfold Qdiv. now rewrite Qmult_0_r, Qmult_0_l.
  - unfold Qdiv. now rewrite Qmult_0_r, Qmult_0_l.
Qed.

Lemma percent_nonneg (s g : number) : 0 <= s -> 0 <= g -> 0 <= s * g / 100.
Proof.
  intros Hs Hg. unfold Qdiv. apply Qmult_le_0_compat.
  - now apply Qmult_le_0_compat.
  - discriminate.
Qed.

Lemma orZero_nonneg (g : option number) :
  (forall v, g = Some v -> 0 <= v) -> 0 <= orZero g.
Proof.
  intro H. unfold orZero. destruct g as [v|]; [|apply Qle_refl].
  destruct (truthy v); [now apply H|apply Qle_refl].
Qed.

(** *** What each handler recomputes *)

(** The totals written by [handleItemChange] and [handleRemoveItem]. *)
Lemma withTotals_recomputed (prev : SalesOrderFormData.t)
    (newItems : list SalesOrderItem.t) :
  let fd' := withTotals prev newItems (reduceTotals newItems)
               (gstOn (reduceTotals newItems) (gstPercentage prev))
               (reduceTotals newItems
                + gstOn (reduceTotals newItems) (gstPercentage prev)) in
  subTotalConsistent fd' /\ gstConsistent fd' /\ grandTotalConsistent fd'.
Proof.
  unfold subTotalConsistent, gstConsistent, grandTotalConsistent, gstRate.
  simpl. split; [|split].
  - apply reduceTotals_sum.
  - apply gstOn_rate.
  - reflexivity.
Qed.

Lemma handleGstChange_recomputed (val : option number)
    (prev : SalesOrderFormData.t) :
  let fd' := handleGstChange val prev in
  items fd' = items prev /\ subTotal fd' = subTotal prev /\
  gstPercentage fd' = Some (parsedOrZeroClamped val) /\
  gstConsistent fd' /\ grandTotalConsistent fd'.
Proof.
  split; [reflexivity|]. split; [reflexivity|]. split; [reflexivity|].
  split.
  - unfold gstConsistent, gstRate, handleGstChange.
    cbn [gstAmount subTotal gstPercentage].
    now rewrite orZero_Some_eq.
  - unfold grandTotalConsistent. reflexivity.
Qed.

Lemma updateItem_rowConsistent (products : list ProductFormData.t)
    (e : ItemEdit) (item : SalesOrderItem.t) :
  recalculates e = true -> rowConsistent (updateItem products e item).
Proof.
  intro H. unfold updateItem. rewrite H. unfold rowConsistent.
  reflexivity.
Qed.

Lemma handleItemChange_rows (products : list ProductFormData.t)
    (rowId : string) (e : ItemEdit) (prev : SalesOrderFormData.t) :
  recalculates e = true ->
  rowsConsistent prev ->
  rowsConsistent (handleItemChange products rowId e prev).
Proof.
  unfold rowsConsistent. intros He H. simpl.
  induction H as [|item l Hitem _ IH]; simpl; constructor; auto.
  destruct (String.eqb _ rowId); [|exact Hitem].
  now apply updateItem_rowConsistent.
Qed.

(** C5, as stated, fails when a row that is not being edited had a stale
    total: in the order below every quantity, price and the tax rate is
    non-negative, and row "item-2" has quantity 2, price 10 and total 0;
    the form is opened on it and the quantity of row "item-3" is edited,
    which leaves row "item-2" as it was. *)
Lemma C5_counterexample_unedited_row_keeps_total :
  nonNegative (openForm 0 "" (Some staleOrder)) /\
  editOrGst (ItemChange "item-3" (ItemQuantity 3)) = true /\
  editNonNegative (ItemChange "item-3" (ItemQuantity 3)) /\
  items (apply catalog (openForm 0 "" (Some staleOrder))
           (ItemChange "item-3" (ItemQuantity 3)))
    = [row "item-2" "P-001" 2 10 0; row "item-3" "P-003" 3 5 15] /\
  ~ rowsConsistent
      (apply catalog (openForm 0 "" (Some staleOrder))
         (ItemChange "item-3" (ItemQuantity 3))) /\
  ~ consistent
      (apply catalog (openForm 0 "" (Some staleOrder))
         (ItemChange "item-3" (ItemQuantity 3))).
Proof.
  assert (N : ~ rowsConsistent
      (apply catalog (openForm 0 "" (Some staleOrder))
         (ItemChange "item-3" (ItemQuantity 3)))).
  { intro H. apply Forall_inv in H. vm_compute in H. discriminate H. }
  split.
  { unfold nonNegative, rowNonNegative. simpl.
    repeat split; repeat constructor; discriminate. }
  split; [reflexivity|].
  split; [simpl; discriminate|].
  split; [reflexivity|].
  split; [exact N|].
  intros [H _]. exact (N H).
Qed.

Lemma handleItemChange_rows_of_unedited (products : list ProductFormData.t)
    (rowId : string) (e : ItemEdit) (prev : SalesOrderFormData.t) :
  recalculates e = true ->
  (forall item, In item (items prev) ->
     String.eqb (SalesOrderItem.id item) rowId = false ->
     rowConsistent item) ->
  rowsConsistent (handleItemChange products rowId e prev).
Proof.
  unfold rowsConsistent. intros He. simpl.
  induction (items prev) as [|item l IH]; intro H; simpl; constructor.
  - destruct (String.eqb (SalesOrderItem.id item) rowId) eqn:E.
    + now apply updateItem_rowConsistent.
    + apply H; [now left|exact E].
  - apply IH. intros x Hx. apply H. now right.
Qed.

(** C5 (amended). After a line-item edit of the quantity, the selling
    price or the product, or after a GST-rate change: gstAmount equals
    subTotal * gstPercentage / 100 and grandTotal equals
    subTotal + gstAmount; subTotal equals the sum of all row totals
    (after a GST-rate change: provided it did before the change); and each
    row's total equals quantity times selling price provided this held,
    before the change, for every row that the change does not edit (the
    rows with another id than the edited one; every row for a GST-rate
    change). *)
Theorem C5_edit_or_gst_change_yields_consistent_totals
    (products : list ProductFormData.t) (fd : SalesOrderFormData.t)
    (a : Action) :
  editOrGst a = true ->
  ((forall item, In item (items fd) -> editedBy a item = false ->
      rowConsistent item) ->
   rowsConsistent (apply products fd a)) /\
  ((forall val, a = GstChange val -> subTotalConsistent fd) ->
   subTotalConsistent (apply products fd a)) /\
  gstConsistent (apply products fd a) /\
  grandTotalConsistent (apply products fd a).
Proof.
  intros Ha. destruct a as [rowId|rowId|rowId e|val];
    simpl in Ha; try discriminate; simpl.
  - destruct (withTotals_recomputed fd
                (map (fun item =>
                        if String.eqb (SalesOrderItem.id item) rowId
                        then updateItem products e item else item)
                   (items fd))) as [Hs [Hg Ht]].
    split; [|split; [|split]].
    + intro Hrows. now apply handleItemChange_rows_of_unedited.
    + intros _. exact Hs.
    + exact Hg.
    + exact Ht.
  - destruct (handleGstChange_recomputed val fd) as [Hi [Hs [_ [Hg Hgt]]]].
    split; [|split; [|split]].
    + intro Hrows. unfold rowsConsistent. rewrite Hi.
      apply Forall_forall. intros item Hin. now apply Hrows.
    + intro Hsub. unfold subTotalConsistent. rewrite Hi, Hs.
      now apply (Hsub val).
    + exact Hg.
    + exact Hgt.
Qed.

Lemma C5_witness :
  consistent
    (apply catalog staleOrder (ItemChange "item-2" (ItemQuantity 4))) /\
  consistent (apply catalog twoRowOrder (GstChange (Some 5))).
Proof.
  split.
  - destruct (C5_edit_or_gst_change_yields_consistent_totals catalog
                staleOrder (ItemChange "item-2" (ItemQuantity 4)) eq_refl)
      as [Hrows [Hsub [Hg Ht]]].
    split; [|split; [|split]].
    + apply Hrows. intros item [<-|[<-|[]]] H.
      * discriminate H.
      * reflexivity.
    + apply Hsub. intros val H. discriminate H.
    + exact Hg.
    + exact Ht.
  - destruct (C5_edit_or_gst_change_yields_consistent_totals catalog
                twoRowOrder (GstChange (Some 5)) eq_refl)
      as [Hrows [Hsub [Hg Ht]]].
    split; [|split; [|split]].
    + apply Hrows. intros item [<-|[<-|[]]] _; reflexivity.
    + apply Hsub. intros val _. reflexivity.
    + exact Hg.
    + exact Ht.
Defined.

(** *** Removing rows *)

Lemma gstOn_zero (g : option number) : gstOn 0 g == 0.
Proof.
  rewrite gstOn_rate. unfold Qdiv. now rewrite !Qmult_0_l.
Qed.

Lemma handleRemoveItem_items (rowId : string) (fd : SalesOrderFormData.t) :
  items (handleRemoveItem rowId fd) = remaining rowId (items fd).
Proof. reflexivity. Qed.

Lemma handleRemoveItem_gstPercentage (rowId : string)
    (fd : SalesOrderFormData.t) :
  gstPercentage (handleRemoveItem rowId fd) = gstPercentage fd.
Proof. reflexivity. Qed.

(** A removal that leaves no row leaves all three totals at zero. *)
Lemma handleRemoveItem_empty (rowId : string) (fd : SalesOrderFormData.t) :
  items (handleRemoveItem rowId fd) = [] ->
  subTotal (handleRemoveItem rowId fd) == 0 /\
  gstAmount (handleRemoveItem rowId fd) == 0 /\
  grandTotal (handleRemoveItem rowId fd) == 0.
Proof.
  unfold handleRemoveItem. cbn [items withTotals subTotal gstAmount grandTotal].
  intros ->. change (reduceTotals []) with 0.
  split; [reflexivity|]. split.
  - apply gstOn_zero.
  - rewrite gstOn_zero. reflexivity.
Qed.

(** The rows left after removing the ids [ids] one after the other. *)
Lemma remove_all_items (ids : list string) (fd : SalesOrderFormData.t) :
  items (fold_left (fun st rowId => handleRemoveItem rowId st) ids fd)
  = filter (fun item =>
      negb (existsb (String.eqb (SalesOrderItem.id item)) ids)) (items fd).
Proof.
  revert fd. induction ids as [|r ids IH]; intro fd; simpl.
  - induction (items fd) as [|item l IHl]; simpl; congruence.
  - rewrite IH, handleRemoveItem_items. unfold remaining.
    induction (items fd) as [|item l IHl]; simpl; [reflexivity|].
    destruct (String.eqb (SalesOrderItem.id item) r); simpl.
    + exact IHl.
    + destruct (existsb _ ids); simpl; congruence.
Qed.

Lemma removeEvery_items (fd : SalesOrderFormData.t) :
  items (removeEvery fd) = [].
Proof.
  unfold removeEvery. rewrite remove_all_items.
  assert (H : forall l l' : list SalesOrderItem.t,
             (forall item, In item l -> In item l') ->
             filter (fun item =>
               negb (existsb (String.eqb (SalesOrderItem.id item))
                       (map SalesOrderItem.id l'))) l = []).
  { induction l as [|item l IH]; intros l' Hsub; simpl; [reflexivity|].
    assert (E : existsb (String.eqb (SalesOrderItem.id item))
                  (map SalesOrderItem.id l') = true).
    { apply existsb_exists. exists (SalesOrderItem.id item). split.
      - apply in_map. apply Hsub. now left.
      - apply String.eqb_refl. }
    rewrite E. simpl. apply IH. intros x Hx. apply Hsub. now right. }
  apply H. auto.
Qed.

(** C6, as stated, fails for a starting list without rows: the order
    below has no line item and stored totals 5, 0.9 and 5.9; there is no
    row whose remove button could be pressed, so removing every line item
    leaves the form as it is and the totals are not 0. *)
Lemma C6_counterexample_no_rows_keeps_stored_totals :
  items (openForm 0 "" (Some rowlessOrder)) = [] /\
  removeEvery (openForm 0 "" (Some rowlessOrder))
    = openForm 0 "" (Some rowlessOrder) /\
  ~ subTotal (removeEvery (openForm 0 "" (Some rowlessOrder))) == 0 /\
  ~ gstAmount (removeEvery (openForm 0 "" (Some rowlessOrder))) == 0 /\
  ~ grandTotal (removeEvery (openForm 0 "" (Some rowlessOrder))) == 0.
Proof.
  split; [reflexivity|]. split; [reflexivity|].
  split; [|split]; intro H; vm_compute in H; discriminate H.
Qed.

(** C6 (amended). Removing a line item keeps exactly the rows with
    another id and recomputes subTotal, gstAmount and grandTotal from those
    remaining rows only; in particular, after removing every line item of a
    form that has at least one (whatever its rows and its tax percentage
    are), no row is left and subTotal, gstAmount and grandTotal all equal 0.
    A form that has no line item offers nothing to remove and stays as it
    is. *)
Theorem C6_remove_recomputes_from_remaining_rows
    (fd : SalesOrderFormData.t) :
  (forall rowId,
     items (handleRemoveItem rowId fd) = remaining rowId (items fd) /\
     subTotal (handleRemoveItem rowId fd)
       == sumOfLineTotals (remaining rowId (items fd)) /\
     gstAmount (handleRemoveItem rowId fd)
       == sumOfLineTotals (remaining rowId (items fd)) * gstRate fd / 100 /\
     grandTotal (handleRemoveItem rowId fd)
       == sumOfLineTotals (remaining rowId (items fd))
          + sumOfLineTotals (remaining rowId (items fd)) * gstRate fd / 100) /\
  (items fd <> [] ->
     items (removeEvery fd) = [] /\
     subTotal (removeEvery fd) == 0 /\
     gstAmount (removeEvery fd) == 0 /\
     grandTotal (removeEvery fd) == 0) /\
  (items fd = [] -> removeEvery fd = fd).
Proof.
  split; [|split].
  - intro rowId.
    destruct (withTotals_recomputed fd (remaining rowId (items fd)))
      as [Hs [Hg Ht]].
    unfold subTotalConsistent, gstConsistent, grandTotalConsistent, gstRate
      in Hs, Hg, Ht.
    cbn [withTotals subTotal gstAmount grandTotal items gstPercentage]
      in Hs, Hg, Ht.
    unfold handleRemoveItem, gstRate.
    cbn [withTotals subTotal gstAmount grandTotal items gstPercentage].
    fold (remaining rowId (items fd)).
    split; [reflexivity|]. split; [exact Hs|]. split.
    + rewrite Hg. now rewrite Hs.
    + rewrite Hg. now rewrite Hs.
  - intro Hne. split; [apply removeEvery_items|].
    pose proof (removeEvery_items fd) as Hitems.
    unfold removeEvery in *.
    destruct (exists_last (l := map SalesOrderItem.id (items fd)))
      as [ids [r E]].
    { intro E. apply map_eq_nil in E. contradiction. }
    rewrite E in *. rewrite fold_left_app in *. simpl in *.
    now apply handleRemoveItem_empty.
  - intro Hnil. unfold removeEvery. rewrite Hnil. reflexivity.
Qed.

Lemma C6_witness :
  items (removeEvery twoRowOrder) = [] /\
  subTotal (removeEvery twoRowOrder) == 0 /\
  gstAmount (removeEvery twoRowOrder) == 0 /\
  grandTotal (removeEvery twoRowOrder) == 0.
Proof.
  apply (proj1 (proj2 (C6_remove_recomputes_from_remaining_rows
                         twoRowOrder))).
  discriminate.
Defined.

(** *** Non-negative totals *)

Lemma recomputed_nonNegative (prev : SalesOrderFormData.t)
    (newItems : list SalesOrderItem.t) :
  0 <= gstRate prev ->
  Forall rowNonNegative newItems ->
  nonNegative
    (withTotals prev newItems (reduceTotals newItems)
       (gstOn (reduceTotals newItems) (gstPercentage prev))
       (reduceTotals newItems
        + gstOn (reduceTotals newItems) (gstPercentage prev))).
Proof.
  intros Hg Hrows.
  assert (Hs : 0 <= reduceTotals newItems).
  { rewrite reduceTotals_sum. now apply sumOfLineTotals_nonneg. }
  assert (Ht : 0 <= gstOn (reduceTotals newItems) (gstPercentage prev)).
  { rewrite gstOn_rate. now apply percent_nonneg. }
  unfold nonNegative, gstRate.
  cbn [withTotals items subTotal gstPercentage gstAmount grandTotal].
  repeat split; auto.
  replace 0 with (0 + 0) by reflexivity. now apply Qplus_le_compat.
Qed.

Lemma filter_Forall {A : Type} (P : A -> Prop) (f : A -> bool) (l : list A) :
  Forall P l -> Forall P (filter f l).
Proof.
  induction 1 as [|x l Hx _ IH]; simpl; [constructor|].
  destruct (f x); [constructor|]; auto.
Qed.

Lemma updateItem_nonNegative (products : list ProductFormData.t)
    (e : ItemEdit) (item : SalesOrderItem.t) :
  isNumber e = true ->
  rowNonNegative item ->
  rowNonNegative (updateItem products e item).
Proof.
  intros He [Hq [Hp Ht]].
  destruct e as [v|v|v|v|v]; simpl in He; try discriminate;
    unfold updateItem, rowNonNegative; simpl.
  - repeat split; auto using Math_max_0_nonneg.
    apply Qmult_le_0_compat; auto using Math_max_0_nonneg.
  - repeat split; auto using Math_max_0_nonneg.
    apply Qmult_le_0_compat; auto using Math_max_0_nonneg.
  - repeat split; auto using Math_max_0_nonneg.
Qed.

Lemma apply_nonNegative (products : list ProductFormData.t)
    (fd : SalesOrderFormData.t) (a : Action) :
  numericAction a = true ->
  nonNegative fd ->
  nonNegative (apply products fd a).
Proof.
  intros Ha [Hrows [Hs [Hg [Hga Hgt]]]].
  destruct a as [rowId|rowId|rowId e|val]; simpl in Ha; simpl.
  - unfold nonNegative, handleAddItem, gstRate.
    cbn [items subTotal gstPercentage gstAmount grandTotal].
    repeat split; auto.
    apply Forall_app. split; [exact Hrows|].
    constructor; [|constructor].
    unfold rowNonNegative. simpl. repeat split; discriminate.
  - apply recomputed_nonNegative; [exact Hg|].
    now apply filter_Forall.
  - apply recomputed_nonNegative; [exact Hg|].
    induction Hrows as [|item l Hitem _ IH]; simpl; constructor; auto.
    destruct (String.eqb _ rowId); [|exact Hitem].
    now apply updateItem_nonNegative.
  - pose proof (parsedOrZeroClamped_nonneg val) as Hv.
    unfold nonNegative, handleGstChange, gstRate.
    cbn [items subTotal gstPercentage gstAmount grandTotal].
    assert (Hp : 0 <= subTotal fd * parsedOrZeroClamped val / 100)
      by now apply percent_nonneg.
    repeat split; auto.
    + rewrite orZero_Some_eq. exact Hv.
    + replace 0 with (0 + 0) by reflexivity. now apply Qplus_le_compat.
Qed.

Lemma run_nonNegative (products : list ProductFormData.t)
    (acts : list Action) (start : SalesOrderFormData.t) :
  forallb numericAction acts = true ->
  nonNegative start ->
  nonNegative (run products start acts).
Proof.
  unfold run. revert start.
  induction acts as [|a acts IH]; intros start Ha Hstart; simpl.
  - exact Hstart.
  - simpl in Ha. apply andb_true_iff in Ha. destruct Ha as [Ha Hacts].
    apply IH; [exact Hacts|]. now apply apply_nonNegative.
Qed.

Lemma emptyForm_nonNegative (now : Z) (generated : string) :
  nonNegative (openForm now generated None).
Proof.
  unfold nonNegative, openForm, gstRate. simpl.
  repeat split; try discriminate. constructor.
Qed.

(** C7. Starting from the empty sales-order form, after any sequence of
    add-item, remove-item, numeric line-item edits and GST-rate changes
    (the handlers clamp the numbers they receive at 0), the produced
    subTotal, gstAmount and grandTotal are each non-negative. *)
Theorem C7_totals_from_empty_form_are_nonnegative
    (products : list ProductFormData.t) (now : Z) (generated : string)
    (acts : list Action) :
  forallb numericAction acts = true ->
  0 <= subTotal (run products (openForm now generated None) acts) /\
  0 <= gstAmount (run products (openForm now generated None) acts) /\
  0 <= grandTotal (run products (openForm now generated None) acts).
Proof.
  intro Ha.
  destruct (run_nonNegative products acts (openForm now generated None) Ha
              (emptyForm_nonNegative now generated))
    as [_ [Hs [_ [Hg Ht]]]].
  auto.
Qed.

Lemma C7_witness :
  0 <= subTotal (run catalog (openForm 0 "SO-00042" None)
                   [AddItem "r1"; ItemChange "r1" (ItemQuantity (-3));
                    ItemChange "r1" (ItemSellingPrice (-25 # 2));
                    GstChange (Some (-18)); AddItem "r2";
                    ItemChange "r2" (ItemSellingPrice 40);
                    GstChange (Some 5); RemoveItem "r1"]) /\
  0 <= gstAmount (run catalog (openForm 0 "SO-00042" None)
                   [AddItem "r1"; ItemChange "r1" (ItemQuantity (-3));
                    ItemChange "r1" (ItemSellingPrice (-25 # 2));
                    GstChange (Some (-18)); AddItem "r2";
                    ItemChange "r2" (ItemSellingPrice 40);
                    GstChange (Some 5); RemoveItem "r1"]) /\
  0 <= grandTotal (run catalog (openForm 0 "SO-00042" None)
                   [AddItem "r1"; ItemChange "r1" (ItemQuantity (-3));
                    ItemChange "r1" (ItemSellingPrice (-25 # 2));
                    GstChange (Some (-18)); AddItem "r2";
                    ItemChange "r2" (ItemSellingPrice 40);
                    GstChange (Some 5); RemoveItem "r1"]).
Proof.
  apply C7_totals_from_empty_form_are_nonnegative.
  reflexivity.
Defined.

(** *** The equations hold throughout a session started on the empty form *)

Lemma apply_consistent (products : list ProductFormData.t)
    (fd : SalesOrderFormData.t) (a : Action) :
  formAction a = true ->
  consistent fd ->
  consistent (apply products fd a).
Proof.
  intros Ha [Hrows [Hs [Hg Ht]]].
  destruct a as [rowId|rowId|rowId e|val]; simpl in Ha; simpl.
  - unfold consistent, rowsConsistent, subTotalConsistent, gstConsistent,
      grandTotalConsistent, gstRate, handleAddItem in *.
    cbn [items subTotal gstPercentage gstAmount grandTotal] in *.
    repeat split; auto.
    + apply Forall_app. split; [exact Hrows|].
      constructor; [|constructor]. unfold rowConsistent. reflexivity.
    + rewrite sumOfLineTotals_app. simpl. rewrite Hs.
      now rewrite !Qplus_0_r.
  - split; [|apply withTotals_recomputed].
    unfold rowsConsistent. rewrite handleRemoveItem_items.
    now apply filter_Forall.
  - split; [|apply withTotals_recomputed].
    now apply handleItemChange_rows.
  - destruct (handleGstChange_recomputed val fd) as [Hi [Hs' [_ [Hg' Ht']]]].
    split; [|split; [|split]].
    + unfold rowsConsistent. now rewrite Hi.
    + unfold subTotalConsistent. now rewrite Hi, Hs'.
    + exact Hg'.
    + exact Ht'.
Qed.

Lemma run_from_empty_consistent (products : list ProductFormData.t)
    (now : Z) (generated : string) (acts : list Action) :
  forallb formAction acts = true ->
  consistent (run products (openForm now generated None) acts).
Proof.
  unfold run.
  assert (H0 : consistent (openForm now generated None)).
  { unfold consistent, rowsConsistent, subTotalConsistent, gstConsistent,
      grandTotalConsistent. simpl. repeat split. constructor. }
  revert H0. generalize (openForm now generated None).
  induction acts as [|a acts IH]; intros start Hstart Ha; simpl.
  - exact Hstart.
  - simpl in Ha. apply andb_true_iff in Ha. destruct Ha as [Ha Hacts].
    apply IH; [|exact Hacts]. now apply apply_consistent.
Qed.

(** *** Selecting a product *)

Lemma findProduct_Some (products : list ProductFormData.t) (pid : string)
    (p : ProductFormData.t) :
  findProduct products pid = Some p ->
  In p products /\ ProductFormData.id p = Some pid.
Proof.
  unfold findProduct. intro H. apply find_some in H.
  destruct H as [Hin Heq]. split; [exact Hin|].
  unfold optEqb in Heq. destruct (ProductFormData.id p) as [s|];
    [|discriminate].
  apply String.eqb_eq in Heq. now subst.
Qed.





End SalesOrderProperties.

(** * Further properties *)

(** ** Lists updated by id *)

Module ListFacts.
Import JS.

Lemma optOptEqb_eq (a b : option string) :
  optOptEqb a b = true <-> a = b.
Proof.
  destruct a as [s|], b as [t|]; simpl; split; intro H;
    try reflexivity; try discriminate.
  - apply String.eqb_eq in H. now subst.
  - injection H as ->. apply String.eqb_refl.
Qed.

Lemma optOptEqb_neq (a b : option string) :
  optOptEqb a b = false <-> a <> b.
Proof.
  split; intro H.
  - intro E. apply optOptEqb_eq in E. congruence.
  - destruct (optOptEqb a b) eqn:E; [|reflexivity].
    apply optOptEqb_eq in E. contradiction.
Qed.

Lemma optEqb_eq (a : option string) (s : string) :
  optEqb a s = true <-> a = Some s.
Proof. apply (optOptEqb_eq a (Some s)). Qed.

Lemma optEqb_neq (a : option string) (s : string) :
  optEqb a s = false <-> a <> Some s.
Proof. apply (optOptEqb_neq a (Some s)). Qed.

Section Keyed.
Context {A : Type}.
Variable c : A -> bool.

Lemma replace_absent (d : A) (l : list A) :
  (forall x, In x l -> c x = false) ->
  map (fun x => if c x then d else x) l = l.
Proof.
  induction l as [|x l IH]; intro H; simpl; [reflexivity|].
  rewrite (H x) by now left. f_equal. apply IH.
  intros y Hy. apply H. now right.
Qed.

Lemma filter_absent (l : list A) :
  (forall x, In x l -> c x = false) ->
  filter (fun x => negb (c x)) l = l.
Proof.
  induction l as [|x l IH]; intro H; simpl; [reflexivity|].
  rewrite (H x) by now left. simpl. f_equal. apply IH.
  intros y Hy. apply H. now right.
Qed.

Lemma find_absent (l : list A) :
  (forall x, In x l -> c x = false) -> find c l = None.
Proof.
  induction l as [|x l IH]; intro H; simpl; [reflexivity|].
  rewrite (H x) by now left. apply IH.
  intros y Hy. apply H. now right.
Qed.

(** After the replacement, looking the key up again yields the new
    record, provided the new record carries the key. *)
Lemma find_replace (d : A) (l : list A) :
  c d = true ->
  find c (map (fun x => if c x then d else x) l)
  = match find c l with Some _ => Some d | None => None end.
Proof.
  intro Hd. induction l as [|x l IH]; simpl; [reflexivity|].
  destruct (c x) eqn:E.
  - now rewrite Hd.
  - rewrite E. exact IH.
Qed.

End Keyed.

End ListFacts.

(** ** The bill form and the bills page *)

Module BillExtras.
Import JS JSFacts.
Import BillFormModal BillSpec BillProperties PageSpec ListFacts.

Lemma paid_in_full_effects (fd : BillFormData) (n : number) :
  poSelected fd ->
  status fd = Paid ->
  amount fd <= totalPaid fd n ->
  Handler.effects (handleSubmit fd n) = [onSave (savedBill fd n Paid)].
Proof.
  intros Hpo Hst Hle.
  unfold handleSubmit, Handler.effects. rewrite Hpo, Hst.
  unfold Math_min. fold (totalPaid fd n).
  apply ltb_false in Hle. simpl. rewrite Hle. reflexivity.
Qed.

(** X1. Choosing the status "Paid" fills the pending payment with the
    remaining due, max(0, amount - paidAmount).  For a bill on which
    nothing has been paid, and for a bill whose paid amount already
    reaches the amount, submitting right afterwards (with a purchase order
    selected) is never rejected: the only effect is the call of [onSave]
    with a bill whose status is "Paid" and whose paid amount is the bill
    amount.  (For a partly paid bill the outcome depends on whether
    paidAmount + (amount - paidAmount) gives the amount back, which is a
    matter of the rounding of the two operations and is not stated
    here.) *)
Theorem X1_choosing_paid_then_submitting_settles_the_bill (st : FormState) :
  poSelected (formData st) ->
  paidAmount (formData st) == 0 \/
  amount (formData st) <= paidAmount (formData st) ->
  exists b,
    Handler.effects
      (handleSubmit (formData (handleStatusChange Paid st))
         (newPaymentAmount (handleStatusChange Paid st))) = [onSave b] /\
    status b = Paid /\
    amount b = amount (formData st) /\
    paidAmount b == amount (formData st).
Proof.
  intros Hpo Hpaid.
  set (st' := handleStatusChange Paid st).
  assert (Hdue : amount (formData st)
                 <= paidAmount (formData st)
                    + Qmax 0 (amount (formData st)
                              - paidAmount (formData st))).
  { destruct Hpaid as [H0|Hfull].
    - rewrite H0. rewrite Qplus_0_l.
      unfold Qminus. change (- 0) with 0. rewrite Qplus_0_r.
      apply Q.le_max_r.
    - apply Qle_trans with (paidAmount (formData st)); [exact Hfull|].
      rewrite <- (Qplus_0_r (paidAmount (formData st))) at 1.
      apply Qplus_le_r. apply Q.le_max_l. }
  assert (Hle : amount (formData st')
                <= totalPaid (formData st') (newPaymentAmount st')).
  { unfold totalPaid, st', handleStatusChange, Math_max. simpl.
    apply Q.min_glb; [apply Qle_refl|exact Hdue]. }
  exists (savedBill (formData st') (newPaymentAmount st') Paid).
  split; [|split; [reflexivity|split; [reflexivity|]]].
  - apply paid_in_full_effects; [exact Hpo|reflexivity|exact Hle].
  - simpl. fold (totalPaid (formData st') (newPaymentAmount st')).
    apply Qle_antisym; [apply Q.le_min_l|exact Hle].
Qed.

Lemma X1_witness :
  exists b,
    Handler.effects
      (handleSubmit
         (formData (handleStatusChange Paid
            (mkFormState (sampleBill "po-1" 100 0 Unpaid) 5)))
         (newPaymentAmount (handleStatusChange Paid
            (mkFormState (sampleBill "po-1" 100 0 Unpaid) 5))))
      = [onSave b] /\
    status b = Paid /\
    amount b = 100 /\
    paidAmount b == 100.
Proof.
  apply (X1_choosing_paid_then_submitting_settles_the_bill
           (mkFormState (sampleBill "po-1" 100 0 Unpaid) 5)).
  - reflexivity.
  - left. reflexivity.
Defined.

(** X2. The bill handed to [onSave] by an accepted submission never
    records more than the bill amount; if its status is "Paid" the paid
    amount is exactly the bill amount, and if its status is "Partially
    Paid" the paid amount is greater than 0 and less than the bill
    amount. *)
Theorem X2_saved_status_agrees_with_the_paid_amount
    (fd : BillFormData) (n : number) (b : BillFormData) :
  accepted fd n b ->
  paidAmount b <= amount b /\
  (status b = Paid -> paidAmount b == amount b) /\
  (status b = PartiallyPaid -> 0 < paidAmount b /\ paidAmount b < amount b).
Proof.
  intro H. apply accepted_inv in H.
  destruct H as [_ [s [-> Hs]]].
  destruct (savedBill_fields fd n s) as [Es [Ep Ea]].
  rewrite Es, Ep, Ea.
  assert (Hcap : totalPaid fd n <= amount fd) by apply Q.le_min_l.
  split; [exact Hcap|]. split.
  - intro HsP. apply Qle_antisym; [exact Hcap|].
    destruct Hs as [[_ [_ H]]|[[H _]|[_ [_ [_ H]]]]]; auto; congruence.
  - intro HsP.
    destruct Hs as [[_ [H _]]|[[_ [_ H]]|[H _]]]; auto; congruence.
Qed.

Lemma X2_witness :
  paidAmount (savedBill (sampleBill "po-1" 100 40 PartiallyPaid) 25
                PartiallyPaid)
  <= amount (savedBill (sampleBill "po-1" 100 40 PartiallyPaid) 25
               PartiallyPaid) /\
  (status (savedBill (sampleBill "po-1" 100 40 PartiallyPaid) 25
             PartiallyPaid) = Paid ->
   paidAmount (savedBill (sampleBill "po-1" 100 40 PartiallyPaid) 25
                 PartiallyPaid)
   == amount (savedBill (sampleBill "po-1" 100 40 PartiallyPaid) 25
                PartiallyPaid)) /\
  (status (savedBill (sampleBill "po-1" 100 40 PartiallyPaid) 25
             PartiallyPaid) = PartiallyPaid ->
   0 < paidAmount (savedBill (sampleBill "po-1" 100 40 PartiallyPaid) 25
                     PartiallyPaid) /\
   paidAmount (savedBill (sampleBill "po-1" 100 40 PartiallyPaid) 25
                 PartiallyPaid)
   < amount (savedBill (sampleBill "po-1" 100 40 PartiallyPaid) 25
               PartiallyPaid)).
Proof.
  apply (X2_saved_status_agrees_with_the_paid_amount
           (sampleBill "po-1" 100 40 PartiallyPaid) 25).
  reflexivity.
Defined.

(** X3. A submission of the bill form has one of two shapes: a single
    error toast and no call of [onSave], or exactly one call of [onSave],
    made last, and no error toast.  A rejected submission is never partly
    applied and an accepted one is never reported as an error. *)
Theorem X3_a_submission_is_rejected_or_saved_never_both
    (fd : BillFormData) (n : number) :
  (exists title description,
     Handler.effects (handleSubmit fd n) = [toast_error title description] /\
     saveCount (Handler.effects (handleSubmit fd n)) = 0%nat) \/
  (exists b,
     last (Handler.effects (handleSubmit fd n)) (onSave b) = onSave b /\
     saved (Handler.effects (handleSubmit fd n)) = Some b /\
     saveCount (Handler.effects (handleSubmit fd n)) = 1%nat /\
     noError (Handler.effects (handleSubmit fd n)) = true).
Proof.
  destruct (handleSubmit_outcome fd n).
  - left. eexists. eexists. split; reflexivity.
  - left. eexists. eexists. split; reflexivity.
  - right. eexists. repeat split; reflexivity.
  - right. eexists. repeat split; reflexivity.
  - left. eexists. eexists. split; reflexivity.
  - right. eexists. repeat split; reflexivity.
  - right. eexists. repeat split; reflexivity.
Qed.

(** X4. Whatever bill the form is opened on and whatever events it
    receives, the pending payment ("Pay Now") is never negative. *)
Theorem X4_pending_payment_is_never_negative
    (bill : option BillFormData) (purchaseOrders : list PurchaseOrder)
    (suppliers : list Supplier) (now : Z) (generated : string)
    (evs : list Event) :
  0 <= newPaymentAmount (run bill purchaseOrders suppliers now generated evs).
Proof.
  unfold run.
  assert (H0 : 0 <= newPaymentAmount (openForm now generated bill)).
  { unfold openForm. destruct bill; simpl; apply Qle_refl. }
  revert H0. generalize (openForm now generated bill).
  induction evs as [|ev evs IH]; intros st Hst; simpl; [exact Hst|].
  apply IH. destruct ev as [poId|s|val|d|d|g]; simpl.
  - destruct (editingExisting bill); [exact Hst|].
    destruct (offered purchaseOrders poId); [|exact Hst].
    unfold handlePurchaseOrderChange.
    destruct (find _ purchaseOrders); exact Hst.
  - destruct (truthyString _); [|exact Hst].
    unfold handleStatusChange. destruct s; simpl.
    + apply Qle_refl.
    + exact Hst.
    + apply Math_max_0_nonneg.
  - destruct (BillStatus_eqb _ _); [|exact Hst].
    simpl. apply parsedOrZeroClamped_nonneg.
  - exact Hst.
  - exact Hst.
  - exact Hst.
Qed.

(** X5. Selecting a purchase order whose id no order of the list carries
    leaves the form as it was.  Otherwise the form takes the id and the
    reference of the first order with that id, its grand total as the bill
    amount (0 when the order has none), and the paid amount is reset to 0;
    the status, the pending payment, the bill number and the dates are
    kept. *)
Theorem X5_selecting_a_purchase_order
    (purchaseOrders : list PurchaseOrder) (suppliers : list Supplier)
    (poId : string) (st : FormState) :
  ((forall po, In po purchaseOrders -> po_id po <> poId) ->
   handlePurchaseOrderChange purchaseOrders suppliers poId st = st) /\
  ((exists po, In po purchaseOrders /\ po_id po = poId) ->
   exists po,
     find (fun p => String.eqb (po_id p) poId) purchaseOrders = Some po /\
     In po purchaseOrders /\
     let st' := handlePurchaseOrderChange purchaseOrders suppliers poId st in
     purchaseOrderId (formData st') = poId /\
     poReference (formData st') = po_referenceNo po /\
     amount (formData st') = orZero (po_grandTotal po) /\
     paidAmount (formData st') = 0 /\
     status (formData st') = status (formData st) /\
     newPaymentAmount st' = newPaymentAmount st /\
     id (formData st') = id (formData st) /\
     billNo (formData st') = billNo (formData st) /\
     date (formData st') = date (formData st) /\
     dueDate (formData st') = dueDate (formData st)).
Proof.
  unfold handlePurchaseOrderChange. split.
  - intro H. rewrite find_absent; [reflexivity|].
    intros po Hin. apply String.eqb_neq. now apply H.
  - intros [po0 [Hin0 Hid0]].
    destruct (find (fun p => String.eqb (po_id p) poId) purchaseOrders)
      as [po|] eqn:E.
    + exists po. apply find_some in E as E'. destruct E' as [Hin Hid].
      apply String.eqb_eq in Hid.
      split; [reflexivity|]. split; [exact Hin|].
      simpl. repeat split; auto.
    + exfalso. pose proof (find_none _ _ E po0 Hin0) as Hn. simpl in Hn.
      rewrite Hid0, String.eqb_refl in Hn. discriminate.
Qed.

Lemma X5_witness :
  handlePurchaseOrderChange samplePurchaseOrders sampleSuppliers "po-404"
    (mkFormState (sampleBill "po-init-1" 1425 500 PartiallyPaid) 25)
  = mkFormState (sampleBill "po-init-1" 1425 500 PartiallyPaid) 25 /\
  amount (formData
    (handlePurchaseOrderChange samplePurchaseOrders sampleSuppliers
       "po-init-3"
       (mkFormState (sampleBill "po-init-1" 1425 500 PartiallyPaid) 25)))
  = 0.
Proof.
  split.
  - apply (proj1 (X5_selecting_a_purchase_order samplePurchaseOrders
                    sampleSuppliers "po-404"
                    (mkFormState
                       (sampleBill "po-init-1" 1425 500 PartiallyPaid) 25))).
    intros po [<-|[<-|[]]]; discriminate.
  - destruct (proj2 (X5_selecting_a_purchase_order samplePurchaseOrders
                       sampleSuppliers "po-init-3"
                       (mkFormState
                          (sampleBill "po-init-1" 1425 500 PartiallyPaid) 25)))
      as [po [Hfind [_ [_ [_ [Hamount _]]]]]].
    + exists (mkPurchaseOrder "po-init-3" "PO-00102" "SUP-0009" None true).
      split; [right; left; reflexivity|reflexivity].
    + vm_compute in Hfind. injection Hfind as <-. exact Hamount.
Defined.

End BillExtras.

(** ** The bills page *)

Module BillsPageExtras.
Import JS JSFacts ListFacts.
Import BillFormModal BillSpec BillProperties PageSpec.

(** X6. Saving a bill that carries an id keeps the number of bills and
    their order: every bill with that id becomes the saved bill and every
    other bill is left as it was.  When no bill has that id the collection
    is unchanged, and the page still reports "Bill updated
    successfully". *)
Theorem X6_saving_an_existing_bill_replaces_the_bills_with_its_id
    (freshId : string) (data : BillFormData) (st : Bills.PageState) :
  truthyId (id data) = true ->
  List.length (Bills.bills (fst (Bills.handleSaveBill freshId data st)))
    = List.length (Bills.bills st) /\
  (forall i b,
     nth_error (Bills.bills st) i = Some b ->
     (id b = id data ->
      nth_error (Bills.bills (fst (Bills.handleSaveBill freshId data st))) i
        = Some data) /\
     (id b <> id data ->
      nth_error (Bills.bills (fst (Bills.handleSaveBill freshId data st))) i
        = Some b)) /\
  ((forall b, In b (Bills.bills st) -> id b <> id data) ->
   Bills.bills (fst (Bills.handleSaveBill freshId data st)) = Bills.bills st) /\
  snd (Bills.handleSaveBill freshId data st) = "Bill updated successfully" /\
  Bills.isModalOpen (fst (Bills.handleSaveBill freshId data st)) = false.
Proof.
  intro Hid. unfold Bills.handleSaveBill. rewrite Hid. simpl.
  split; [apply length_map|]. split; [|split; [|split; reflexivity]].
  - intros i b Hb. rewrite nth_error_map, Hb. simpl. split; intro H.
    + apply optOptEqb_eq in H. now rewrite H.
    + apply optOptEqb_neq in H. now rewrite H.
  - intro H. apply replace_absent.
    intros b Hin. apply optOptEqb_neq. now apply H.
Qed.

Lemma X6_witness :
  nth_error
    (Bills.bills
       (fst (Bills.handleSaveBill "bill-1700000000000"
               (Bills.set_id (Some "bill-2")
                  (sampleBill "po-init-2" (45075 # 100) 200 PartiallyPaid))
               ledger))) 0
  = Some (Bills.set_id (Some "bill-1")
            (sampleBill "po-init-1" 1425 1425 Paid)) /\
  nth_error
    (Bills.bills
       (fst (Bills.handleSaveBill "bill-1700000000000"
               (Bills.set_id (Some "bill-2")
                  (sampleBill "po-init-2" (45075 # 100) 200 PartiallyPaid))
               ledger))) 1
  = Some (Bills.set_id (Some "bill-2")
            (sampleBill "po-init-2" (45075 # 100) 200 PartiallyPaid)) /\
  List.length
    (Bills.bills
       (fst (Bills.handleSaveBill "bill-1700000000000"
               (Bills.set_id (Some "bill-2")
                  (sampleBill "po-init-2" (45075 # 100) 200 PartiallyPaid))
               ledger))) = 2%nat.
Proof.
  destruct (X6_saving_an_existing_bill_replaces_the_bills_with_its_id
              "bill-1700000000000"
              (Bills.set_id (Some "bill-2")
                 (sampleBill "po-init-2" (45075 # 100) 200 PartiallyPaid))
              ledger eq_refl)
    as [L [H _]].
  split; [|split].
  - apply (proj2 (H 0%nat
                    (Bills.set_id (Some "bill-1")
                       (sampleBill "po-init-1" 1425 1425 Paid)) eq_refl)).
    discriminate.
  - apply (proj1 (H 1%nat
                    (Bills.set_id (Some "bill-2")
                       (sampleBill "po-init-2" (45075 # 100) 0 Unpaid))
                    eq_refl)).
    reflexivity.
  - exact L.
Defined.

(** X7. Recording a new bill (one without id) and then deleting the bill
    with the id it was given brings the collection back to what it was,
    provided no earlier bill carried that id. *)
Theorem X7_recording_then_deleting_a_bill_restores_the_collection
    (freshId : string) (data : BillFormData) (st : Bills.PageState) :
  truthyId (id data) = false ->
  (forall b, In b (Bills.bills st) -> id b <> Some freshId) ->
  Bills.bills
    (Bills.handleDeleteBill freshId (fst (Bills.handleSaveBill freshId data st)))
  = Bills.bills st.
Proof.
  intros Hid Hfresh. unfold Bills.handleSaveBill. rewrite Hid.
  unfold Bills.handleDeleteBill. simpl.
  rewrite String.eqb_refl. simpl.
  apply (filter_absent (fun b => optEqb (id b) freshId)).
  intros b Hin. apply optEqb_neq. now apply Hfresh.
Qed.

Lemma X7_witness :
  Bills.bills
    (Bills.handleDeleteBill "bill-1700000000000"
       (fst (Bills.handleSaveBill "bill-1700000000000"
               (Bills.set_id None (sampleBill "po-1" 100 0 Unpaid))
               samplePage)))
  = Bills.bills samplePage.
Proof.
  apply X7_recording_then_deleting_a_bill_restores_the_collection.
  - reflexivity.
  - intros b [<-|[<-|[]]]; discriminate.
Defined.

(** X8. After a bill id is deleted no bill carries it, every bill with
    another id (or none) is still there, in the same order, and deleting
    an id that no bill carries changes nothing. *)
Theorem X8_deleting_a_bill_removes_exactly_the_bills_with_its_id
    (i : string) (st : Bills.PageState) :
  (forall b, In b (Bills.bills (Bills.handleDeleteBill i st)) ->
     In b (Bills.bills st) /\ id b <> Some i) /\
  (forall b, In b (Bills.bills st) -> id b <> Some i ->
     In b (Bills.bills (Bills.handleDeleteBill i st))) /\
  Bills.bills (Bills.handleDeleteBill i st)
    = filter (fun b => negb (optEqb (id b) i)) (Bills.bills st) /\
  ((forall b, In b (Bills.bills st) -> id b <> Some i) ->
   Bills.bills (Bills.handleDeleteBill i st) = Bills.bills st) /\
  Bills.handleDeleteBill i (Bills.handleDeleteBill i st)
    = Bills.handleDeleteBill i st.
Proof.
  unfold Bills.handleDeleteBill. simpl.
  split; [|split; [|split; [reflexivity|split]]].
  - intros b Hin. apply filter_In in Hin. destruct Hin as [Hin Hb].
    split; [exact Hin|]. apply optEqb_neq. now apply negb_true_iff.
  - intros b Hin Hb. apply filter_In. split; [exact Hin|].
    apply negb_true_iff. now apply optEqb_neq.
  - intro H. apply (filter_absent (fun b => optEqb (id b) i)).
    intros b Hin. apply optEqb_neq. now apply H.
  - f_equal.
    apply (filter_absent (fun b => optEqb (id b) i)).
    intros b Hin. apply filter_In in Hin. destruct Hin as [_ Hb].
    now apply negb_true_iff.
Qed.

(** X9. When the bill form accepts a submission, the page ends in the
    state [handleSaveBill] produces for the bill the form computed: the
    toasts of the form do not touch the page and [onSave] reaches it
    once. *)
Theorem X9_an_accepted_submission_reaches_the_page_once
    (freshId : string) (page : Bills.PageState) (fd : BillFormData)
    (n : number) (b : BillFormData) :
  accepted fd n b ->
  Bills.formSubmitted freshId page fd n
    = fst (Bills.handleSaveBill freshId b page) /\
  paidAmount b = Qmin (amount fd) (paidAmount fd + n) /\
  id b = id fd.
Proof.
  unfold accepted, Bills.formSubmitted. intro H.
  destruct (handleSubmit_outcome fd n); simpl in H; try discriminate;
    injection H as <-; simpl; repeat split.
Qed.

Lemma X9_witness :
  Bills.formSubmitted "bill-1700000000000" samplePage
    (sampleBill "po-init-2" (45075 # 100) 0 PartiallyPaid) 100
  = fst (Bills.handleSaveBill "bill-1700000000000"
           (savedBill (sampleBill "po-init-2" (45075 # 100) 0 PartiallyPaid)
              100 PartiallyPaid)
           samplePage).
Proof.
  apply (X9_an_accepted_submission_reaches_the_page_once
           "bill-1700000000000" samplePage
           (sampleBill "po-init-2" (45075 # 100) 0 PartiallyPaid) 100).
  reflexivity.
Defined.

End BillsPageExtras.

(** ** The product form and the products page *)

Module ProductExtras.
Import JS JSFacts ListFacts.
Import ProductFormData ProductFormModal ProductSpec.

Lemma handleChange_stock_nonneg (e : FieldEdit) (fd : ProductFormData.t) :
  0 <= stock fd -> 0 <= minStock fd ->
  0 <= stock (handleChange e fd) /\ 0 <= minStock (handleChange e fd).
Proof.
  intros Hs Hm. destruct e; simpl; split; auto using Math_max_0_nonneg.
Qed.

Lemma edit_stock_nonneg (es : list FieldEdit) (start : ProductFormData.t) :
  0 <= stock start -> 0 <= minStock start ->
  0 <= stock (edit start es) /\ 0 <= minStock (edit start es).
Proof.
  unfold edit. revert start.
  induction es as [|e es IH]; intros start Hs Hm; simpl; [now split|].
  destruct (handleChange_stock_nonneg e start Hs Hm) as [Hs' Hm'].
  now apply IH.
Qed.

(** The status of a saved product whose stock and minimum stock are not
    negative. *)
Lemma status_of_nonneg (fd : ProductFormData.t) :
  0 <= stock fd -> 0 <= minStock fd ->
  (status (handleSubmit fd) = "Active" <->
   isActive fd = true /\ minStock fd < stock fd) /\
  (status (handleSubmit fd) = "Low Stock" <->
   isActive fd = true /\ 0 < stock fd /\ stock fd <= minStock fd) /\
  (status (handleSubmit fd) = "Out of Stock" <->
   isActive fd = true /\ stock fd == 0) /\
  (status (handleSubmit fd) = "Inactive" <-> isActive fd = false).
Proof.
  intros Hs Hm. unfold handleSubmit. simpl.
  destruct (isActive fd); simpl.
  - destruct (eqb (stock fd) 0) eqn:E0.
    + apply eqb_true in E0.
      repeat split; try discriminate; try (intros [H _]; discriminate H);
        try (intro H; discriminate H); auto.
      * intros [_ H]. rewrite E0 in H. exfalso.
        exact (Qlt_not_le _ _ H Hm).
      * intros [_ [H _]]. rewrite E0 in H. exfalso.
        exact (Qlt_irrefl _ H).
    + apply eqb_false in E0.
      assert (Hpos : 0 < stock fd).
      { apply Qle_lteq in Hs. destruct Hs as [Hs|Hs]; [exact Hs|].
        exfalso. apply E0. now symmetry. }
      destruct (leb (stock fd) (minStock fd)) eqn:E1.
      * apply leb_true in E1.
        repeat split; try discriminate; try (intro H; discriminate H);
          auto.
        -- intros [_ H]. exfalso. exact (Qlt_not_le _ _ H E1).
        -- intros [_ H]. contradiction.
      * apply leb_false in E1.
        repeat split; try discriminate; try (intro H; discriminate H);
          auto.
        -- intros [_ [_ H]]. exfalso. exact (Qlt_not_le _ _ E1 H).
        -- intros [_ H]. contradiction.
  - repeat split; try discriminate; try (intros [H _]; discriminate H);
      try (intro H; discriminate H); auto.
Qed.

(** X10. A product entered through the form (from the blank form or from
    any product whose stock and minimum stock are not negative, with any
    sequence of field edits) is saved with non-negative stock and minimum
    stock, and its status is "Active" exactly when it is marked active and
    stock > minStock, "Low Stock" exactly when it is marked active and
    0 < stock <= minStock, "Out of Stock" exactly when it is marked active
    and stock = 0, and "Inactive" exactly when it is not marked active. *)
Theorem X10_status_of_a_product_entered_through_the_form
    (start : ProductFormData.t) (es : list FieldEdit) :
  0 <= stock start -> 0 <= minStock start ->
  0 <= stock (handleSubmit (edit start es)) /\
  0 <= minStock (handleSubmit (edit start es)) /\
  (status (handleSubmit (edit start es)) = "Active" <->
   isActive (edit start es) = true /\
   minStock (edit start es) < stock (edit start es)) /\
  (status (handleSubmit (edit start es)) = "Low Stock" <->
   isActive (edit start es) = true /\
   0 < stock (edit start es) /\
   stock (edit start es) <= minStock (edit start es)) /\
  (status (handleSubmit (edit start es)) = "Out of Stock" <->
   isActive (edit start es) = true /\ stock (edit start es) == 0) /\
  (status (handleSubmit (edit start es)) = "Inactive" <->
   isActive (edit start es) = false).
Proof.
  intros Hs Hm.
  destruct (edit_stock_nonneg es start Hs Hm) as [Hs' Hm'].
  split; [exact Hs'|]. split; [exact Hm'|].
  now apply status_of_nonneg.
Qed.

Lemma X10_witness :
  status (handleSubmit
            (edit (openForm None)
               [EditName "Desk Lamp"; EditStock (-4); EditMinStock (-2)]))
  = "Out of Stock".
Proof.
  destruct (X10_status_of_a_product_entered_through_the_form
              (openForm None)
              [EditName "Desk Lamp"; EditStock (-4); EditMinStock (-2)])
    as [_ [_ [_ [_ [H _]]]]].
  - discriminate.
  - discriminate.
  - apply H. split; reflexivity.
Defined.

(** X11. Saving is stable: opening the form on a product the form saved
    and submitting it unchanged saves the same product again. *)
Theorem X11_resubmitting_a_saved_product_changes_nothing
    (fd : ProductFormData.t) :
  handleSubmit (openForm (Some (handleSubmit fd))) = handleSubmit fd.
Proof.
  destruct fd as [i n c s cp sp st im u m stat a].
  unfold handleSubmit, openForm.
  cbn [isActive stock minStock status set_status set_isActive name category
       sku costPrice sellingPrice image unitType ProductFormData.id].
  destruct a; cbn [andb].
  - destruct (eqb st 0).
    + simpl (String.eqb _ _). reflexivity.
    + destruct (leb st m); simpl (String.eqb _ _); reflexivity.
  - simpl (String.eqb _ _). reflexivity.
Qed.

(** X12. The form takes the position of its "active" switch from the
    stored status, not from the stored flag: a product opened and
    submitted unchanged is saved "Inactive" exactly when its stored
    status was "Inactive". *)
Theorem X12_the_switch_follows_the_stored_status (p : ProductFormData.t) :
  (isActive (openForm (Some p)) = false <-> status p = "Inactive") /\
  (status (handleSubmit (openForm (Some p))) = "Inactive" <->
   status p = "Inactive").
Proof.
  assert (A : isActive (openForm (Some p)) = false <-> status p = "Inactive").
  { unfold openForm. simpl. rewrite negb_false_iff. apply String.eqb_eq. }
  split; [exact A|].
  rewrite <- A. unfold handleSubmit. simpl.
  destruct (negb (status p =? "Inactive")%string); simpl.
  - destruct (eqb (stock p) 0); [split; discriminate|].
    destruct (leb (stock p) (minStock p)); split; discriminate.
  - split; reflexivity.
Qed.

(** X13. In the products table the colour of the stock cell of an active
    saved product agrees with its status: red exactly for "Out of Stock",
    amber exactly for "Low Stock" and no highlight exactly for
    "Active". *)
Theorem X13_stock_highlight_agrees_with_the_saved_status
    (fd : ProductFormData.t) :
  isActive fd = true ->
  (Products.stockClass (handleSubmit fd) = "text-destructive font-bold" <->
   status (handleSubmit fd) = "Out of Stock") /\
  (Products.stockClass (handleSubmit fd) = "text-amber-500 font-bold" <->
   status (handleSubmit fd) = "Low Stock") /\
  (Products.stockClass (handleSubmit fd) = "" <->
   status (handleSubmit fd) = "Active").
Proof.
  intro Ha. unfold Products.stockClass, handleSubmit. simpl. rewrite Ha.
  simpl. destruct (eqb (stock fd) 0).
  - repeat split; intro H; try reflexivity; discriminate H.
  - destruct (leb (stock fd) (minStock fd));
      repeat split; intro H; try reflexivity; discriminate H.
Qed.

Lemma X13_witness :
  Products.stockClass (handleSubmit (sampleProduct true 4 10))
    = "text-amber-500 font-bold" <->
  status (handleSubmit (sampleProduct true 4 10)) = "Low Stock".
Proof.
  apply (proj1 (proj2 (X13_stock_highlight_agrees_with_the_saved_status
                         (sampleProduct true 4 10) eq_refl))).
Defined.

(** X14. Deleting a product removes exactly the products with that id.
    The toast names the first product that had the id; when no product has
    it, or that product's name is empty, the toast says "Item has been
    removed." and, in the first case, the list is unchanged. *)
Theorem X14_deleting_a_product
    (i : string) (products : list ProductFormData.t) :
  fst (Products.handleDeleteProduct i products)
    = filter (fun p => negb (optEqb (id p) i)) products /\
  (forall p,
     find (fun p => optEqb (id p) i) products = Some p ->
     name p <> "" ->
     Toast.description (snd (Products.handleDeleteProduct i products))
       = Some (name p ++ " has been removed.")%string) /\
  (forall p,
     find (fun p => optEqb (id p) i) products = Some p ->
     name p = "" ->
     Toast.description (snd (Products.handleDeleteProduct i products))
       = Some "Item has been removed.") /\
  ((forall p, In p products -> id p <> Some i) ->
   fst (Products.handleDeleteProduct i products) = products /\
   Toast.description (snd (Products.handleDeleteProduct i products))
     = Some "Item has been removed.").
Proof.
  unfold Products.handleDeleteProduct. simpl.
  split; [reflexivity|]. split; [|split].
  - intros p Hp Hn. rewrite Hp. simpl.
    destruct (name p); [contradiction|reflexivity].
  - intros p Hp Hn. rewrite Hp. simpl. rewrite Hn. reflexivity.
  - intro H.
    assert (Hc : forall p, In p products -> optEqb (id p) i = false).
    { intros p Hin. apply optEqb_neq. now apply H. }
    split.
    + now apply (filter_absent (fun p => optEqb (id p) i)).
    + rewrite (find_absent (fun p => optEqb (id p) i)) by exact Hc.
      reflexivity.
Qed.

Lemma X14_witness :
  fst (Products.handleDeleteProduct "P-404" [sampleProduct true 4 10])
    = [sampleProduct true 4 10] /\
  Toast.description
    (snd (Products.handleDeleteProduct "P-404" [sampleProduct true 4 10]))
    = Some "Item has been removed.".
Proof.
  apply (proj2 (proj2 (proj2
           (X14_deleting_a_product "P-404" [sampleProduct true 4 10])))).
  intros p [<-|[]]. discriminate.
Defined.

End ProductExtras.

(** ** The supplier form and the suppliers page *)

Module SupplierExtras.
Import JS JSFacts ListFacts.
Import SupplierFormData SupplierFormModal SupplierSpec.

Lemma candidateId_truthy (n : nat) : truthyString (candidateId n) = true.
Proof. reflexivity. Qed.

Lemma generateUniqueId_sound (existing : list SupplierFormData.t)
    (draws : list nat) (i : string) :
  generateUniqueId existing draws = Some i ->
  (forall s, In s existing -> id s <> Some i) /\
  exists taken n rest,
    draws = (taken ++ n :: rest)%list /\ i = candidateId n /\
    forall m, In m taken ->
      exists s, In s existing /\ id s = Some (candidateId m).
Proof.
  induction draws as [|n draws IH]; simpl; [discriminate|].
  destruct (find (fun s => optEqb (id s) (candidateId n)) existing)
    as [s|] eqn:E.
  - intro H. destruct (IH H) as [Hfresh [taken [k [rest [-> [-> Ht]]]]]].
    split; [exact Hfresh|].
    exists (n :: taken), k, rest. split; [reflexivity|]. split; [reflexivity|].
    intros m [<-|Hm]; [|now apply Ht].
    apply find_some in E. destruct E as [Hin Hid].
    exists s. split; [exact Hin|]. now apply optEqb_eq.
  - intro H. injection H as <-. split.
    + intros s Hin. apply optEqb_neq.
      exact (find_none _ _ E s Hin).
    + exists [], n, draws. split; [reflexivity|]. split; [reflexivity|].
      intros m [].
Qed.

Lemma generateUniqueId_complete (existing : list SupplierFormData.t)
    (draws : list nat) :
  (exists n, In n draws /\
     forall s, In s existing -> id s <> Some (candidateId n)) ->
  exists i, generateUniqueId existing draws = Some i.
Proof.
  induction draws as [|n draws IH]; intros [k [Hin Hfree]]; [destruct Hin|].
  simpl.
  destruct (find (fun s => optEqb (id s) (candidateId n)) existing)
    as [s|] eqn:E; [|now eexists].
  destruct Hin as [<-|Hin].
  - exfalso. apply find_some in E. destruct E as [Hs Hid].
    apply optEqb_eq in Hid. exact (Hfree s Hs Hid).
  - apply IH. now exists k.
Qed.

(** X15. [generateUniqueId] returns the candidate of the first draw whose
    candidate no existing supplier carries: the id it returns is carried by
    no existing supplier, the candidates of all earlier draws were taken,
    and it does return once some draw gives a free candidate. *)
Theorem X15_generated_supplier_id_is_unused
    (existing : list SupplierFormData.t) (draws : list nat) :
  (forall i,
     generateUniqueId existing draws = Some i ->
     (forall s, In s existing -> id s <> Some i) /\
     exists taken n rest,
       draws = (taken ++ n :: rest)%list /\ i = candidateId n /\
       forall m, In m taken ->
         exists s, In s existing /\ id s = Some (candidateId m)) /\
  ((exists n, In n draws /\
      forall s, In s existing -> id s <> Some (candidateId n)) ->
   exists i, generateUniqueId existing draws = Some i).
Proof.
  split.
  - intros i H. now apply generateUniqueId_sound.
  - apply generateUniqueId_complete.
Qed.

Lemma X15_witness :
  generateUniqueId registered [42; 7; 1234; 42]%nat = Some "SUP-1234" /\
  (forall s, In s registered -> id s <> Some "SUP-1234").
Proof.
  destruct (proj2 (X15_generated_supplier_id_is_unused registered
                     [42; 7; 1234; 42]%nat)) as [i Hi].
  - exists 1234%nat. split; [right; right; left; reflexivity|].
    intros s [<-|[<-|[]]]; discriminate.
  - pose proof (proj1 (proj1 (X15_generated_supplier_id_is_unused registered
                   [42; 7; 1234; 42]%nat) i Hi)) as Hfresh.
    vm_compute in Hi. injection Hi as <-. split; [reflexivity|exact Hfresh].
Defined.

(** The id of the form of a new supplier is always a generated one. *)
Lemma new_supplier_form_id (suppliers : list SupplierFormData.t)
    (draws : list nat) (evs : list Event) (fd : SupplierFormData.t) :
  run None suppliers draws evs = Some fd ->
  exists i, id fd = Some i /\ truthyString i = true /\
    forall s, In s suppliers -> id s <> Some i.
Proof.
  unfold run.
  set (Inv := fun st : option SupplierFormData.t =>
         forall fd, st = Some fd ->
           exists i, id fd = Some i /\ truthyString i = true /\
             forall s, In s suppliers -> id s <> Some i).
  assert (Hgen : forall ds (f : string -> SupplierFormData.t),
             (forall i, id (f i) = Some i) ->
             Inv (option_map f (generateUniqueId suppliers ds))).
  { intros ds f Hf fd0 H.
    destruct (generateUniqueId suppliers ds) as [i|] eqn:E; [|discriminate].
    simpl in H. injection H as <-.
    destruct (generateUniqueId_sound suppliers ds i E)
      as [Hfresh [taken [n [rest [_ [-> _]]]]]].
    exists (candidateId n). rewrite Hf. repeat split; auto. }
  assert (H0 : Inv (openForm None suppliers draws)).
  { unfold openForm. apply Hgen. reflexivity. }
  assert (Hstep : forall st ev, Inv st -> Inv (step None suppliers st ev)).
  { intros st ev Hst. destruct st as [fd0|]; [|intros fd' E; discriminate E].
    destruct (Hst fd0 eq_refl) as [i [Hi [Ht Hfresh]]].
    destruct ev as [e|ds]; simpl.
    - intros fd' E. injection E as <-. exists i. destruct e; simpl; auto.
    - apply Hgen. reflexivity. }
  revert H0. generalize (openForm None suppliers draws).
  revert fd. induction evs as [|ev evs IH]; intros fd st Hst H; simpl in H.
  - now apply Hst.
  - apply (IH fd (step None suppliers st ev)); [|exact H].
    now apply Hstep.
Qed.

(** X16. A supplier entered in the form opened for a new supplier is not
    added to the list.  The form gives the new supplier an id no listed
    supplier carries; the page, seeing an id, takes the save for an update,
    replaces the suppliers with that id (there are none) and reports
    "Supplier updated successfully".  The list is left exactly as it
    was. *)
Theorem X16_a_new_supplier_is_not_added
    (suppliers : list SupplierFormData.t) (draws : list nat)
    (evs : list Event) (res : list SupplierFormData.t * Toast.t) :
  Suppliers.addSupplier suppliers draws evs = Some res ->
  fst res = suppliers /\
  Toast.title (snd res) = "Supplier updated successfully".
Proof.
  unfold Suppliers.addSupplier. intro H.
  destruct (run None suppliers draws evs) as [fd|] eqn:E; [|discriminate].
  simpl in H. injection H as <-.
  destruct (new_supplier_form_id suppliers draws evs fd E)
    as [i [Hi [Ht Hfresh]]].
  unfold Suppliers.handleSaveSupplier, handleSubmit.
  rewrite Hi. simpl. rewrite Ht. simpl. split; [|reflexivity].
  apply (replace_absent (fun s => optOptEqb (id s) (Some i))).
  intros s Hin. apply optOptEqb_neq. now apply Hfresh.
Qed.

Lemma X16_witness :
  fst (Suppliers.handleSaveSupplier
         (mk (Some "SUP-1234") "Acme Supplies Inc." "" "" "" "" "" "Active")
         registered) = registered /\
  Toast.title
    (snd (Suppliers.handleSaveSupplier
            (mk (Some "SUP-1234") "Acme Supplies Inc." "" "" "" "" ""
               "Active")
            registered)) = "Supplier updated successfully".
Proof.
  apply (X16_a_new_supplier_is_not_added registered [42; 1234]%nat
           [Change (EditShopName "Acme Supplies Inc.")]).
  reflexivity.
Defined.

End SupplierExtras.

(** ** The sales-order form *)

Module SalesOrderExtras.
Import JS JSFacts ListFacts.
Import SalesOrderFormData SalesOrderFormModal SalesOrderSpec
  SalesOrderProperties.

Lemma generateUniqueRef_sound (existing : list SalesOrderFormData.t)
    (draws : list nat) (r : string) :
  generateUniqueRef existing draws = Some r ->
  (forall o, In o existing -> referenceNo o <> r) /\
  exists taken n rest,
    draws = (taken ++ n :: rest)%list /\ r = candidateRef n /\
    forall m, In m taken ->
      exists o, In o existing /\ referenceNo o = candidateRef m.
Proof.
  induction draws as [|n draws IH]; simpl; [discriminate|].
  destruct (find (fun o => String.eqb (referenceNo o) (candidateRef n))
              existing) as [o|] eqn:E.
  - intro H. destruct (IH H) as [Hfresh [taken [k [rest [-> [-> Ht]]]]]].
    split; [exact Hfresh|].
    exists (n :: taken), k, rest. split; [reflexivity|]. split; [reflexivity|].
    intros m [<-|Hm]; [|now apply Ht].
    apply find_some in E. destruct E as [Hin Hid].
    exists o. split; [exact Hin|]. now apply String.eqb_eq.
  - intro H. injection H as <-. split.
    + intros o Hin. apply String.eqb_neq.
      exact (find_none _ _ E o Hin).
    + exists [], n, draws. split; [reflexivity|]. split; [reflexivity|].
      intros m [].
Qed.

(** X17. [generateUniqueRef] returns the candidate of the first draw whose
    candidate is not the reference of an existing order: the reference it
    returns is used by no existing order, the candidates of all earlier
    draws were taken, and it does return once some draw gives a free
    candidate. *)
Theorem X17_generated_reference_is_unused
    (existing : list SalesOrderFormData.t) (draws : list nat) :
  (forall r,
     generateUniqueRef existing draws = Some r ->
     (forall o, In o existing -> referenceNo o <> r) /\
     exists taken n rest,
       draws = (taken ++ n :: rest)%list /\ r = candidateRef n /\
       forall m, In m taken ->
         exists o, In o existing /\ referenceNo o = candidateRef m) /\
  ((exists n, In n draws /\
      forall o, In o existing -> referenceNo o <> candidateRef n) ->
   exists r, generateUniqueRef existing draws = Some r).
Proof.
  split.
  - intros r H. now apply generateUniqueRef_sound.
  - induction draws as [|n draws IH]; intros [k [Hin Hfree]];
      [destruct Hin|].
    simpl.
    destruct (find (fun o => String.eqb (referenceNo o) (candidateRef n))
                existing) as [o|] eqn:E; [|now eexists].
    destruct Hin as [<-|Hin].
    + exfalso. apply find_some in E. destruct E as [Ho Hid].
      apply String.eqb_eq in Hid. exact (Hfree o Ho Hid).
    + apply IH. now exists k.
Qed.

Lemma X17_witness :
  exists r,
    generateUniqueRef [handleChange (EditReferenceNo "SO-00042") twoRowOrder]
      [42; 731]%nat = Some r /\
    (forall o,
       In o [handleChange (EditReferenceNo "SO-00042") twoRowOrder] ->
       referenceNo o <> r).
Proof.
  destruct (proj2 (X17_generated_reference_is_unused
                     [handleChange (EditReferenceNo "SO-00042") twoRowOrder]
                     [42; 731]%nat)) as [r Hr].
  - exists 731%nat. split; [right; left; reflexivity|].
    intros o [<-|[]]. discriminate.
  - exists r. split; [exact Hr|].
    exact (proj1 (proj1 (X17_generated_reference_is_unused
                           [handleChange (EditReferenceNo "SO-00042")
                              twoRowOrder]
                           [42; 731]%nat) r Hr)).
Defined.

(** X18. The four equations of the order (row totals, subTotal, gstAmount,
    grandTotal) are an invariant of the form: if they hold for the order
    the form is opened on (they hold for the empty form), they hold after
    every sequence of add-item, remove-item, product, quantity and price
    edits and GST changes. *)
Theorem X18_the_equations_are_kept_throughout_a_session
    (products : list ProductFormData.t) (now : Z) (generated : string)
    (order : option SalesOrderFormData.t) (acts : list Action) :
  (forall o, order = Some o -> consistent o) ->
  forallb formAction acts = true ->
  consistent (run products (openForm now generated order) acts).
Proof.
  intros Horder Hacts.
  assert (H0 : consistent (openForm now generated order)).
  { destruct order as [o|]; [now apply Horder|].
    unfold consistent, rowsConsistent, subTotalConsistent, gstConsistent,
      grandTotalConsistent. simpl. repeat split. constructor. }
  unfold run. revert H0 Hacts. generalize (openForm now generated order).
  induction acts as [|a acts IH]; intros start Hstart Ha; simpl.
  - exact Hstart.
  - simpl in Ha. apply andb_true_iff in Ha. destruct Ha as [Ha Hacts].
    apply IH; [|exact Hacts]. now apply apply_consistent.
Qed.

Lemma X18_witness :
  consistent
    (run catalog
       (openForm 0 "SO-00042"
          (Some (sampleOrder [row "item-9" "P-003" 2 10 20] 20 (Some 0) 0 20)))
       [AddItem "r1"; ItemChange "r1" (ItemProductId "P-001");
        ItemChange "r1" (ItemQuantity 3); GstChange (Some 18);
        RemoveItem "item-9"]).
Proof.
  apply X18_the_equations_are_kept_throughout_a_session.
  - intros o H. injection H as <-.
    unfold consistent, rowsConsistent, subTotalConsistent, gstConsistent,
      grandTotalConsistent. simpl.
    repeat split; repeat constructor.
  - reflexivity.
Defined.

Lemma filter_filter_comm {A : Type} (f g : A -> bool) (l : list A) :
  filter f (filter g l) = filter g (filter f l).
Proof.
  induction l as [|x l IH]; simpl; [reflexivity|].
  destruct (f x) eqn:Ef, (g x) eqn:Eg; simpl; rewrite ?Ef, ?Eg, IH;
    reflexivity.
Qed.

Lemma filter_idem {A : Type} (f : A -> bool) (l : list A) :
  filter f (filter f l) = filter f l.
Proof.
  induction l as [|x l IH]; simpl; [reflexivity|].
  destruct (f x) eqn:Ef; simpl; rewrite ?Ef, IH; reflexivity.
Qed.

(** X19. Removing rows composes as expected: removing the same row id
    twice is the same as removing it once, and two removals give the same
    form in either order. *)
Theorem X19_removals_are_idempotent_and_commute
    (r1 r2 : string) (fd : SalesOrderFormData.t) :
  handleRemoveItem r1 (handleRemoveItem r1 fd) = handleRemoveItem r1 fd /\
  handleRemoveItem r1 (handleRemoveItem r2 fd)
    = handleRemoveItem r2 (handleRemoveItem r1 fd).
Proof.
  unfold handleRemoveItem, withTotals. simpl. split.
  - rewrite filter_idem. reflexivity.
  - rewrite filter_filter_comm. reflexivity.
Qed.

(** X20. Adding a row and removing it again restores the rows of the
    form, provided the new row's id is not the id of an existing row; the
    totals are recomputed from those rows, so they are the totals of the
    form before whenever these were consistent. *)
Theorem X20_adding_then_removing_a_row_restores_the_rows
    (rowId : string) (fd : SalesOrderFormData.t) :
  (forall item, In item (items fd) -> SalesOrderItem.id item <> rowId) ->
  items (handleRemoveItem rowId (handleAddItem rowId fd)) = items fd /\
  subTotal (handleRemoveItem rowId (handleAddItem rowId fd))
    == sumOfLineTotals (items fd) /\
  (subTotalConsistent fd -> gstConsistent fd -> grandTotalConsistent fd ->
   subTotal (handleRemoveItem rowId (handleAddItem rowId fd)) == subTotal fd /\
   gstAmount (handleRemoveItem rowId (handleAddItem rowId fd))
     == gstAmount fd /\
   grandTotal (handleRemoveItem rowId (handleAddItem rowId fd))
     == grandTotal fd).
Proof.
  intro Hfresh.
  assert (Hitems :
    items (handleRemoveItem rowId (handleAddItem rowId fd)) = items fd).
  { unfold handleRemoveItem, handleAddItem, withTotals. simpl.
    rewrite filter_app. simpl. rewrite String.eqb_refl. simpl.
    rewrite app_nil_r.
    apply (filter_absent (fun item => String.eqb (SalesOrderItem.id item) rowId)).
    intros item Hin. apply String.eqb_neq. now apply Hfresh. }
  destruct (withTotals_recomputed (handleAddItem rowId fd)
              (remaining rowId (items (handleAddItem rowId fd))))
    as [Hs [Hg Ht]].
  change (withTotals _ _ _ _ _)
    with (handleRemoveItem rowId (handleAddItem rowId fd)) in Hs, Hg, Ht.
  unfold subTotalConsistent in Hs. rewrite Hitems in Hs.
  split; [exact Hitems|]. split; [exact Hs|].
  intros Cs Cg Ct.
  unfold subTotalConsistent in Cs. unfold gstConsistent in Cg, Hg.
  unfold grandTotalConsistent in Ct, Ht.
  assert (E1 : subTotal (handleRemoveItem rowId (handleAddItem rowId fd))
               == subTotal fd) by now rewrite Hs, Cs.
  assert (E2 : gstAmount (handleRemoveItem rowId (handleAddItem rowId fd))
               == gstAmount fd).
  { rewrite Hg, Cg, E1. reflexivity. }
  split; [exact E1|]. split; [exact E2|].
  now rewrite Ht, Ct, E1, E2.
Qed.

Lemma X20_witness :
  items (handleRemoveItem "r1" (handleAddItem "r1" twoRowOrder))
    = items twoRowOrder /\
  subTotal (handleRemoveItem "r1" (handleAddItem "r1" twoRowOrder))
    == sumOfLineTotals (items twoRowOrder).
Proof.
  destruct (X20_adding_then_removing_a_row_restores_the_rows "r1"
              twoRowOrder) as [H1 [H2 _]].
  - intros item [<-|[<-|[]]]; discriminate.
  - split; [exact H1|exact H2].
Defined.

(** X21. A GST input that does not parse, or parses to a number that is
    not positive, means no tax: the rate becomes 0, gstAmount becomes 0 and
    grandTotal becomes subTotal.  Of two successive GST changes only the
    last one counts. *)
Theorem X21_gst_input_edge_cases
    (val : option number) (fd : SalesOrderFormData.t) :
  ((val = None \/ exists v, val = Some v /\ v <= 0) ->
   gstRate (handleGstChange val fd) == 0 /\
   gstAmount (handleGstChange val fd) == 0 /\
   grandTotal (handleGstChange val fd) == subTotal fd) /\
  (forall earlier,
     handleGstChange val (handleGstChange earlier fd)
     = handleGstChange val fd).
Proof.
  split; [|reflexivity].
  intro H.
  assert (E : parsedOrZeroClamped val == 0).
  { destruct H as [->|[v [-> Hv]]]; [reflexivity|].
    simpl. unfold Math_max. now apply Q.max_l. }
  unfold gstRate, handleGstChange.
  cbn [gstPercentage gstAmount grandTotal subTotal].
  rewrite orZero_Some_eq.
  split; [exact E|].
  assert (G : subTotal fd * parsedOrZeroClamped val / 100 == 0).
  { rewrite E. unfold Qdiv. now rewrite Qmult_0_r, Qmult_0_l. }
  split; [exact G|]. rewrite G. apply Qplus_0_r.
Qed.

Lemma X21_witness :
  gstRate (handleGstChange (Some (-18)) twoRowOrder) == 0 /\
  gstAmount (handleGstChange (Some (-18)) twoRowOrder) == 0 /\
  grandTotal (handleGstChange (Some (-18)) twoRowOrder)
    == subTotal twoRowOrder.
Proof.
  apply (proj1 (X21_gst_input_edge_cases (Some (-18)) twoRowOrder)).
  right. exists (-18). split; [reflexivity|discriminate].
Defined.

(** X22. An edit addressed to a row id that no row carries changes no
    row; the three totals are recomputed all the same, so that afterwards
    subTotal is the sum of the row totals, gstAmount is subTotal times the
    rate over 100 and grandTotal is their sum, whatever they were
    before. *)
Theorem X22_editing_a_missing_row_only_recomputes_the_totals
    (products : list ProductFormData.t) (rowId : string) (e : ItemEdit)
    (fd : SalesOrderFormData.t) :
  (forall item, In item (items fd) -> SalesOrderItem.id item <> rowId) ->
  items (handleItemChange products rowId e fd) = items fd /\
  subTotalConsistent (handleItemChange products rowId e fd) /\
  gstConsistent (handleItemChange products rowId e fd) /\
  grandTotalConsistent (handleItemChange products rowId e fd).
Proof.
  intro Hmissing. split.
  - unfold handleItemChange. cbn [items withTotals].
    revert Hmissing. generalize (items fd).
    induction l as [|item l IH]; intro H; simpl; [reflexivity|].
    assert (E : String.eqb (SalesOrderItem.id item) rowId = false).
    { apply String.eqb_neq. apply H. now left. }
    rewrite E. f_equal. apply IH. intros x Hx. apply H. now right.
  - apply withTotals_recomputed.
Qed.

Lemma X22_witness :
  items (handleItemChange catalog "item-404" (ItemQuantity 7) staleOrder)
    = items staleOrder /\
  subTotalConsistent
    (handleItemChange catalog "item-404" (ItemQuantity 7) staleOrder) /\
  gstConsistent
    (handleItemChange catalog "item-404" (ItemQuantity 7) staleOrder) /\
  grandTotalConsistent
    (handleItemChange catalog "item-404" (ItemQuantity 7) staleOrder).
Proof.
  apply X22_editing_a_missing_row_only_recomputes_the_totals.
  intros item [<-|[<-|[]]]; discriminate.
Defined.

Lemma updateItem_keeps_nonNegative (products : list ProductFormData.t)
    (e : ItemEdit) (item : SalesOrderItem.t) :
  (forall p, In p products -> 0 <= ProductFormData.sellingPrice p) ->
  rowNonNegative item ->
  rowNonNegative (updateItem products e item).
Proof.
  intros Hcat [Hq [Hp Ht]].
  destruct e as [v|v|v|v|v]; unfold updateItem, rowNonNegative;
    cbn [assign recalculates].
  - simpl. auto.
  - destruct (findProduct products v) as [p|] eqn:E; simpl.
    + apply findProduct_Some in E. destruct E as [Hin _].
      pose proof (Hcat p Hin) as Hprice.
      repeat split; auto. now apply Qmult_le_0_compat.
    + repeat split; auto. now apply Qmult_le_0_compat.
  - simpl. repeat split; auto using Math_max_0_nonneg.
    apply Qmult_le_0_compat; auto using Math_max_0_nonneg.
  - simpl. repeat split; auto using Math_max_0_nonneg.
    apply Qmult_le_0_compat; auto using Math_max_0_nonneg.
  - simpl. repeat split; auto using Math_max_0_nonneg.
Qed.

(** X23. When no product of the catalog has a negative selling price,
    non-negativity is an invariant of the form under every handler call,
    product selections included: starting from a form whose quantities,
    prices, row totals, rate and totals are not negative, they stay so, and
    in particular subTotal, gstAmount and grandTotal stay non-negative. *)
Theorem X23_nonnegative_totals_with_product_selections
    (products : list ProductFormData.t) (start : SalesOrderFormData.t)
    (acts : list Action) :
  (forall p, In p products -> 0 <= ProductFormData.sellingPrice p) ->
  nonNegative start ->
  nonNegative (run products start acts) /\
  0 <= subTotal (run products start acts) /\
  0 <= gstAmount (run products start acts) /\
  0 <= grandTotal (run products start acts).
Proof.
  intros Hcat Hstart.
  assert (H : nonNegative (run products start acts)).
  { unfold run. revert start Hstart.
    induction acts as [|a acts IH]; intros start Hstart; simpl;
      [exact Hstart|].
    apply IH.
    destruct a as [rowId|rowId|rowId e|val].
    - now apply (apply_nonNegative products start (AddItem rowId)).
    - now apply (apply_nonNegative products start (RemoveItem rowId)).
    - destruct Hstart as [Hrows [Hs [Hg [Hga Hgt]]]]. simpl.
      apply recomputed_nonNegative; [exact Hg|].
      induction Hrows as [|item l Hitem _ IHl]; simpl; constructor; auto.
      destruct (String.eqb _ rowId); [|exact Hitem].
      now apply updateItem_keeps_nonNegative.
    - now apply (apply_nonNegative products start (GstChange val)). }
  split; [exact H|].
  destruct H as [_ [Hs [_ [Hg Ht]]]]. auto.
Qed.

Lemma X23_witness :
  0 <= grandTotal
         (run catalog (openForm 0 "SO-00042" None)
            [AddItem "r1"; ItemChange "r1" (ItemProductId "P-001");
             ItemChange "r1" (ItemQuantity 3); GstChange (Some 18)]).
Proof.
  destruct (X23_nonnegative_totals_with_product_selections catalog
              (openForm 0 "SO-00042" None)
              [AddItem "r1"; ItemChange "r1" (ItemProductId "P-001");
               ItemChange "r1" (ItemQuantity 3); GstChange (Some 18)])
    as [_ [_ [_ H]]].
  - intros p [<-|[<-|[]]]; discriminate.
  - apply emptyForm_nonNegative.
  - exact H.
Defined.

End SalesOrderExtras.

(** ** Stock kept in the shared product list *)

Module StockExtras.
Import JS JSFacts ListFacts.
Import StockSpec.

Lemma set_stock_same (p : ProductFormData.t) :
  ProductFormData.set_stock (ProductFormData.stock p) p = p.
Proof. now destruct p. Qed.

Lemma set_stock_twice (a b : number) (p : ProductFormData.t) :
  ProductFormData.set_stock a (ProductFormData.set_stock b p)
  = ProductFormData.set_stock a p.
Proof. reflexivity. Qed.

Lemma updateStock_ids (pid : string) (f : number -> number)
    (ps : list ProductFormData.t) :
  map ProductFormData.id (MockProducts.updateStock pid f ps)
  = map ProductFormData.id ps.
Proof.
  induction ps as [|p ps IH]; simpl; [reflexivity|].
  destruct (optEqb (ProductFormData.id p) pid); simpl; [reflexivity|].
  now rewrite IH.
Qed.

Lemma applyUpdates_ids (us : list (string * (number -> number)))
    (ps : list ProductFormData.t) :
  map ProductFormData.id (applyUpdates us ps) = map ProductFormData.id ps.
Proof.
  unfold applyUpdates. revert ps.
  induction us as [|u us IH]; intro ps; simpl; [reflexivity|].
  now rewrite IH, updateStock_ids.
Qed.

(** The update reaches the product [find] returns and no other. *)
Lemma updateStock_nth (pid : string) (f : number -> number)
    (ps : list ProductFormData.t) (i : nat) :
  nth_error (MockProducts.updateStock pid f ps) i
  = option_map
      (fun p => if hitIds pid (map ProductFormData.id ps) i
                then ProductFormData.set_stock (f (ProductFormData.stock p)) p
                else p)
      (nth_error ps i).
Proof.
  revert i. induction ps as [|p ps IH]; intro i; simpl.
  - now destruct i.
  - destruct (optEqb (ProductFormData.id p) pid) eqn:E.
    + destruct i as [|i]; simpl.
      * unfold hitIds. simpl. now rewrite E.
      * unfold hitIds. simpl. rewrite nth_error_map.
        destruct (nth_error ps i) as [q|]; simpl; [|reflexivity].
        rewrite E. simpl. now rewrite andb_false_r.
    + destruct i as [|i]; simpl.
      * unfold hitIds. simpl. now rewrite E.
      * rewrite IH. unfold hitIds. simpl. now rewrite E.
Qed.

Lemma applyUpdates_nth (us : list (string * (number -> number)))
    (ps : list ProductFormData.t) (i : nat) :
  nth_error (applyUpdates us ps) i
  = option_map
      (fun p => ProductFormData.set_stock
                  (stockAt (map ProductFormData.id ps) i us
                     (ProductFormData.stock p)) p)
      (nth_error ps i).
Proof.
  unfold applyUpdates, stockAt. revert ps.
  induction us as [|u us IH]; intro ps; simpl.
  - destruct (nth_error ps i) as [p|]; simpl; [|reflexivity].
    now rewrite set_stock_same.
  - rewrite IH, updateStock_ids, updateStock_nth.
    destruct (nth_error ps i) as [p|]; simpl; [|reflexivity].
    destruct (hitIds (fst u) (map ProductFormData.id ps) i); reflexivity.
Qed.

Lemma applyUpdates_length (us : list (string * (number -> number)))
    (ps : list ProductFormData.t) :
  List.length (applyUpdates us ps) = List.length ps.
Proof.
  rewrite <- (length_map ProductFormData.id (applyUpdates us ps)).
  rewrite applyUpdates_ids. apply length_map.
Qed.

Lemma deductStock_updates (l : list SalesOrderItem.t)
    (ps : list ProductFormData.t) :
  SalesOrders.deductStock l ps = applyUpdates (salesUpdates Qminus l) ps.
Proof.
  unfold SalesOrders.deductStock, applyUpdates, salesUpdates.
  revert ps. induction l as [|item l IH]; intro ps; simpl; [reflexivity|].
  apply IH.
Qed.

Lemma revertStock_updates (l : list SalesOrderItem.t)
    (ps : list ProductFormData.t) :
  SalesOrders.revertStock l ps = applyUpdates (salesUpdates Qplus l) ps.
Proof.
  unfold SalesOrders.revertStock, applyUpdates, salesUpdates.
  revert ps. induction l as [|item l IH]; intro ps; simpl; [reflexivity|].
  apply IH.
Qed.

Lemma receiveStock_updates (l : list PurchaseOrders.PurchaseOrderItem)
    (ps : list ProductFormData.t) :
  PurchaseOrders.receiveStock l ps = applyUpdates (purchaseUpdates l) ps.
Proof.
  unfold PurchaseOrders.receiveStock, applyUpdates, purchaseUpdates.
  revert ps. induction l as [|item l IH]; intro ps; simpl; [reflexivity|].
  apply IH.
Qed.

(** *** What a deduction does to the product a row names *)

Lemma findProduct_updateStock (pid' : string) (f : number -> number)
    (ps : list ProductFormData.t) (pid : string) :
  SalesOrderFormModal.findProduct (MockProducts.updateStock pid' f ps) pid
  = if String.eqb pid' pid
    then option_map
           (fun p => ProductFormData.set_stock (f (ProductFormData.stock p)) p)
           (SalesOrderFormModal.findProduct ps pid)
    else SalesOrderFormModal.findProduct ps pid.
Proof.
  unfold SalesOrderFormModal.findProduct.
  induction ps as [|p ps IH]; simpl.
  - now destruct (String.eqb pid' pid).
  - destruct (optEqb (ProductFormData.id p) pid') eqn:E'.
    + apply optEqb_eq in E'. simpl. rewrite E'. simpl.
      destruct (String.eqb pid' pid); reflexivity.
    + simpl. destruct (optEqb (ProductFormData.id p) pid) eqn:E.
      * apply optEqb_eq in E. apply optEqb_neq in E'.
        assert (N : String.eqb pid' pid = false).
        { apply String.eqb_neq. intros ->. contradiction. }
        now rewrite N.
      * exact IH.
Qed.

Lemma findProduct_deductStock (l : list SalesOrderItem.t)
    (ps : list ProductFormData.t) (pid : string) :
  SalesOrderFormModal.findProduct (SalesOrders.deductStock l ps) pid
  = option_map
      (fun p =>
         ProductFormData.set_stock
           (fold_left
              (fun s item =>
                 if String.eqb (SalesOrderItem.productId item) pid
                 then s - SalesOrderItem.quantity item else s)
              l (ProductFormData.stock p)) p)
      (SalesOrderFormModal.findProduct ps pid).
Proof.
  unfold SalesOrders.deductStock. revert ps.
  induction l as [|item l IH]; intro ps; simpl.
  - destruct (SalesOrderFormModal.findProduct ps pid) as [p|]; simpl;
      [|reflexivity].
    now rewrite set_stock_same.
  - rewrite IH, findProduct_updateStock.
    destruct (String.eqb (SalesOrderItem.productId item) pid);
      [|reflexivity].
    destruct (SalesOrderFormModal.findProduct ps pid) as [p|]; reflexivity.
Qed.

Lemma deducted_total (pid : string) (l : list SalesOrderItem.t) (s : Q) :
  fold_left
    (fun s item =>
       if String.eqb (SalesOrderItem.productId item) pid
       then s - SalesOrderItem.quantity item else s) l s
  == s - orderedQuantity pid l.
Proof.
  revert s. induction l as [|item l IH]; intro s; simpl.
  - ring.
  - rewrite IH.
    destruct (String.eqb (SalesOrderItem.productId item) pid); ring.
Qed.

(** X24. Deducting the rows of an order from the product list lowers, for
    every product id, the stock of the first product with that id by the
    total quantity the rows order of it, with no floor at zero, and
    changes nothing else of that product; an id no product carries stays
    unknown, and the list keeps its length. *)
Theorem X24_deduction_lowers_stock_by_the_ordered_quantity
    (l : list SalesOrderItem.t) (ps : list ProductFormData.t)
    (pid : string) :
  (forall p,
     SalesOrderFormModal.findProduct ps pid = Some p ->
     exists p',
       SalesOrderFormModal.findProduct (SalesOrders.deductStock l ps) pid
         = Some p' /\
       ProductFormData.stock p'
         == ProductFormData.stock p - orderedQuantity pid l /\
       ProductFormData.set_stock (ProductFormData.stock p) p' = p) /\
  (SalesOrderFormModal.findProduct ps pid = None ->
   SalesOrderFormModal.findProduct (SalesOrders.deductStock l ps) pid
     = None) /\
  List.length (SalesOrders.deductStock l ps) = List.length ps.
Proof.
  rewrite findProduct_deductStock. split; [|split].
  - intros p Hp. rewrite Hp. simpl. eexists. split; [reflexivity|].
    split.
    + simpl. apply deducted_total.
    + rewrite set_stock_twice. apply set_stock_same.
  - intros ->. reflexivity.
  - rewrite deductStock_updates. apply applyUpdates_length.
Qed.

Lemma X24_witness :
  exists p',
    SalesOrderFormModal.findProduct
      (SalesOrders.deductStock
         [SalesOrderItem.mk "r1" "P-001" 50 10 500;
          SalesOrderItem.mk "r2" "P-001" 5 10 50] stockroom) "P-001"
      = Some p' /\
    ProductFormData.stock p' == -10.
Proof.
  destruct (proj1 (X24_deduction_lowers_stock_by_the_ordered_quantity
                     [SalesOrderItem.mk "r1" "P-001" 50 10 500;
                      SalesOrderItem.mk "r2" "P-001" 5 10 50]
                     stockroom "P-001")
              (hd (ProductFormData.mk None "" "" "" 0 0 0 None "" 0 "" false)
                 stockroom) eq_refl)
    as [p' [Hfind [Hstock _]]].
  exists p'. split; [exact Hfind|].
  rewrite Hstock. reflexivity.
Defined.

(** *** Deducting and reverting *)

Lemma hitIds_other (pid : string) (ps : list ProductFormData.t) (i : nat)
    (p : ProductFormData.t) :
  nth_error ps i = Some p ->
  ProductFormData.id p <> Some pid ->
  hitIds pid (map ProductFormData.id ps) i = false.
Proof.
  intros Hp Hid. unfold hitIds. rewrite nth_error_map, Hp. simpl.
  apply optEqb_neq in Hid. now rewrite Hid.
Qed.

Lemma stockAt_unnamed (ids : list (option string)) (i : nat)
    (us : list (string * (number -> number))) (s : number) :
  (forall u, In u us -> hitIds (fst u) ids i = false) ->
  stockAt ids i us s = s.
Proof.
  unfold stockAt. revert s.
  induction us as [|u us IH]; intros s H; simpl; [reflexivity|].
  rewrite (H u) by now left. apply IH. intros v Hv. apply H. now right.
Qed.

Lemma revert_after_deduct_nth (l : list SalesOrderItem.t)
    (ps : list ProductFormData.t) (i : nat) (p : ProductFormData.t) :
  nth_error ps i = Some p ->
  nth_error (SalesOrders.revertStock l (SalesOrders.deductStock l ps)) i
  = Some
      (ProductFormData.set_stock
         (stockAt (map ProductFormData.id ps) i (salesUpdates Qplus l)
            (stockAt (map ProductFormData.id ps) i (salesUpdates Qminus l)
               (ProductFormData.stock p))) p).
Proof.
  intro Hp.
  rewrite revertStock_updates, deductStock_updates.
  rewrite applyUpdates_nth, applyUpdates_ids, applyUpdates_nth, Hp.
  reflexivity.
Qed.

(** X25. Deducting the rows of an order from the product list and then
    returning the same rows keeps the length of the list, changes nothing
    of any product but its stock, and leaves every product whose id no row
    names exactly as it was. *)
Theorem X25_reverting_after_deducting_touches_only_named_stocks
    (l : list SalesOrderItem.t) (ps : list ProductFormData.t) :
  List.length (SalesOrders.revertStock l (SalesOrders.deductStock l ps))
    = List.length ps /\
  forall i p,
    nth_error ps i = Some p ->
    exists p',
      nth_error (SalesOrders.revertStock l (SalesOrders.deductStock l ps)) i
        = Some p' /\
      ProductFormData.set_stock (ProductFormData.stock p) p' = p /\
      ((forall item, In item l ->
          ProductFormData.id p <> Some (SalesOrderItem.productId item)) ->
       p' = p).
Proof.
  split.
  - rewrite revertStock_updates, deductStock_updates.
    now rewrite !applyUpdates_length.
  - intros i p Hp. rewrite (revert_after_deduct_nth l ps i p Hp).
    eexists. split; [reflexivity|]. split.
    + rewrite set_stock_twice. apply set_stock_same.
    + intro Hunnamed.
      assert (Hhit : forall sign u, In u (salesUpdates sign l) ->
                hitIds (fst u) (map ProductFormData.id ps) i = false).
      { intros sign u Hu. unfold salesUpdates in Hu.
        apply in_map_iff in Hu. destruct Hu as [item [<- Hin]]. simpl.
        apply (hitIds_other _ ps i p Hp). now apply Hunnamed. }
      rewrite (stockAt_unnamed _ _ _ _ (Hhit Qminus)).
      rewrite (stockAt_unnamed _ _ _ _ (Hhit Qplus)).
      apply set_stock_same.
Qed.

Lemma X25_witness :
  nth_error
    (SalesOrders.revertStock [SalesOrderItem.mk "r1" "P-001" 2 10 20]
       (SalesOrders.deductStock [SalesOrderItem.mk "r1" "P-001" 2 10 20]
          stockroom)) 1
  = nth_error stockroom 1.
Proof.
  destruct (proj2 (X25_reverting_after_deducting_touches_only_named_stocks
                     [SalesOrderItem.mk "r1" "P-001" 2 10 20] stockroom)
              1%nat
              (ProductFormData.mk (Some "P-003") "Cotton T-Shirt" "Clothing"
                 "TS-COT-M" 8 (1999 # 100) 120 None "pcs" 20 "Active" true)
              eq_refl)
    as [p' [Hnth [_ Hsame]]].
  rewrite Hnth. rewrite Hsame; [reflexivity|].
  intros item [<-|[]]. discriminate.
Defined.

(** *** The sales-orders page *)

Section SavedOrder.
Import SalesOrderFormData SalesOrderFormModal.
Variable data : SalesOrderFormData.t.
Variable st : SalesOrders.PageState.
Variable o : SalesOrderFormData.t.
Hypothesis data_id : truthyId (id data) = true.
Hypothesis stored :
  find (fun x => optOptEqb (id x) (id data)) (SalesOrders.orders st) = Some o.

Lemma save_existing (f : string) (s : Status) :
  fst (SalesOrders.handleSaveOrder f (handleChange (EditStatus s) data) st)
  = SalesOrders.mkPageState
      (map (fun x => if optOptEqb (id x) (id data)
                     then handleChange (EditStatus s) data else x)
         (SalesOrders.orders st))
      (if negb (SalesOrders.shippedOrCompleted (status o))
          && SalesOrders.shippedOrCompleted s
       then SalesOrders.deductStock (items data) (SalesOrders.mockProducts st)
       else if SalesOrders.shippedOrCompleted (status o)
               && SalesOrders.isCancelled s
            then SalesOrders.revertStock (items data)
                   (SalesOrders.mockProducts st)
            else SalesOrders.mockProducts st)
      false (SalesOrders.orderToDelete st).
Proof.
  unfold SalesOrders.handleSaveOrder.
  cbn [handleChange id status items]. rewrite data_id, stored.
  destruct (negb (SalesOrders.shippedOrCompleted (status o))
            && SalesOrders.shippedOrCompleted s); [reflexivity|].
  destruct (SalesOrders.shippedOrCompleted (status o)
            && SalesOrders.isCancelled s); reflexivity.
Qed.

Lemma stored_after_save (f : string) (s : Status) :
  find (fun x => optOptEqb (id x) (id data))
    (SalesOrders.orders
       (fst (SalesOrders.handleSaveOrder f
               (handleChange (EditStatus s) data) st)))
  = Some (handleChange (EditStatus s) data).
Proof.
  rewrite save_existing. cbn [SalesOrders.orders].
  rewrite (find_replace (fun x => optOptEqb (id x) (id data))).
  - now rewrite stored.
  - cbn [handleChange id]. now apply optOptEqb_eq.
Qed.

End SavedOrder.



(** X27. Stock is deducted on every passage of a stored order from a
    status that is not deducted to "Shipped" or "Completed": shipping an
    order, setting it back to "Pending" and shipping it again deducts its
    rows twice. *)
Theorem X27_shipping_again_after_pending_deducts_twice
    (f1 f2 f3 : string) (data o : SalesOrderFormData.t)
    (st : SalesOrders.PageState) (s s' : SalesOrderFormData.Status) :
  truthyId (SalesOrderFormData.id data) = true ->
  find (fun x => optOptEqb (SalesOrderFormData.id x)
                   (SalesOrderFormData.id data))
    (SalesOrders.orders st) = Some o ->
  SalesOrders.shippedOrCompleted (SalesOrderFormData.status o) = false ->
  SalesOrders.shippedOrCompleted s = true ->
  SalesOrders.shippedOrCompleted s' = true ->
  SalesOrders.mockProducts
    (SalesOrders.saveAll f1
       [SalesOrderFormModal.handleChange (SalesOrderFormModal.EditStatus s)
          data;
        SalesOrderFormModal.handleChange
          (SalesOrderFormModal.EditStatus SalesOrderFormData.Pending) data;
        SalesOrderFormModal.handleChange (SalesOrderFormModal.EditStatus s')
          data] st)
  = SalesOrders.deductStock (SalesOrderFormData.items data)
      (SalesOrders.deductStock (SalesOrderFormData.items data)
         (SalesOrders.mockProducts st)).
Proof.
  intros Hid Hst Ho Hs Hs'. unfold SalesOrders.saveAll. cbn [fold_left].
  pose proof (stored_after_save data st o Hid Hst f1 s) as Hst1.
  set (st1 := fst (SalesOrders.handleSaveOrder f1
                     (SalesOrderFormModal.handleChange
                        (SalesOrderFormModal.EditStatus s) data) st)) in *.
  pose proof (stored_after_save data st1 _ Hid Hst1 f1
                SalesOrderFormData.Pending) as Hst2.
  set (st2 := fst (SalesOrders.handleSaveOrder f1
                     (SalesOrderFormModal.handleChange
                        (SalesOrderFormModal.EditStatus
                           SalesOrderFormData.Pending) data) st1)) in *.
  rewrite (save_existing data st2 _ Hid Hst2 f1 s').
  cbn [SalesOrders.mockProducts SalesOrderFormModal.handleChange
       SalesOrderFormData.status SalesOrders.shippedOrCompleted].
  rewrite Hs'. cbn [negb andb].
  unfold st2. rewrite (save_existing data st1 _ Hid Hst1 f1).
  cbn [SalesOrders.mockProducts SalesOrderFormModal.handleChange
       SalesOrderFormData.status SalesOrders.shippedOrCompleted
       SalesOrders.isCancelled].
  rewrite Hs. cbn [negb andb].
  unfold st1. rewrite (save_existing data st o Hid Hst f1).
  cbn [SalesOrders.mockProducts]. rewrite Ho, Hs. reflexivity.
Qed.

Lemma X27_witness :
  SalesOrders.mockProducts
    (SalesOrders.saveAll "so-1"
       [SalesOrderFormModal.handleChange
          (SalesOrderFormModal.EditStatus SalesOrderFormData.Shipped)
          pendingOrder;
        SalesOrderFormModal.handleChange
          (SalesOrderFormModal.EditStatus SalesOrderFormData.Pending)
          pendingOrder;
        SalesOrderFormModal.handleChange
          (SalesOrderFormModal.EditStatus SalesOrderFormData.Completed)
          pendingOrder] salesPage)
  = SalesOrders.deductStock (SalesOrderFormData.items pendingOrder)
      (SalesOrders.deductStock (SalesOrderFormData.items pendingOrder)
         stockroom).
Proof.
  apply (X27_shipping_again_after_pending_deducts_twice "so-1" "so-1" "so-1"
           pendingOrder pendingOrder salesPage SalesOrderFormData.Shipped
           SalesOrderFormData.Completed); reflexivity.
Defined.

(** X28. Creating an order as "Shipped" or "Completed" deducts its rows
    from stock; deleting that order afterwards removes it from the list of
    orders (which is then as before, provided its id was unused) but leaves
    the stock deducted. *)
Theorem X28_deleting_a_shipped_order_keeps_the_deduction
    (freshId : string) (data : SalesOrderFormData.t)
    (st : SalesOrders.PageState) :
  truthyId (SalesOrderFormData.id data) = false ->
  SalesOrders.shippedOrCompleted (SalesOrderFormData.status data) = true ->
  (forall x, In x (SalesOrders.orders st) ->
     SalesOrderFormData.id x <> Some freshId) ->
  SalesOrders.orders
    (fst (SalesOrders.handleDeleteOrder freshId
            (fst (SalesOrders.handleSaveOrder freshId data st))))
  = SalesOrders.orders st /\
  SalesOrders.mockProducts
    (fst (SalesOrders.handleDeleteOrder freshId
            (fst (SalesOrders.handleSaveOrder freshId data st))))
  = SalesOrders.deductStock (SalesOrderFormData.items data)
      (SalesOrders.mockProducts st).
Proof.
  intros Hid Hs Hfresh.
  unfold SalesOrders.handleSaveOrder. rewrite Hid.
  cbn [SalesOrders.set_id SalesOrderFormData.status
       SalesOrderFormData.items]. rewrite Hs.
  unfold SalesOrders.handleDeleteOrder. simpl.
  rewrite String.eqb_refl. simpl. split; [|reflexivity].
  apply (filter_absent
           (fun x => optEqb (SalesOrderFormData.id x) freshId)).
  intros x Hin. apply optEqb_neq. now apply Hfresh.
Qed.

Lemma X28_witness :
  SalesOrders.mockProducts
    (fst (SalesOrders.handleDeleteOrder "so-9"
            (fst (SalesOrders.handleSaveOrder "so-9"
                    (SalesOrders.set_id None
                       (SalesOrderFormModal.handleChange
                          (SalesOrderFormModal.EditStatus
                             SalesOrderFormData.Completed) pendingOrder))
                    salesPage))))
  = SalesOrders.deductStock (SalesOrderFormData.items pendingOrder)
      stockroom.
Proof.
  apply (X28_deleting_a_shipped_order_keeps_the_deduction "so-9"
           (SalesOrders.set_id None
              (SalesOrderFormModal.handleChange
                 (SalesOrderFormModal.EditStatus
                    SalesOrderFormData.Completed) pendingOrder))
           salesPage).
  - reflexivity.
  - reflexivity.
  - intros x [<-|[]]. discriminate.
Defined.

(** X30. Saving an order that carries an id the page does not store
    changes no stored order, yet, when its status is "Shipped" or
    "Completed", its rows are deducted from stock all the same. *)
Theorem X30_saving_an_unknown_order_still_deducts_stock
    (f : string) (data : SalesOrderFormData.t)
    (st : SalesOrders.PageState) :
  truthyId (SalesOrderFormData.id data) = true ->
  (forall x, In x (SalesOrders.orders st) ->
     SalesOrderFormData.id x <> SalesOrderFormData.id data) ->
  SalesOrders.shippedOrCompleted (SalesOrderFormData.status data) = true ->
  SalesOrders.orders (fst (SalesOrders.handleSaveOrder f data st))
    = SalesOrders.orders st /\
  SalesOrders.mockProducts (fst (SalesOrders.handleSaveOrder f data st))
    = SalesOrders.deductStock (SalesOrderFormData.items data)
        (SalesOrders.mockProducts st).
Proof.
  intros Hid Hmissing Hs.
  assert (Hc : forall x, In x (SalesOrders.orders st) ->
             optOptEqb (SalesOrderFormData.id x)
               (SalesOrderFormData.id data) = false).
  { intros x Hin. apply optOptEqb_neq. now apply Hmissing. }
  unfold SalesOrders.handleSaveOrder. rewrite Hid.
  rewrite (find_absent _ _ Hc), Hs. simpl. split; [|reflexivity].
  now apply replace_absent.
Qed.

Lemma X30_witness :
  SalesOrders.orders
    (fst (SalesOrders.handleSaveOrder "so-1"
            (SalesOrders.set_id (Some "so-77")
               (SalesOrderFormModal.handleChange
                  (SalesOrderFormModal.EditStatus SalesOrderFormData.Shipped)
                  pendingOrder))
            salesPage)) = [pendingOrder] /\
  SalesOrders.mockProducts
    (fst (SalesOrders.handleSaveOrder "so-1"
            (SalesOrders.set_id (Some "so-77")
               (SalesOrderFormModal.handleChange
                  (SalesOrderFormModal.EditStatus SalesOrderFormData.Shipped)
                  pendingOrder))
            salesPage))
  = SalesOrders.deductStock (SalesOrderFormData.items pendingOrder)
      stockroom.
Proof.
  apply (X30_saving_an_unknown_order_still_deducts_stock "so-1"
           (SalesOrders.set_id (Some "so-77")
              (SalesOrderFormModal.handleChange
                 (SalesOrderFormModal.EditStatus SalesOrderFormData.Shipped)
                 pendingOrder))
           salesPage).
  - reflexivity.
  - intros x [<-|[]]. discriminate.
  - reflexivity.
Defined.

(** *** The purchase-orders page *)

Lemma stocksNotLower_refl (ps : list ProductFormData.t) :
  stocksNotLower ps ps.
Proof.
  split; [reflexivity|]. intros i p Hp. exists p.
  split; [exact Hp|]. split; [apply Qle_refl|apply set_stock_same].
Qed.

Lemma stocksNotLower_trans (ps1 ps2 ps3 : list ProductFormData.t) :
  stocksNotLower ps1 ps2 -> stocksNotLower ps2 ps3 ->
  stocksNotLower ps1 ps3.
Proof.
  intros [L12 H12] [L23 H23]. split; [congruence|].
  intros i p Hp.
  destruct (H12 i p Hp) as [p2 [Hp2 [Hle2 Hs2]]].
  destruct (H23 i p2 Hp2) as [p3 [Hp3 [Hle3 Hs3]]].
  exists p3. split; [exact Hp3|]. split.
  - now apply Qle_trans with (ProductFormData.stock p2).
  - rewrite <- Hs3 in Hs2. rewrite set_stock_twice in Hs2. exact Hs2.
Qed.

Lemma received_not_lower (ids : list (option string)) (i : nat)
    (l : list PurchaseOrders.PurchaseOrderItem) (s : Q) :
  Forall (fun item => 0 <= PurchaseOrders.quantity item) l ->
  s <= stockAt ids i (purchaseUpdates l) s.
Proof.
  unfold stockAt, purchaseUpdates. intro H. revert s.
  induction H as [|item l Hq _ IH]; intro s; simpl.
  - apply Qle_refl.
  - destruct (hitIds (PurchaseOrders.productId item) ids i); [|apply IH].
    apply Qle_trans with (s + PurchaseOrders.quantity item); [|apply IH].
    rewrite <- (Qplus_0_r s) at 1. now apply Qplus_le_r.
Qed.

Lemma receiveStock_not_lower (l : list PurchaseOrders.PurchaseOrderItem)
    (ps : list ProductFormData.t) :
  Forall (fun item => 0 <= PurchaseOrders.quantity item) l ->
  stocksNotLower ps (PurchaseOrders.receiveStock l ps).
Proof.
  intro H. rewrite receiveStock_updates. split.
  - apply applyUpdates_length.
  - intros i p Hp. rewrite applyUpdates_nth, Hp. simpl.
    eexists. split; [reflexivity|]. split.
    + simpl. now apply received_not_lower.
    + rewrite set_stock_twice. apply set_stock_same.
Qed.

Lemma purchase_apply_not_lower (st : PurchaseOrders.PageState)
    (a : PurchaseOrders.Action) :
  receivesNonNegative a ->
  stocksNotLower (PurchaseOrders.mockProducts st)
    (PurchaseOrders.mockProducts (PurchaseOrders.apply st a)).
Proof.
  destruct a as [f data|i]; simpl; intro H.
  - unfold PurchaseOrders.handleSaveOrder.
    destruct (truthyId (PurchaseOrders.id data)).
    + destruct (negb _ && _); simpl.
      * now apply receiveStock_not_lower.
      * apply stocksNotLower_refl.
    + simpl. destruct (PurchaseOrders.isCompleted _); simpl.
      * now apply receiveStock_not_lower.
      * apply stocksNotLower_refl.
  - apply stocksNotLower_refl.
Qed.

(** X29. The purchase-orders page only ever adds to stock: whatever
    orders are saved (with non-negative quantities) or deleted, in whatever
    order and with whatever status changes, no product ends with less stock
    than it had, the list keeps its length and nothing but stocks changes.
    In particular cancelling or deleting a completed order does not take
    the received quantities back. *)
Theorem X29_purchase_orders_never_lower_a_stock
    (acts : list PurchaseOrders.Action) (st : PurchaseOrders.PageState) :
  Forall receivesNonNegative acts ->
  stocksNotLower (PurchaseOrders.mockProducts st)
    (PurchaseOrders.mockProducts (fold_left PurchaseOrders.apply acts st)).
Proof.
  intro H. revert st.
  induction H as [|a acts Ha _ IH]; intro st; simpl.
  - apply stocksNotLower_refl.
  - apply stocksNotLower_trans
      with (PurchaseOrders.mockProducts (PurchaseOrders.apply st a)).
    + now apply purchase_apply_not_lower.
    + apply IH.
Qed.

Lemma X29_witness :
  stocksNotLower stockroom
    (PurchaseOrders.mockProducts
       (fold_left PurchaseOrders.apply
          [PurchaseOrders.Save "po-1"
             (PurchaseOrders.mkOrder (Some "po-init-1") "PO-00100" "SUP-0001"
                [PurchaseOrders.mkItem "P-001" 5] None
                PurchaseOrders.Completed 1000);
           PurchaseOrders.Save "po-2"
             (PurchaseOrders.mkOrder (Some "po-init-1") "PO-00100" "SUP-0001"
                [PurchaseOrders.mkItem "P-001" 5] None
                PurchaseOrders.Cancelled 1000);
           PurchaseOrders.Delete "po-init-1"]
          purchasePage)).
Proof.
  apply (X29_purchase_orders_never_lower_a_stock
           [PurchaseOrders.Save "po-1"
              (PurchaseOrders.mkOrder (Some "po-init-1") "PO-00100" "SUP-0001"
                 [PurchaseOrders.mkItem "P-001" 5] None
                 PurchaseOrders.Completed 1000);
            PurchaseOrders.Save "po-2"
              (PurchaseOrders.mkOrder (Some "po-init-1") "PO-00100" "SUP-0001"
                 [PurchaseOrders.mkItem "P-001" 5] None
                 PurchaseOrders.Cancelled 1000);
            PurchaseOrders.Delete "po-init-1"]
           purchasePage).
  repeat constructor; discriminate.
Defined.

End StockExtras.
